(** * The delta-tracking metrics export pipeline of hsdfat/telco

    A shallow embedding of [stats/export/scheduler.go],
    [stats/export/transformer.go], the counter table and the three exporters,
    followed by the properties of the pipeline.

    Conventions of the embedding.
    - A Go [uint64] is a [Z] in [0, 2^64); arithmetic on it is wrapped by
      [wrap64] where the source can leave the range.  Go's [int] (counter
      identifiers, result codes) is a [Z].
    - A Go [float64] is a primitive binary64 [float]; [float64(n)] on an
      unsigned integer is round-to-nearest-even, [float64_of_uint64].
    - A Go map is a [gmap]; reading a missing key yields the zero value of
      the element type, as [m[k]] does in Go.  A nil map reads like the empty
      map and the code never writes to one, so both are the empty [gmap].
      [range] over a map visits the entries in an unspecified order:
      [map_fold] and [map_to_list] fix one.
    - A pointer [*T] is a [ptr T]: [nil] or the struct it points to.
      Snapshots are never written after they are built, so a pointer is
      represented by the value behind it.  Dereferencing [nil] panics:
      functions that dereference return an [outcome].
    - [interface{}] values are the tagged union [any]: the dynamic type is
      the constructor.
    - [time.Time] is an opaque instant, a [Z]. *)

From Stdlib Require Import ZArith Lia Bool.
From Stdlib Require Import Floats.PrimFloat Floats.SpecFloat Floats.FloatOps.
From stdpp Require Import base option list gmap strings fin_maps pretty.

Local Open Scope string_scope.
Local Open Scope list_scope.
Local Open Scope Z_scope.

(** ** Machine integers and floats *)

Definition uint64_modulus : Z := 2 ^ 64.

Definition wrap64 (n : Z) : Z := n mod uint64_modulus.

Definition is_uint64 (n : Z) : Prop := 0 <= n < uint64_modulus.

(** [float64(n)] for an unsigned integer [n]: the nearest binary64 value. *)
Definition float64_of_uint64 (n : Z) : float :=
  SF2Prim (binary_normalize 53 1024 n 0 false).

(** [f > 0] on [float64]; false on NaN. *)
Definition float_gt0 (f : float) : bool := PrimFloat.ltb 0%float f.

(** ** Pointers, panics *)

Definition ptr (A : Type) : Type := option A.

Definition nil {A : Type} : ptr A := None.

(** How a call ends: it returns, it panics, or it never returns. *)
Inductive outcome (A : Type) : Type :=
| Returns (a : A)
| Panics
| Diverges.

Arguments Returns {A} a.
Arguments Panics {A}.
Arguments Diverges {A}.

Definition outcome_bind {A B : Type} (m : outcome A) (k : A -> outcome B) : outcome B :=
  match m with
  | Returns a => k a
  | Panics => Panics
  | Diverges => Diverges
  end.

#[global] Instance outcome_ret : MRet outcome := fun A a => Returns a.
#[global] Instance outcome_mbind : MBind outcome := fun A B k m => outcome_bind m k.

(** [p.field] on a pointer: a nil pointer dereference is a run-time panic. *)
Definition deref {A : Type} (p : ptr A) : outcome A :=
  match p with
  | Some a => Returns a
  | None => Panics
  end.

(** ** The statistics model ([stats] package) *)

Module ConnectionStats.
Record t : Type := mk
  { Total : Z; Active : Z; Failed : Z; Closed : Z }.
Definition zero : t := mk 0 0 0 0.
End ConnectionStats.

Module SourceStats.
Record t : Type := mk
  { Total : Z; Success : Z; Failed : Z }.
Definition zero : t := mk 0 0 0.
End SourceStats.

Module OperationStats.
Record t : Type := mk
  { Total : Z; Success : Z; Failed : Z; AvgLatencyMs : float }.
Definition zero : t := mk 0 0 0 0%float.
End OperationStats.

Module RequestStats.
Record t : Type := mk
  { Total : Z; Success : Z; Failed : Z; Pending : Z;
    BytesSent : Z; BytesRecv : Z;
    BySource : gmap string SourceStats.t;
    ByOperation : gmap string OperationStats.t }.
Definition zero : t := mk 0 0 0 0 0 0 ∅ ∅.
End RequestStats.

Module PerformanceStats.
Record t : Type := mk
  { RequestsPerSecond : float;
    AvgLatencyMs : float; MinLatencyMs : float; MaxLatencyMs : float;
    P50LatencyMs : float; P95LatencyMs : float; P99LatencyMs : float }.
Definition zero : t := mk 0%float 0%float 0%float 0%float 0%float 0%float 0%float.
End PerformanceStats.

Module ErrorInfo.
Record t : Type := mk
  { Message : string; Code : string; Timestamp : Z; Count : Z }.
End ErrorInfo.

Module ErrorStats.
Record t : Type := mk
  { Total : Z;
    ByType : gmap string Z;
    ByInterface : gmap string Z;
    LastError : ptr ErrorInfo.t }.
Definition zero : t := mk 0 ∅ ∅ nil.
End ErrorStats.

(** Modelled from the spec: the declaration of [InterfaceCheckStats] is not
    among the sources.  Its fields are the ones [calculateEIRDelta] writes and
    [transformEIRStats] reads: three counters and the per-result-code
    breakdown [map[int]uint64]. *)
Module InterfaceCheckStats.
Record t : Type := mk
  { Total : Z; Success : Z; Failed : Z;
    ByResultCode : gmap Z Z }.
Definition zero : t := mk 0 0 0 ∅.
End InterfaceCheckStats.

(** [ByInterface] holds [InterfaceCheckStats], as [scheduler.go] builds it. *)
Module EquipmentCheckStats.
Record t : Type := mk
  { Total : Z; Success : Z; Failed : Z;
    ByInterface : gmap string InterfaceCheckStats.t }.
Definition zero : t := mk 0 0 0 ∅.
End EquipmentCheckStats.

Module DatabaseOperationStats.
Record t : Type := mk
  { Queries : Z; Inserts : Z; Updates : Z; Deletes : Z;
    Errors : Z; AvgLatencyMs : float; ActiveQueries : Z }.
Definition zero : t := mk 0 0 0 0 0 0%float 0.
End DatabaseOperationStats.

Module CacheStats.
Record t : Type := mk
  { Hits : Z; Misses : Z; HitRate : float; Size : Z;
    MaxSize : Z; Evictions : Z }.
Definition zero : t := mk 0 0 0%float 0 0 0.
End CacheStats.

Module EIRStats.
Record t : Type := mk
  { EquipmentChecks : EquipmentCheckStats.t;
    DatabaseOps : DatabaseOperationStats.t;
    CacheStats : CacheStats.t;
    ByEquipmentStatus : gmap string Z }.
Definition zero : t :=
  mk EquipmentCheckStats.zero DatabaseOperationStats.zero CacheStats.zero ∅.
End EIRStats.

(** The values an [interface{}] slot of a snapshot holds, by dynamic type.
    [AnyEIRStatsPtr] is [*EIRStats] (what the exporter looks for),
    [AnyEIRStats] and [AnyCacheStats] are the struct values that
    [ParsePrometheusMetrics] stores under "eir" and "cache". *)
Inductive any : Type :=
| AnyNil
| AnyEIRStatsPtr (p : ptr EIRStats.t)
| AnyEIRStats (v : EIRStats.t)
| AnyCacheStats (v : CacheStats.t)
| AnyOther (dynamic_type : string).

Module ServiceStats.
Record t : Type := mk
  { ServiceName : string;
    ServiceVersion : string;
    Uptime : string;
    Timestamp : Z;
    Connections : ConnectionStats.t;
    Requests : RequestStats.t;
    Performance : PerformanceStats.t;
    Errors : ErrorStats.t;
    InterfaceStats : gmap string any;
    CustomMetrics : gmap string any }.
Definition zero : t :=
  mk EmptyString EmptyString EmptyString 0 ConnectionStats.zero RequestStats.zero PerformanceStats.zero
     ErrorStats.zero ∅ ∅.
End ServiceStats.

(** [m[k]] on a Go map: the zero value when the key is missing. *)
Definition go_lookup {K : Type} `{Countable K} {V : Type} (zero : V) (m : gmap K V) (k : K) : V :=
  default zero (m !! k).

(** The comma-ok type assertion to [*EIRStats], on the result of a map read. *)
Definition assert_EIRStatsPtr (v : option any) : option (ptr EIRStats.t) :=
  match v with
  | Some (AnyEIRStatsPtr p) => Some p
  | _ => None
  end.

(** ** Counter identifiers ([export] package) *)

Definition CounterTotalRequests : Z := 1000.
Definition CounterSuccessfulRequests : Z := 1001.
Definition CounterFailedRequests : Z := 1002.
Definition CounterPendingRequests : Z := 1003.

Definition CounterDiameterTotal : Z := 1100.
Definition CounterDiameterSuccess : Z := 1101.
Definition CounterDiameterFailed : Z := 1102.
Definition CounterDiameterResultCode : Z := 1103.

Definition CounterHTTPTotal : Z := 1200.
Definition CounterHTTPSuccess : Z := 1201.
Definition CounterHTTPFailed : Z := 1202.
Definition CounterHTTPStatusCode : Z := 1203.

Definition CounterRequestsPerSecond : Z := 1300.
Definition CounterAvgLatencyMs : Z := 1301.
Definition CounterMinLatencyMs : Z := 1302.
Definition CounterMaxLatencyMs : Z := 1303.
Definition CounterP50LatencyMs : Z := 1304.
Definition CounterP95LatencyMs : Z := 1305.
Definition CounterP99LatencyMs : Z := 1306.

Definition CounterCacheHits : Z := 1400.
Definition CounterCacheMisses : Z := 1401.
Definition CounterCacheHitRate : Z := 1402.
Definition CounterCacheSize : Z := 1403.

Definition CounterDBQueries : Z := 1500.
Definition CounterDBInserts : Z := 1501.
Definition CounterDBUpdates : Z := 1502.
Definition CounterDBDeletes : Z := 1503.

Definition CounterWhitelisted : Z := 1600.
Definition CounterBlacklisted : Z := 1601.
Definition CounterGreylisted : Z := 1602.

Definition CounterActiveConnections : Z := 1700.
Definition CounterTotalConnections : Z := 1701.
Definition CounterFailedConnections : Z := 1702.

Module CounterMetadata.
Record t : Type := mk
  { ID : Z; Name : string; Description : string; Unit : string; Type_ : string }.
End CounterMetadata.

Definition GetCounterMetadata : list CounterMetadata.t :=
  [ CounterMetadata.mk CounterTotalRequests "total_requests" "Total number of requests processed" "count" "counter";
    CounterMetadata.mk CounterSuccessfulRequests "successful_requests" "Total number of successful requests" "count" "counter";
    CounterMetadata.mk CounterFailedRequests "failed_requests" "Total number of failed requests" "count" "counter";
    CounterMetadata.mk CounterPendingRequests "pending_requests" "Number of requests currently pending" "count" "gauge";
    CounterMetadata.mk CounterDiameterTotal "diameter_total" "Total Diameter requests" "count" "counter";
    CounterMetadata.mk CounterDiameterSuccess "diameter_success" "Successful Diameter requests" "count" "counter";
    CounterMetadata.mk CounterDiameterFailed "diameter_failed" "Failed Diameter requests" "count" "counter";
    CounterMetadata.mk CounterDiameterResultCode "diameter_result_code" "Diameter result code distribution" "count" "counter";
    CounterMetadata.mk CounterHTTPTotal "http_total" "Total HTTP requests" "count" "counter";
    CounterMetadata.mk CounterHTTPSuccess "http_success" "Successful HTTP requests" "count" "counter";
    CounterMetadata.mk CounterHTTPFailed "http_failed" "Failed HTTP requests" "count" "counter";
    CounterMetadata.mk CounterHTTPStatusCode "http_status_code" "HTTP status code distribution" "count" "counter";
    CounterMetadata.mk CounterRequestsPerSecond "requests_per_second" "Request throughput rate" "requests/sec" "gauge";
    CounterMetadata.mk CounterAvgLatencyMs "avg_latency_ms" "Average request latency" "milliseconds" "gauge";
    CounterMetadata.mk CounterMinLatencyMs "min_latency_ms" "Minimum request latency" "milliseconds" "gauge";
    CounterMetadata.mk CounterMaxLatencyMs "max_latency_ms" "Maximum request latency" "milliseconds" "gauge";
    CounterMetadata.mk CounterP50LatencyMs "p50_latency_ms" "50th percentile latency" "milliseconds" "gauge";
    CounterMetadata.mk CounterP95LatencyMs "p95_latency_ms" "95th percentile latency" "milliseconds" "gauge";
    CounterMetadata.mk CounterP99LatencyMs "p99_latency_ms" "99th percentile latency" "milliseconds" "gauge";
    CounterMetadata.mk CounterCacheHits "cache_hits" "Number of cache hits" "count" "counter";
    CounterMetadata.mk CounterCacheMisses "cache_misses" "Number of cache misses" "count" "counter";
    CounterMetadata.mk CounterCacheHitRate "cache_hit_rate" "Cache hit rate percentage" "percent" "gauge";
    CounterMetadata.mk CounterCacheSize "cache_size" "Current cache size" "entries" "gauge";
    CounterMetadata.mk CounterDBQueries "db_queries" "Total database queries" "count" "counter";
    CounterMetadata.mk CounterDBInserts "db_inserts" "Total database inserts" "count" "counter";
    CounterMetadata.mk CounterDBUpdates "db_updates" "Total database updates" "count" "counter";
    CounterMetadata.mk CounterDBDeletes "db_deletes" "Total database deletes" "count" "counter";
    CounterMetadata.mk CounterWhitelisted "whitelisted" "Whitelisted equipment checks" "count" "counter";
    CounterMetadata.mk CounterBlacklisted "blacklisted" "Blacklisted equipment checks" "count" "counter";
    CounterMetadata.mk CounterGreylisted "greylisted" "Greylisted equipment checks" "count" "counter";
    CounterMetadata.mk CounterActiveConnections "active_connections" "Currently active connections" "count" "gauge";
    CounterMetadata.mk CounterTotalConnections "total_connections" "Total connections established" "count" "counter";
    CounterMetadata.mk CounterFailedConnections "failed_connections" "Failed connection attempts" "count" "counter" ].

Fixpoint GetCounterName_loop (metadata : list CounterMetadata.t) (counterID : Z) : string :=
  match metadata with
  | [] => "unknown"
  | m :: rest =>
      if CounterMetadata.ID m =? counterID then CounterMetadata.Name m
      else GetCounterName_loop rest counterID
  end.

Definition GetCounterName (counterID : Z) : string :=
  GetCounterName_loop GetCounterMetadata counterID.

(** The [Type] column of the table, for an identifier it lists. *)
Definition counter_type (counterID : Z) : option string :=
  CounterMetadata.Type_ <$>
    List.find (fun m => CounterMetadata.ID m =? counterID) GetCounterMetadata.

(** ** Records and the transformer *)

(** Modelled from the spec: the declaration of [MetricRecord] is not among the
    sources.  The fields are the ones [createRecord] fills: counter
    identifier, numeric value, dimension tag, host, system name, timestamp. *)
Module MetricRecord.
Record t : Type := mk
  { CounterID : Z;
    Value : float;
    CauseCode : string;
    Hostname : string;
    SystemName : string;
    Timestamp : Z }.
End MetricRecord.

(** Modelled from the spec: the declaration of [TransformerConfig] is not
    among the sources.  The fields are the ones [NewTransformer] and
    [filterRecords] use: the sample rate and the include and exclude lists of
    counter identifiers. *)
Module TransformerConfig.
Record t : Type := mk
  { IncludeCounters : list Z;
    ExcludeCounters : list Z;
    SampleRate : float }.
End TransformerConfig.

Module Transformer.
Record t : Type := mk
  { hostname : string;
    systemName : string;
    config : TransformerConfig.t }.
End Transformer.

Definition NewTransformer (hostname systemName : string) : Transformer.t :=
  Transformer.mk hostname systemName (TransformerConfig.mk [] [] 1%float).

Definition NewTransformerWithConfig (hostname systemName : string)
    (config : TransformerConfig.t) : Transformer.t :=
  Transformer.mk hostname systemName config.

(** Go's [append(s, x)]. *)
Definition append {A : Type} (s : list A) (x : A) : list A := s ++ [x].

Definition createRecord (t : Transformer.t) (counterID : Z) (value : float)
    (causeCode : string) (timestamp : Z) : MetricRecord.t :=
  MetricRecord.mk counterID value causeCode
    (Transformer.hostname t) (Transformer.systemName t) timestamp.

Fixpoint id_in_list (ids : list Z) (counterID : Z) : bool :=
  match ids with
  | [] => false
  | id :: rest => if id =? counterID then true else id_in_list rest counterID
  end.

Definition isIncluded (t : Transformer.t) (counterID : Z) : bool :=
  id_in_list (TransformerConfig.IncludeCounters (Transformer.config t)) counterID.

Definition isExcluded (t : Transformer.t) (counterID : Z) : bool :=
  id_in_list (TransformerConfig.ExcludeCounters (Transformer.config t)) counterID.

(** One turn of the loop of [filterRecords]: [continue] leaves [filtered]
    as it is. *)
Definition filterRecords_step (t : Transformer.t)
    (filtered : list MetricRecord.t) (record : MetricRecord.t) : list MetricRecord.t :=
  if isExcluded t (MetricRecord.CounterID record) then filtered
  else if (0 <? Z.of_nat (length (TransformerConfig.IncludeCounters (Transformer.config t))))
          && negb (isIncluded t (MetricRecord.CounterID record))
  then filtered
  else append filtered record.

Definition filterRecords (t : Transformer.t) (records : list MetricRecord.t) : list MetricRecord.t :=
  if (Z.of_nat (length (TransformerConfig.IncludeCounters (Transformer.config t))) =? 0)
     && (Z.of_nat (length (TransformerConfig.ExcludeCounters (Transformer.config t))) =? 0)
  then records
  else foldl (filterRecords_step t) [] records.

(** The [switch ifName] of [transformEIRStats]: the four counter identifiers
    of an interface, or [None] for the [default: continue] branch. *)
Definition interface_counters (ifName : string) : option (Z * Z * Z * Z) :=
  if String.eqb ifName "diameter" then
    Some (CounterDiameterTotal, CounterDiameterSuccess, CounterDiameterFailed,
          CounterDiameterResultCode)
  else if String.eqb ifName "http" then
    Some (CounterHTTPTotal, CounterHTTPSuccess, CounterHTTPFailed,
          CounterHTTPStatusCode)
  else None.

(** [fmt.Sprintf("%s:%d", ifName, code)]. *)
Definition causeCode_of (ifName : string) (code : Z) : string :=
  ifName +:+ ":" +:+ pretty code.

(** The inner loop over [ifStats.ByResultCode]. *)
Definition resultCode_step (t : Transformer.t) (timestamp : Z) (ifName : string)
    (resultCodeCounter : Z) (records : list MetricRecord.t) (entry : Z * Z)
    : list MetricRecord.t :=
  let '(code, count) := entry in
  if 0 <? count then
    append records
      (createRecord t resultCodeCounter (float64_of_uint64 count)
         (causeCode_of ifName code) timestamp)
  else records.

(** The body of the loop over [eirStats.EquipmentChecks.ByInterface]. *)
Definition interface_step (t : Transformer.t) (timestamp : Z)
    (records : list MetricRecord.t) (entry : string * InterfaceCheckStats.t)
    : list MetricRecord.t :=
  let '(ifName, ifStats) := entry in
  match interface_counters ifName with
  | None => records
  | Some (totalCounter, successCounter, failedCounter, resultCodeCounter) =>
      let records :=
        if 0 <? InterfaceCheckStats.Total ifStats then
          append records (createRecord t totalCounter
            (float64_of_uint64 (InterfaceCheckStats.Total ifStats)) ifName timestamp)
        else records in
      let records :=
        if 0 <? InterfaceCheckStats.Success ifStats then
          append records (createRecord t successCounter
            (float64_of_uint64 (InterfaceCheckStats.Success ifStats)) ifName timestamp)
        else records in
      let records :=
        if 0 <? InterfaceCheckStats.Failed ifStats then
          append records (createRecord t failedCounter
            (float64_of_uint64 (InterfaceCheckStats.Failed ifStats)) ifName timestamp)
        else records in
      foldl (resultCode_step t timestamp ifName resultCodeCounter) records
        (map_to_list (InterfaceCheckStats.ByResultCode ifStats))
  end.

(** [count, ok := m[status]; ok && count > 0]. *)
Definition status_count (m : gmap string Z) (status : string) : option Z :=
  match m !! status with
  | Some count => if 0 <? count then Some count else None
  | None => None
  end.

Definition transformEIRStats (t : Transformer.t) (eirStats : ptr EIRStats.t)
    (timestamp : Z) : outcome (list MetricRecord.t) :=
  eirStats ← deref eirStats;
  let records := [] in
  let records :=
    foldl (interface_step t timestamp) records
      (map_to_list (EquipmentCheckStats.ByInterface (EIRStats.EquipmentChecks eirStats))) in
  let cache := EIRStats.CacheStats eirStats in
  let records :=
    if 0 <? CacheStats.Hits cache then
      append records (createRecord t CounterCacheHits
        (float64_of_uint64 (CacheStats.Hits cache)) EmptyString timestamp)
    else records in
  let records :=
    if 0 <? CacheStats.Misses cache then
      append records (createRecord t CounterCacheMisses
        (float64_of_uint64 (CacheStats.Misses cache)) EmptyString timestamp)
    else records in
  let records :=
    if float_gt0 (CacheStats.HitRate cache) then
      append records (createRecord t CounterCacheHitRate
        (CacheStats.HitRate cache) EmptyString timestamp)
    else records in
  let records :=
    if 0 <? CacheStats.Size cache then
      append records (createRecord t CounterCacheSize
        (float64_of_uint64 (CacheStats.Size cache)) EmptyString timestamp)
    else records in
  let db := EIRStats.DatabaseOps eirStats in
  let records :=
    if 0 <? DatabaseOperationStats.Queries db then
      append records (createRecord t CounterDBQueries
        (float64_of_uint64 (DatabaseOperationStats.Queries db)) EmptyString timestamp)
    else records in
  let records :=
    if 0 <? DatabaseOperationStats.Inserts db then
      append records (createRecord t CounterDBInserts
        (float64_of_uint64 (DatabaseOperationStats.Inserts db)) EmptyString timestamp)
    else records in
  let records :=
    if 0 <? DatabaseOperationStats.Updates db then
      append records (createRecord t CounterDBUpdates
        (float64_of_uint64 (DatabaseOperationStats.Updates db)) EmptyString timestamp)
    else records in
  let records :=
    if 0 <? DatabaseOperationStats.Deletes db then
      append records (createRecord t CounterDBDeletes
        (float64_of_uint64 (DatabaseOperationStats.Deletes db)) EmptyString timestamp)
    else records in
  let records :=
    match status_count (EIRStats.ByEquipmentStatus eirStats) "whitelisted" with
    | Some count =>
        append records (createRecord t CounterWhitelisted
          (float64_of_uint64 count) EmptyString timestamp)
    | None => records
    end in
  let records :=
    match status_count (EIRStats.ByEquipmentStatus eirStats) "blacklisted" with
    | Some count =>
        append records (createRecord t CounterBlacklisted
          (float64_of_uint64 count) EmptyString timestamp)
    | None => records
    end in
  let records :=
    match status_count (EIRStats.ByEquipmentStatus eirStats) "greylisted" with
    | Some count =>
        append records (createRecord t CounterGreylisted
          (float64_of_uint64 count) EmptyString timestamp)
    | None => records
    end in
  mret records.

(** The records [Transform] builds from the scalar fields of the snapshot,
    before it looks at the custom metrics (lines 39 to 83 of the source). *)
Definition general_records (t : Transformer.t) (stats : ServiceStats.t)
    : list MetricRecord.t :=
  let timestamp := ServiceStats.Timestamp stats in
  let req := ServiceStats.Requests stats in
  let conn := ServiceStats.Connections stats in
  let perf := ServiceStats.Performance stats in
  let records := [] in
  let records := append records (createRecord t CounterTotalRequests
    (float64_of_uint64 (RequestStats.Total req)) EmptyString timestamp) in
  let records := append records (createRecord t CounterSuccessfulRequests
    (float64_of_uint64 (RequestStats.Success req)) EmptyString timestamp) in
  let records := append records (createRecord t CounterFailedRequests
    (float64_of_uint64 (RequestStats.Failed req)) EmptyString timestamp) in
  let records :=
    if 0 <? RequestStats.Pending req then
      append records (createRecord t CounterPendingRequests
        (float64_of_uint64 (RequestStats.Pending req)) EmptyString timestamp)
    else records in
  let records :=
    if 0 <? ConnectionStats.Active conn then
      append records (createRecord t CounterActiveConnections
        (float64_of_uint64 (ConnectionStats.Active conn)) EmptyString timestamp)
    else records in
  let records :=
    if 0 <? ConnectionStats.Total conn then
      append records (createRecord t CounterTotalConnections
        (float64_of_uint64 (ConnectionStats.Total conn)) EmptyString timestamp)
    else records in
  let records :=
    if 0 <? ConnectionStats.Failed conn then
      append records (createRecord t CounterFailedConnections
        (float64_of_uint64 (ConnectionStats.Failed conn)) EmptyString timestamp)
    else records in
  let records :=
    if float_gt0 (PerformanceStats.RequestsPerSecond perf) then
      append records (createRecord t CounterRequestsPerSecond
        (PerformanceStats.RequestsPerSecond perf) EmptyString timestamp)
    else records in
  let records :=
    if float_gt0 (PerformanceStats.AvgLatencyMs perf) then
      append records (createRecord t CounterAvgLatencyMs
        (PerformanceStats.AvgLatencyMs perf) EmptyString timestamp)
    else records in
  let records :=
    if float_gt0 (PerformanceStats.MinLatencyMs perf) then
      append records (createRecord t CounterMinLatencyMs
        (PerformanceStats.MinLatencyMs perf) EmptyString timestamp)
    else records in
  let records :=
    if float_gt0 (PerformanceStats.MaxLatencyMs perf) then
      append records (createRecord t CounterMaxLatencyMs
        (PerformanceStats.MaxLatencyMs perf) EmptyString timestamp)
    else records in
  let records :=
    if float_gt0 (PerformanceStats.P50LatencyMs perf) then
      append records (createRecord t CounterP50LatencyMs
        (PerformanceStats.P50LatencyMs perf) EmptyString timestamp)
    else records in
  let records :=
    if float_gt0 (PerformanceStats.P95LatencyMs perf) then
      append records (createRecord t CounterP95LatencyMs
        (PerformanceStats.P95LatencyMs perf) EmptyString timestamp)
    else records in
  let records :=
    if float_gt0 (PerformanceStats.P99LatencyMs perf) then
      append records (createRecord t CounterP99LatencyMs
        (PerformanceStats.P99LatencyMs perf) EmptyString timestamp)
    else records in
  records.

Definition Transform (t : Transformer.t) (stats : ptr ServiceStats.t)
    : outcome (list MetricRecord.t) :=
  stats ← deref stats;
  let timestamp := ServiceStats.Timestamp stats in
  let records := general_records t stats in
  records ←
    match assert_EIRStatsPtr (ServiceStats.CustomMetrics stats !! "eir") with
    | Some eirStats =>
        more ← transformEIRStats t eirStats timestamp;
        mret (records ++ more)
    | None => mret records
    end;
  mret (filterRecords t records).

(** ** Effects: log lines and the I/O of the exporters *)

Inductive LogLevel : Type := LevelInfo | LevelWarn | LevelError | LevelDebug.

(** What a cycle does to the outside world, in order.  Log lines keep their
    message, not their key/value pairs. *)
Inductive event : Type :=
| Log (level : LogLevel) (msg : string)
| HTTPPost (url : string) (body : list MetricRecord.t)
| DBExec (table : string) (batch : list MetricRecord.t)
| FileWrite (path : string) (record : MetricRecord.t)
| Sleep (nanoseconds : Z)
| CloseTransport (exporter : string).

(** Go's [error]: [None] is the nil error. *)
Definition error : Type := option string.

(** The cancellation signal of a [context.Context], as the exporter sees it:
    [done_before k] is whether the context is already cancelled when the
    k-th attempt starts, [done_in_delay k] whether it is cancelled before the
    delay that follows the k-th attempt has elapsed. *)
Module Context.
Record t : Type := mk
  { done_before : Z -> bool;
    done_in_delay : Z -> bool }.
Definition background : t := mk (fun _ => false) (fun _ => false).
End Context.

(** The [Exporter] interface.  An exporter value closes over its transport;
    [Export] returns the error and the I/O it performed. *)
Module Exporter.
Record t : Type := mk
  { Export : Context.t -> list MetricRecord.t -> outcome (error * list event);
    Name : string;
    Close : error * list event }.
End Exporter.

(** What [GetStats()] hands back as an [interface{}]: a [*ServiceStats], or a
    value of any other dynamic type. *)
Inductive collected : Type :=
| CollectedServiceStatsPtr (p : ptr ServiceStats.t)
| CollectedOther (v : any).

(** ** The delta engine and the scheduler ([scheduler.go]) *)

Definition safeSub64 (a b : Z) : Z :=
  if a >=? b then wrap64 (a - b) else 0.

(** The loop shared by [calculateMapDelta64] and [calculateMapDeltaInt64]:
    the two functions differ in the key type only. *)
Definition mapDelta_step {K : Type} `{Countable K} (prev : gmap K Z)
    (key : K) (currVal : Z) (delta : gmap K Z) : gmap K Z :=
  let prevVal := go_lookup 0 prev key in
  let diff := safeSub64 currVal prevVal in
  if 0 <? diff then <[key := diff]> delta else delta.

Definition calculateMapDelta64 (current prev : gmap string Z) : gmap string Z :=
  map_fold (mapDelta_step prev) ∅ current.

Definition calculateMapDeltaInt64 (current prev : gmap Z Z) : gmap Z Z :=
  map_fold (mapDelta_step prev) ∅ current.

(** The loop over [current.EquipmentChecks.ByInterface]. *)
Definition interfaceDelta_step (prev : gmap string InterfaceCheckStats.t)
    (ifName : string) (currIf : InterfaceCheckStats.t)
    (delta : gmap string InterfaceCheckStats.t) : gmap string InterfaceCheckStats.t :=
  let prevIf := go_lookup InterfaceCheckStats.zero prev ifName in
  <[ifName :=
      InterfaceCheckStats.mk
        (safeSub64 (InterfaceCheckStats.Total currIf) (InterfaceCheckStats.Total prevIf))
        (safeSub64 (InterfaceCheckStats.Success currIf) (InterfaceCheckStats.Success prevIf))
        (safeSub64 (InterfaceCheckStats.Failed currIf) (InterfaceCheckStats.Failed prevIf))
        (calculateMapDeltaInt64 (InterfaceCheckStats.ByResultCode currIf)
           (InterfaceCheckStats.ByResultCode prevIf))]> delta.

(** Fields the struct literal of [deltaEIR] does not mention keep their zero
    value. *)
Definition calculateEIRDelta (current prev : ptr EIRStats.t) : outcome (ptr EIRStats.t) :=
  match prev with
  | None => mret current
  | Some prev =>
      current ← deref current;
      let cc := EIRStats.EquipmentChecks current in
      let pc := EIRStats.EquipmentChecks prev in
      let ccache := EIRStats.CacheStats current in
      let pcache := EIRStats.CacheStats prev in
      let cdb := EIRStats.DatabaseOps current in
      let pdb := EIRStats.DatabaseOps prev in
      mret (Some (EIRStats.mk
        (EquipmentCheckStats.mk
           (safeSub64 (EquipmentCheckStats.Total cc) (EquipmentCheckStats.Total pc))
           (safeSub64 (EquipmentCheckStats.Success cc) (EquipmentCheckStats.Success pc))
           (safeSub64 (EquipmentCheckStats.Failed cc) (EquipmentCheckStats.Failed pc))
           (map_fold (interfaceDelta_step (EquipmentCheckStats.ByInterface pc)) ∅
              (EquipmentCheckStats.ByInterface cc)))
        (DatabaseOperationStats.mk
           (safeSub64 (DatabaseOperationStats.Queries cdb) (DatabaseOperationStats.Queries pdb))
           (safeSub64 (DatabaseOperationStats.Inserts cdb) (DatabaseOperationStats.Inserts pdb))
           (safeSub64 (DatabaseOperationStats.Updates cdb) (DatabaseOperationStats.Updates pdb))
           (safeSub64 (DatabaseOperationStats.Deletes cdb) (DatabaseOperationStats.Deletes pdb))
           0 0%float 0)
        (CacheStats.mk
           (safeSub64 (CacheStats.Hits ccache) (CacheStats.Hits pcache))
           (safeSub64 (CacheStats.Misses ccache) (CacheStats.Misses pcache))
           (CacheStats.HitRate ccache)
           (CacheStats.Size ccache)
           0 0)
        (calculateMapDelta64 (EIRStats.ByEquipmentStatus current)
           (EIRStats.ByEquipmentStatus prev))))
  end.

(** The loop over [current.Requests.BySource]. *)
Definition sourceDelta_step (prev : gmap string SourceStats.t)
    (source : string) (currStat : SourceStats.t)
    (delta : gmap string SourceStats.t) : gmap string SourceStats.t :=
  let prevStat := go_lookup SourceStats.zero prev source in
  <[source :=
      SourceStats.mk
        (safeSub64 (SourceStats.Total currStat) (SourceStats.Total prevStat))
        (safeSub64 (SourceStats.Success currStat) (SourceStats.Success prevStat))
        (safeSub64 (SourceStats.Failed currStat) (SourceStats.Failed prevStat))]> delta.

(** The loop over [current.Requests.ByOperation]; the literal leaves
    [AvgLatencyMs] at its zero value. *)
Definition operationDelta_step (prev : gmap string OperationStats.t)
    (op : string) (currStat : OperationStats.t)
    (delta : gmap string OperationStats.t) : gmap string OperationStats.t :=
  let prevStat := go_lookup OperationStats.zero prev op in
  <[op :=
      OperationStats.mk
        (safeSub64 (OperationStats.Total currStat) (OperationStats.Total prevStat))
        (safeSub64 (OperationStats.Success currStat) (OperationStats.Success prevStat))
        (safeSub64 (OperationStats.Failed currStat) (OperationStats.Failed prevStat))
        0%float]> delta.

Module ExportScheduler.
Record t : Type := mk
  { interval : Z;
    exporters : list Exporter.t;
    transformer : Transformer.t;
    running : bool;
    prevSnapshot : ptr ServiceStats.t }.
End ExportScheduler.

Definition NewExportScheduler (interval : Z) (transformer : Transformer.t)
    : ExportScheduler.t :=
  ExportScheduler.mk interval [] transformer false nil.

Definition AddExporter (s : ExportScheduler.t) (exporter : Exporter.t) : ExportScheduler.t :=
  ExportScheduler.mk (ExportScheduler.interval s)
    (append (ExportScheduler.exporters s) exporter)
    (ExportScheduler.transformer s) (ExportScheduler.running s)
    (ExportScheduler.prevSnapshot s).

Definition updatePreviousSnapshot (s : ExportScheduler.t) (current : ptr ServiceStats.t)
    : ExportScheduler.t :=
  ExportScheduler.mk (ExportScheduler.interval s) (ExportScheduler.exporters s)
    (ExportScheduler.transformer s) (ExportScheduler.running s) current.

(** The delta snapshot for a stored previous snapshot [prev]: the struct
    literal, the two loops over the request breakdowns and the "eir" entry of
    the custom metrics. *)
Definition deltaAgainst (prev : ServiceStats.t) (current : ptr ServiceStats.t)
    : outcome (ptr ServiceStats.t) :=
  current ← deref current;
  let cconn := ServiceStats.Connections current in
  let pconn := ServiceStats.Connections prev in
  let creq := ServiceStats.Requests current in
  let preq := ServiceStats.Requests prev in
  let cerr := ServiceStats.Errors current in
  let perr := ServiceStats.Errors prev in
  let bySource :=
    map_fold (sourceDelta_step (RequestStats.BySource preq)) ∅
      (RequestStats.BySource creq) in
  let byOperation :=
    map_fold (operationDelta_step (RequestStats.ByOperation preq)) ∅
      (RequestStats.ByOperation creq) in
  customMetrics ←
    match assert_EIRStatsPtr (ServiceStats.CustomMetrics current !! "eir") with
    | Some currEIR =>
        let prevEIR :=
          match assert_EIRStatsPtr (ServiceStats.CustomMetrics prev !! "eir") with
          | Some p => p
          | None => nil
          end in
        deltaEIR ← calculateEIRDelta currEIR prevEIR;
        mret (<["eir" := AnyEIRStatsPtr deltaEIR]> (∅ : gmap string any))
    | None => mret (∅ : gmap string any)
    end;
  mret (Some (ServiceStats.mk
    (ServiceStats.ServiceName current)
    (ServiceStats.ServiceVersion current)
    (ServiceStats.Uptime current)
    (ServiceStats.Timestamp current)
    (ConnectionStats.mk
       (safeSub64 (ConnectionStats.Total cconn) (ConnectionStats.Total pconn))
       (ConnectionStats.Active cconn)
       (safeSub64 (ConnectionStats.Failed cconn) (ConnectionStats.Failed pconn))
       0)
    (RequestStats.mk
       (safeSub64 (RequestStats.Total creq) (RequestStats.Total preq))
       (safeSub64 (RequestStats.Success creq) (RequestStats.Success preq))
       (safeSub64 (RequestStats.Failed creq) (RequestStats.Failed preq))
       (RequestStats.Pending creq)
       0 0 bySource byOperation)
    (PerformanceStats.mk
       (PerformanceStats.RequestsPerSecond (ServiceStats.Performance current))
       (PerformanceStats.AvgLatencyMs (ServiceStats.Performance current))
       (PerformanceStats.MinLatencyMs (ServiceStats.Performance current))
       (PerformanceStats.MaxLatencyMs (ServiceStats.Performance current))
       (PerformanceStats.P50LatencyMs (ServiceStats.Performance current))
       (PerformanceStats.P95LatencyMs (ServiceStats.Performance current))
       (PerformanceStats.P99LatencyMs (ServiceStats.Performance current)))
    (ErrorStats.mk
       (safeSub64 (ErrorStats.Total cerr) (ErrorStats.Total perr))
       (calculateMapDelta64 (ErrorStats.ByType cerr) (ErrorStats.ByType perr))
       (calculateMapDelta64 (ErrorStats.ByInterface cerr) (ErrorStats.ByInterface perr))
       nil)
    ∅
    customMetrics)).

(** Returns the delta snapshot and what was logged. *)
Definition calculateDeltaStats (s : ExportScheduler.t) (current : ptr ServiceStats.t)
    : outcome (ptr ServiceStats.t * list event) :=
  match ExportScheduler.prevSnapshot s with
  | None =>
      mret (current, [Log LevelDebug "No previous snapshot, exporting current stats"])
  | Some prev =>
      delta ← deltaAgainst prev current;
      mret (delta, [])
  end.

(** One sink, under the timeout context of [exportToExporter]; the deadline
    of that context is part of what [ctx] reports. *)
Definition exportToExporter (ctx : Context.t) (exporter : Exporter.t)
    (records : list MetricRecord.t) : outcome (list event) :=
  '(err, io) ← Exporter.Export exporter ctx records;
  match err with
  | Some _ => mret (io ++ [Log LevelError "Failed to export metrics"])
  | None => mret (io ++ [Log LevelDebug "Successfully exported metrics"])
  end.

(** The fan-out.  The goroutines, one per exporter, are joined before the
    cycle goes on; their effects are listed in the order of the exporter
    list. *)
Fixpoint fanOut (ctx : Context.t) (exporters : list Exporter.t)
    (records : list MetricRecord.t) : outcome (list event) :=
  match exporters with
  | [] => mret []
  | exporter :: rest =>
      io ← exportToExporter ctx exporter records;
      ios ← fanOut ctx rest records;
      mret (io ++ ios)
  end.

(** One cycle.  [statsInterface] is what [s.statsCollector.GetStats()]
    returned.  The result is the scheduler after the cycle and its effects. *)
Definition exportCycle (s : ExportScheduler.t) (ctx : Context.t)
    (statsInterface : collected) : outcome (ExportScheduler.t * list event) :=
  match statsInterface with
  | CollectedOther _ =>
      mret (s, [Log LevelError "Failed to cast stats to ServiceStats"])
  | CollectedServiceStatsPtr currentStats =>
      '(deltaStats, logged) ← calculateDeltaStats s currentStats;
      records ← Transform (ExportScheduler.transformer s) deltaStats;
      if Z.of_nat (length records) =? 0 then
        mret (s, logged ++ [Log LevelDebug "No metrics to export"])
      else
        let s := updatePreviousSnapshot s currentStats in
        let exporters := ExportScheduler.exporters s in
        io ← fanOut ctx exporters records;
        mret (s, logged ++ io ++ [Log LevelDebug "Export cycle completed"])
  end.

(** What the [select] of [run] receives at each turn. *)
Inductive signal : Type :=
| CtxDone
| StopChan
| Tick (statsInterface : collected).

(** The loop of [run], after its start-up log line. *)
Fixpoint run_loop (s : ExportScheduler.t) (ctx : Context.t) (signals : list signal)
    : outcome (ExportScheduler.t * list event) :=
  match signals with
  | [] => mret (s, [])
  | CtxDone :: _ =>
      mret (s, [Log LevelInfo "Export scheduler stopped due to context cancellation"])
  | StopChan :: _ =>
      mret (s, [Log LevelInfo "Export scheduler stopped"])
  | Tick statsInterface :: rest =>
      '(s, io) ← exportCycle s ctx statsInterface;
      '(s, ios) ← run_loop s ctx rest;
      mret (s, io ++ ios)
  end.

(** ** The exporters *)

(** [json.Marshal] of a record fails on a value that is NaN or infinite. *)
Definition marshal_ok (record : MetricRecord.t) : bool :=
  PrimFloat.is_finite (MetricRecord.Value record).

Definition context_canceled : error := Some "context canceled".

(** What the HTTP client answers to one request. *)
Inductive http_result : Type :=
| RequestNotBuilt (err : string)
| TransportFailed (err : string)
| Response (status : Z) (body : string).

Module HTTPExporter.
(** [httpClient k] is the answer to the k-th request of an [Export] call. *)
Record t : Type := mk
  { name : string;
    URL : string;
    RetryAttempts : Z;
    RetryDelay : Z;
    httpClient : Z -> http_result }.

Definition sendRequest (e : t) (attempt : Z) (data : list MetricRecord.t)
    : error * list event :=
  match httpClient e attempt with
  | RequestNotBuilt err => (Some ("failed to create request: " +:+ err), [])
  | TransportFailed err =>
      (Some ("request failed: " +:+ err), [HTTPPost (URL e) data])
  | Response status body =>
      if (status <? 200) || (status >=? 300) then
        (Some ("HTTP " +:+ pretty status +:+ ": " +:+ body), [HTTPPost (URL e) data])
      else (None, [HTTPPost (URL e) data])
  end.

(** The retry loop, [remaining] attempts from [attempt] on. *)
Fixpoint attempts (e : t) (ctx : Context.t) (data : list MetricRecord.t)
    (remaining : nat) (attempt : Z) (lastErr : string) : error * list event :=
  match remaining with
  | O => (Some ("failed after " +:+ pretty (RetryAttempts e) +:+ " attempts: " +:+ lastErr), [])
  | S remaining =>
      if Context.done_before ctx attempt then (context_canceled, [])
      else
        match sendRequest e attempt data with
        | (None, io) => (None, io ++ [Log LevelDebug "Exported metrics via HTTP"])
        | (Some err, io) =>
            let io := io ++ [Log LevelWarn "HTTP export attempt failed"] in
            if attempt <? RetryAttempts e then
              if Context.done_in_delay ctx attempt then (context_canceled, io)
              else
                let '(err', io') := attempts e ctx data remaining (attempt + 1) err in
                (err', io ++ [Sleep (RetryDelay e)] ++ io')
            else
              let '(err', io') := attempts e ctx data remaining (attempt + 1) err in
              (err', io ++ io')
        end
  end.

Definition Export (e : t) (ctx : Context.t) (records : list MetricRecord.t)
    : outcome (error * list event) :=
  if Z.of_nat (length records) =? 0 then mret (None, [])
  else if negb (forallb marshal_ok records) then
    mret (Some "failed to marshal records", [])
  else
    mret (attempts e ctx records (Z.to_nat (RetryAttempts e)) 1 "<nil>").

Definition Name (e : t) : string := name e.

Definition Close (e : t) : error * list event := (None, []).

Definition as_Exporter (e : t) : Exporter.t :=
  Exporter.mk (Export e) (Name e) (Close e).
End HTTPExporter.

Module PostgresExporter.
(** [db batch attempt] is the result of the [attempt]-th execution of the
    insert statement of batch number [batch] of an [Export] call;
    [db_close] is the result of closing the pool. *)
Record t : Type := mk
  { name : string;
    TableName : string;
    BatchSize : Z;
    MaxRetry : Z;
    db : Z -> Z -> error;
    db_close : error }.

Fixpoint attempts (e : t) (ctx : Context.t) (batchNo : Z) (batch : list MetricRecord.t)
    (remaining : nat) (attempt : Z) (lastErr : string) : error * list event :=
  match remaining with
  | O => (Some ("failed after " +:+ pretty (MaxRetry e) +:+ " attempts: " +:+ lastErr), [])
  | S remaining =>
      match db e batchNo attempt with
      | None => (None, [DBExec (TableName e) batch])
      | Some err =>
          let io := [DBExec (TableName e) batch;
                     Log LevelWarn "PostgreSQL insert attempt failed"] in
          if attempt <? MaxRetry e then
            if Context.done_in_delay ctx attempt then (context_canceled, io)
            else
              let '(err', io') := attempts e ctx batchNo batch remaining (attempt + 1) err in
              (err', io ++ [Sleep 1000000000] ++ io')
          else
            let '(err', io') := attempts e ctx batchNo batch remaining (attempt + 1) err in
            (err', io ++ io')
      end
  end.

Definition insertBatch (e : t) (ctx : Context.t) (batchNo : Z)
    (records : list MetricRecord.t) : error * list event :=
  if Z.of_nat (length records) =? 0 then (None, [])
  else attempts e ctx batchNo records (Z.to_nat (MaxRetry e)) 1 "<nil>".

(** [records[i:hi]] for [0 <= i <= hi <= len(records)]. *)
Definition slice (records : list MetricRecord.t) (i hi : Z) : list MetricRecord.t :=
  take (Z.to_nat (hi - i)) (drop (Z.to_nat i) records).

(** The loop over the batches, from index [i].  With a positive batch size
    it ends within [len(records)] turns; with a zero batch size it never
    advances; with a negative one the slice expression panics. *)
Fixpoint batches (e : t) (ctx : Context.t) (records : list MetricRecord.t)
    (fuel : nat) (i batchNo : Z) : outcome (error * list event) :=
  if i <? Z.of_nat (length records) then
    match fuel with
    | O => Diverges
    | S fuel =>
        let hi := i + BatchSize e in
        let hi := if hi >? Z.of_nat (length records) then Z.of_nat (length records) else hi in
        if hi <? i then Panics
        else
          match insertBatch e ctx batchNo (slice records i hi) with
          | (Some err, io) => mret (Some ("failed to insert batch: " +:+ err), io)
          | (None, io) =>
              '(err', io') ← batches e ctx records fuel (i + BatchSize e) (batchNo + 1);
              mret (err', io ++ io')
          end
    end
  else mret (None, [Log LevelDebug "Exported metrics to PostgreSQL"]).

Definition Export (e : t) (ctx : Context.t) (records : list MetricRecord.t)
    : outcome (error * list event) :=
  if Z.of_nat (length records) =? 0 then mret (None, [])
  else batches e ctx records (length records) 0 0.

Definition Name (e : t) : string := name e.

Definition Close (e : t) : error * list event :=
  (db_close e, [CloseTransport (name e)]).

Definition as_Exporter (e : t) : Exporter.t :=
  Exporter.mk (Export e) (Name e) (Close e).
End PostgresExporter.

Module FileExporter.
(** [writer k] is the result of the k-th [Write] of an [Export] call,
    [writer_close] the result of closing the rotating file. *)
Record t : Type := mk
  { name : string;
    Path : string;
    writer : Z -> error;
    writer_close : error }.

(** The loop over the records; [k] counts the writes made so far. *)
Fixpoint write_records (e : t) (records : list MetricRecord.t) (k : Z)
    : error * list event :=
  match records with
  | [] => (None, [Log LevelDebug "Exported metrics to file"])
  | record :: rest =>
      if negb (marshal_ok record) then
        let '(err, io) := write_records e rest k in
        (err, Log LevelError "Failed to marshal metric record" :: io)
      else
        match writer e k with
        | Some err =>
            (Some ("failed to write to file: " +:+ err), [FileWrite (Path e) record])
        | None =>
            let '(err, io) := write_records e rest (k + 1) in
            (err, FileWrite (Path e) record :: io)
        end
  end.

Definition Export (e : t) (ctx : Context.t) (records : list MetricRecord.t)
    : outcome (error * list event) :=
  if Z.of_nat (length records) =? 0 then mret (None, [])
  else if Context.done_before ctx 1 then mret (context_canceled, [])
  else mret (write_records e records 1).

Definition Name (e : t) : string := name e.

Definition Close (e : t) : error * list event :=
  (writer_close e, [CloseTransport (name e)]).

Definition as_Exporter (e : t) : Exporter.t :=
  Exporter.mk (Export e) (Name e) (Close e).
End FileExporter.

(** ** The rest of the scheduler: [run], [Start] and [Stop] *)

(** [run]: the start-up log line, then the loop. *)
Definition run (s : ExportScheduler.t) (ctx : Context.t) (signals : list signal)
    : outcome (ExportScheduler.t * list event) :=
  '(s, io) ← run_loop s ctx signals;
  mret (s, Log LevelInfo "Export scheduler started" :: io).

(** The scheduler together with the state of its [stopChan], which [Stop]
    closes and nothing reopens. *)
Module Lifecycle.
Record t : Type := mk
  { scheduler : ExportScheduler.t;
    stopChanClosed : bool }.
End Lifecycle.

Definition set_running (s : ExportScheduler.t) (running : bool) : ExportScheduler.t :=
  ExportScheduler.mk (ExportScheduler.interval s) (ExportScheduler.exporters s)
    (ExportScheduler.transformer s) running (ExportScheduler.prevSnapshot s).

(** [Start]: the scheduler afterwards, and whether a [run] goroutine was
    started. *)
Definition Start (l : Lifecycle.t) : Lifecycle.t * bool :=
  if ExportScheduler.running (Lifecycle.scheduler l) then (l, false)
  else
    (Lifecycle.mk (set_running (Lifecycle.scheduler l) true) (Lifecycle.stopChanClosed l),
     true).

(** The loop of [Stop] over the exporters: each is closed, a failure is
    logged and the loop goes on. *)
Fixpoint closeExporters (exporters : list Exporter.t) : list event :=
  match exporters with
  | [] => []
  | exporter :: rest =>
      let '(err, io) := Exporter.Close exporter in
      io ++ match err with
            | Some _ => [Log LevelError "Failed to close exporter"]
            | None => []
            end
         ++ closeExporters rest
  end.

(** [Stop].  Closing a channel that is already closed panics.  The wait for
    the [run] goroutine has no effect of its own. *)
Definition Stop (l : Lifecycle.t) : outcome (Lifecycle.t * list event) :=
  if negb (ExportScheduler.running (Lifecycle.scheduler l)) then mret (l, [])
  else if Lifecycle.stopChanClosed l then Panics
  else
    mret (Lifecycle.mk (set_running (Lifecycle.scheduler l) false) true,
          closeExporters (ExportScheduler.exporters (Lifecycle.scheduler l))).

(** ** Comparing snapshots ([stats] package) *)

(** The loop of [CompareStats] over [after.Requests.BySource]: plain
    unsigned subtraction. *)
Definition compareSource_step (before : gmap string SourceStats.t)
    (source : string) (afterStats : SourceStats.t)
    (diff : gmap string SourceStats.t) : gmap string SourceStats.t :=
  let beforeStats := go_lookup SourceStats.zero before source in
  <[source :=
      SourceStats.mk
        (wrap64 (SourceStats.Total afterStats - SourceStats.Total beforeStats))
        (wrap64 (SourceStats.Success afterStats - SourceStats.Success beforeStats))
        (wrap64 (SourceStats.Failed afterStats - SourceStats.Failed beforeStats))]> diff.

Definition CompareStats (before after : ptr ServiceStats.t) : outcome (ptr ServiceStats.t) :=
  after ← deref after;
  before ← deref before;
  let aconn := ServiceStats.Connections after in
  let bconn := ServiceStats.Connections before in
  let areq := ServiceStats.Requests after in
  let breq := ServiceStats.Requests before in
  mret (Some (ServiceStats.mk
    (ServiceStats.ServiceName after)
    EmptyString
    EmptyString
    (ServiceStats.Timestamp after)
    (ConnectionStats.mk
       (wrap64 (ConnectionStats.Total aconn - ConnectionStats.Total bconn))
       (ConnectionStats.Active aconn)
       (wrap64 (ConnectionStats.Failed aconn - ConnectionStats.Failed bconn))
       (wrap64 (ConnectionStats.Closed aconn - ConnectionStats.Closed bconn)))
    (RequestStats.mk
       (wrap64 (RequestStats.Total areq - RequestStats.Total breq))
       (wrap64 (RequestStats.Success areq - RequestStats.Success breq))
       (wrap64 (RequestStats.Failed areq - RequestStats.Failed breq))
       (RequestStats.Pending areq)
       (wrap64 (RequestStats.BytesSent areq - RequestStats.BytesSent breq))
       (wrap64 (RequestStats.BytesRecv areq - RequestStats.BytesRecv breq))
       (map_fold (compareSource_step (RequestStats.BySource breq)) ∅
          (RequestStats.BySource areq))
       ∅)
    (ServiceStats.Performance after)
    (ErrorStats.mk
       (wrap64 (ErrorStats.Total (ServiceStats.Errors after)
                - ErrorStats.Total (ServiceStats.Errors before)))
       ∅ ∅ nil)
    ∅ ∅)).

(** [ValidateStats]: whether the two values are within the tolerance, and
    the message. *)
Definition ValidateStats (expected actual tolerance : Z) : bool * string :=
  let diff :=
    if actual >? expected then wrap64 (actual - expected)
    else wrap64 (expected - actual) in
  if diff <=? tolerance then
    (true,
     "✓ Match (expected: " +:+ pretty expected +:+ ", actual: " +:+ pretty actual
       +:+ ", diff: " +:+ pretty diff +:+ ")")
  else
    (false,
     "✗ Mismatch (expected: " +:+ pretty expected +:+ ", actual: " +:+ pretty actual
       +:+ ", diff: " +:+ pretty diff +:+ ", tolerance: " +:+ pretty tolerance +:+ ")").

(** ** Building the exporters *)

(** Modelled from the spec: the declarations of the exporter configurations
    are not among the sources.  The fields are the ones the constructors and
    [registry.go] read and write. *)
Module HTTPExporterConfig.
Record t : Type := mk
  { Name : string;
    URL : string;
    Headers : gmap string string;
    Timeout : Z;
    RetryAttempts : Z;
    RetryDelay : Z }.
End HTTPExporterConfig.


Module PostgresExporterConfig.
Record t : Type := mk
  { Name : string;
    ConnectionString : string;
    TableName : string;
    BatchSize : Z;
    MaxRetry : Z }.
End PostgresExporterConfig.

(** What the construction of the PostgreSQL exporter does to the database. *)
Inductive setup_event : Type :=
| SqlOpen (connectionString : string)
| Ping
| CreateTable (table : string)
| CreateIndex (index table : string)
| CloseDB
| SetupWarn (msg : string).

(** The database as the constructor meets it: the results of opening, of the
    ping, of the table statement and of the three index statements, and the
    connection the exporter is left with. *)
Module PostgresServer.
Record t : Type := mk
  { open : error;
    ping : error;
    create_table : error;
    create_index : Z -> error;
    db : Z -> Z -> error;
    db_close : error }.
End PostgresServer.

(** The loop of [ensureTable] over the index statements: a failure is a
    warning. *)
Fixpoint ensureIndexes (server : PostgresServer.t) (table : string)
    (indexes : list string) (k : Z) : list setup_event :=
  match indexes with
  | [] => []
  | index :: rest =>
      CreateIndex index table
      :: match PostgresServer.create_index server k with
         | Some _ => [SetupWarn "Failed to create index"]
         | None => []
         end
      ++ ensureIndexes server table rest (k + 1)
  end.

Definition ensureTable (server : PostgresServer.t) (table : string)
    : error * list setup_event :=
  match PostgresServer.create_table server with
  | Some err => (Some ("failed to create table: " +:+ err), [CreateTable table])
  | None =>
      (None,
       CreateTable table
       :: ensureIndexes server table
            ["idx_" +:+ table +:+ "_counter_time";
             "idx_" +:+ table +:+ "_hostname_time";
             "idx_" +:+ table +:+ "_cause_code"] 0)
  end.

Definition NewPostgresExporter (config : PostgresExporterConfig.t) (server : PostgresServer.t)
    : ptr PostgresExporter.t * error * list setup_event :=
  if String.eqb (PostgresExporterConfig.ConnectionString config) EmptyString then
    (nil, Some "PostgreSQL connection string is required", [])
  else
    let tableName :=
      if String.eqb (PostgresExporterConfig.TableName config) EmptyString then "metrics"
      else PostgresExporterConfig.TableName config in
    let batchSize :=
      if PostgresExporterConfig.BatchSize config =? 0 then 1000
      else PostgresExporterConfig.BatchSize config in
    let maxRetry :=
      if PostgresExporterConfig.MaxRetry config =? 0 then 3
      else PostgresExporterConfig.MaxRetry config in
    let opened := [SqlOpen (PostgresExporterConfig.ConnectionString config)] in
    match PostgresServer.open server with
    | Some err => (nil, Some ("failed to open database: " +:+ err), opened)
    | None =>
        match PostgresServer.ping server with
        | Some err =>
            (nil, Some ("failed to ping database: " +:+ err), opened ++ [Ping; CloseDB])
        | None =>
            let exporter :=
              PostgresExporter.mk (PostgresExporterConfig.Name config) tableName
                batchSize maxRetry (PostgresServer.db server)
                (PostgresServer.db_close server) in
            let '(err, io) := ensureTable server tableName in
            (Some exporter, None,
             opened ++ [Ping] ++ io
               ++ match err with
                  | Some _ => [SetupWarn "Failed to ensure metrics table exists"]
                  | None => []
                  end)
        end
    end.

(** ** Vocabulary of the properties *)

(** The records of a batch that carry a given counter identifier. *)
Definition records_of (counterID : Z) (records : list MetricRecord.t) : list MetricRecord.t :=
  List.filter (fun r => MetricRecord.CounterID r =? counterID) records.

(** The filter rule in the words of the specification: an identifier
    survives when it is not on the exclude list and the include list is
    empty or lists it. *)
Definition survives (cfg : TransformerConfig.t) (counterID : Z) : Prop :=
  (counterID ∉ TransformerConfig.ExcludeCounters cfg)
  /\ ((TransformerConfig.IncludeCounters cfg = [])
      \/ (counterID ∈ TransformerConfig.IncludeCounters cfg)).

#[global] Instance survives_dec (cfg : TransformerConfig.t) (counterID : Z) :
  Decision (survives cfg counterID).
Proof. unfold survives. apply _. Defined.

(** A record appended under a condition. *)
Definition emit (b : bool) (r : MetricRecord.t) : list MetricRecord.t :=
  if b then [r] else [].

(** The EIR block a snapshot carries: the struct behind a non-nil
    [*EIRStats] stored under "eir". *)
Definition eir_of (stats : ServiceStats.t) : option EIRStats.t :=
  match assert_EIRStatsPtr (ServiceStats.CustomMetrics stats !! "eir") with
  | Some (Some eirStats) => Some eirStats
  | _ => None
  end.

(** The "eir" entry is not a nil [*EIRStats], which the code would
    dereference. *)
Definition eir_pointer_ok (stats : ServiceStats.t) : Prop :=
  assert_EIRStatsPtr (ServiceStats.CustomMetrics stats !! "eir") <> Some nil.

(** Identifiers of the per-interface records and of all EIR-specific
    records. *)
Definition is_interface_counter (counterID : Z) : bool :=
  id_in_list
    [CounterDiameterTotal; CounterDiameterSuccess; CounterDiameterFailed;
     CounterDiameterResultCode; CounterHTTPTotal; CounterHTTPSuccess;
     CounterHTTPFailed; CounterHTTPStatusCode] counterID.

Definition is_eir_counter (counterID : Z) : bool :=
  is_interface_counter counterID
  || id_in_list
       [CounterCacheHits; CounterCacheMisses; CounterCacheHitRate; CounterCacheSize;
        CounterDBQueries; CounterDBInserts; CounterDBUpdates; CounterDBDeletes;
        CounterWhitelisted; CounterBlacklisted; CounterGreylisted] counterID.

(** The record of one equipment status, when its count is stored and
    positive. *)
Definition status_records (t : Transformer.t) (timestamp : Z) (m : gmap string Z)
    (status : string) (counterID : Z) : list MetricRecord.t :=
  match status_count m status with
  | Some count =>
      [createRecord t counterID (float64_of_uint64 count) EmptyString timestamp]
  | None => []
  end.

(** The EIR-specific records of a snapshot: what [transformEIRStats] returns
    on its EIR block, nothing when it has none. *)
Definition eir_records (t : Transformer.t) (stats : ServiceStats.t) : list MetricRecord.t :=
  match eir_of stats with
  | Some eirStats =>
      match transformEIRStats t (Some eirStats) (ServiceStats.Timestamp stats) with
      | Returns records => records
      | _ => []
      end
  | None => []
  end.

(** The value a snapshot field holds, with its Go type. *)
Inductive reading : Type :=
| ReadUint64 (n : Z)
| ReadFloat64 (f : float).

(** The value the record carries, and the test [> 0] the code makes. *)
Definition reading_value (r : reading) : float :=
  match r with
  | ReadUint64 n => float64_of_uint64 n
  | ReadFloat64 f => f
  end.

Definition reading_positive (r : reading) : bool :=
  match r with
  | ReadUint64 n => 0 <? n
  | ReadFloat64 f => float_gt0 f
  end.

(** The snapshot field behind each gauge of the counter table. *)
Definition gauge_reading (stats : ServiceStats.t) (counterID : Z) : option reading :=
  let req := ServiceStats.Requests stats in
  let perf := ServiceStats.Performance stats in
  if counterID =? CounterPendingRequests then
    Some (ReadUint64 (RequestStats.Pending req))
  else if counterID =? CounterActiveConnections then
    Some (ReadUint64 (ConnectionStats.Active (ServiceStats.Connections stats)))
  else if counterID =? CounterRequestsPerSecond then
    Some (ReadFloat64 (PerformanceStats.RequestsPerSecond perf))
  else if counterID =? CounterAvgLatencyMs then
    Some (ReadFloat64 (PerformanceStats.AvgLatencyMs perf))
  else if counterID =? CounterMinLatencyMs then
    Some (ReadFloat64 (PerformanceStats.MinLatencyMs perf))
  else if counterID =? CounterMaxLatencyMs then
    Some (ReadFloat64 (PerformanceStats.MaxLatencyMs perf))
  else if counterID =? CounterP50LatencyMs then
    Some (ReadFloat64 (PerformanceStats.P50LatencyMs perf))
  else if counterID =? CounterP95LatencyMs then
    Some (ReadFloat64 (PerformanceStats.P95LatencyMs perf))
  else if counterID =? CounterP99LatencyMs then
    Some (ReadFloat64 (PerformanceStats.P99LatencyMs perf))
  else if counterID =? CounterCacheHitRate then
    (fun e => ReadFloat64 (CacheStats.HitRate (EIRStats.CacheStats e))) <$> eir_of stats
  else if counterID =? CounterCacheSize then
    (fun e => ReadUint64 (CacheStats.Size (EIRStats.CacheStats e))) <$> eir_of stats
  else None.

(** The gauges whose zero the tests of the repository expect to be
    suppressed: pending requests and the latency figures. *)
Definition zero_suppressed_gauge (counterID : Z) : bool :=
  id_in_list
    [CounterPendingRequests; CounterAvgLatencyMs; CounterMinLatencyMs;
     CounterMaxLatencyMs; CounterP50LatencyMs; CounterP95LatencyMs;
     CounterP99LatencyMs] counterID.

(** How the delta of an integer-valued breakdown relates to the current and
    the previous map, reading maps as Go does: every key of the current map
    reads as the saturated difference, a key the previous map lacks reads as
    its full current value, and a key the current map lacks is not in the
    delta. *)
Definition count_map_delta {K : Type} `{Countable K} (current prev delta : gmap K Z) : Prop :=
  (forall k v, current !! k = Some v ->
     go_lookup 0 delta k = safeSub64 v (go_lookup 0 prev k))
  /\ (forall k v, current !! k = Some v -> prev !! k = None -> is_uint64 v ->
        go_lookup 0 delta k = v)
  /\ (forall k, current !! k = None -> delta !! k = None).

(** The same for the per-source breakdown, whose entries are three
    counters. *)
Definition source_map_delta (current prev delta : gmap string SourceStats.t) : Prop :=
  (forall k c, current !! k = Some c ->
     let p := go_lookup SourceStats.zero prev k in
     delta !! k =
       Some (SourceStats.mk
               (safeSub64 (SourceStats.Total c) (SourceStats.Total p))
               (safeSub64 (SourceStats.Success c) (SourceStats.Success p))
               (safeSub64 (SourceStats.Failed c) (SourceStats.Failed p))))
  /\ (forall k c, current !! k = Some c -> prev !! k = None ->
        is_uint64 (SourceStats.Total c) -> is_uint64 (SourceStats.Success c) ->
        is_uint64 (SourceStats.Failed c) ->
        delta !! k = Some c)
  /\ (forall k, current !! k = None -> delta !! k = None).

(** The per-operation breakdown: the three counters are differenced, the
    average latency of the entry is not carried into the delta. *)
Definition operation_map_delta (current prev delta : gmap string OperationStats.t) : Prop :=
  (forall k c, current !! k = Some c ->
     let p := go_lookup OperationStats.zero prev k in
     delta !! k =
       Some (OperationStats.mk
               (safeSub64 (OperationStats.Total c) (OperationStats.Total p))
               (safeSub64 (OperationStats.Success c) (OperationStats.Success p))
               (safeSub64 (OperationStats.Failed c) (OperationStats.Failed p))
               0%float))
  /\ (forall k c, current !! k = Some c -> prev !! k = None ->
        is_uint64 (OperationStats.Total c) -> is_uint64 (OperationStats.Success c) ->
        is_uint64 (OperationStats.Failed c) ->
        delta !! k =
          Some (OperationStats.mk (OperationStats.Total c) (OperationStats.Success c)
                  (OperationStats.Failed c) 0%float))
  /\ (forall k, current !! k = None -> delta !! k = None).

(** The per-interface block of the EIR statistics, with its per-result-code
    breakdown. *)
Definition interface_map_delta (current prev delta : gmap string InterfaceCheckStats.t) : Prop :=
  (forall k c, current !! k = Some c ->
     let p := go_lookup InterfaceCheckStats.zero prev k in
     exists d, delta !! k = Some d
       /\ InterfaceCheckStats.Total d =
            safeSub64 (InterfaceCheckStats.Total c) (InterfaceCheckStats.Total p)
       /\ InterfaceCheckStats.Success d =
            safeSub64 (InterfaceCheckStats.Success c) (InterfaceCheckStats.Success p)
       /\ InterfaceCheckStats.Failed d =
            safeSub64 (InterfaceCheckStats.Failed c) (InterfaceCheckStats.Failed p)
       /\ count_map_delta (InterfaceCheckStats.ByResultCode c)
            (InterfaceCheckStats.ByResultCode p) (InterfaceCheckStats.ByResultCode d))
  /\ (forall k, current !! k = None -> delta !! k = None).

(** Snapshots used as concrete inputs: the two snapshots of the scheduler
    test, without their custom metrics. *)
Definition example_initial : ServiceStats.t :=
  ServiceStats.mk "EIR" "1.0.0" "1m" 1000
    (ConnectionStats.mk 100 5 2 0)
    (RequestStats.mk 100 90 10 0 0 0
       (<["diameter" := SourceStats.mk 60 55 5]>
          (<["http" := SourceStats.mk 40 35 5]> ∅))
       ∅)
    PerformanceStats.zero ErrorStats.zero ∅ ∅.

Definition example_updated : ServiceStats.t :=
  ServiceStats.mk "EIR" "1.0.0" "2m" 2000
    (ConnectionStats.mk 150 8 5 0)
    (RequestStats.mk 150 135 15 0 0 0
       (<["diameter" := SourceStats.mk 90 82 8]>
          (<["http" := SourceStats.mk 60 53 7]> ∅))
       ∅)
    PerformanceStats.zero ErrorStats.zero ∅ ∅.

(** No request succeeded: the request block of the zero-value test of the
    transformer. *)
Definition example_no_success : ServiceStats.t :=
  ServiceStats.mk "EIR" "1.0.0" EmptyString 1000
    ConnectionStats.zero
    (RequestStats.mk 100 0 5 0 0 0 ∅ ∅)
    PerformanceStats.zero ErrorStats.zero ∅ ∅.

(** One minute after [example_initial], with no activity and no open
    connection. *)
Definition example_idle : ServiceStats.t :=
  ServiceStats.mk "EIR" "1.0.0" "2m" 2000
    (ConnectionStats.mk 100 0 2 0)
    (RequestStats.mk 100 90 10 0 0 0
       (<["diameter" := SourceStats.mk 60 55 5]>
          (<["http" := SourceStats.mk 40 35 5]> ∅))
       ∅)
    PerformanceStats.zero ErrorStats.zero ∅ ∅.

(** A per-operation entry that carries an average latency, and a snapshot
    in which it is the only activity. *)
Definition example_operation : OperationStats.t :=
  OperationStats.mk 3 2 1 2.5%float.

Definition example_with_operation : ServiceStats.t :=
  ServiceStats.mk "EIR" "1.0.0" "2m" 2000
    ConnectionStats.zero
    (RequestStats.mk 3 2 1 0 0 0 ∅ (<["check" := example_operation]> ∅))
    PerformanceStats.zero ErrorStats.zero ∅ ∅.

(** The "eir" and "cache" entries as [ParsePrometheusMetrics] stores them:
    struct values, not pointers. *)
Definition example_prometheus : ServiceStats.t :=
  ServiceStats.mk "EIR" EmptyString EmptyString 3000
    (ConnectionStats.mk 0 4 0 0)
    (RequestStats.mk 100 90 10 0 0 0
       (<["diameter" := SourceStats.mk 60 55 5]>
          (<["http" := SourceStats.mk 40 35 5]> ∅))
       ∅)
    PerformanceStats.zero ErrorStats.zero ∅
    (<["cache" := AnyCacheStats (CacheStats.mk 80 20 80%float 0 0 0)]>
       (<["eir" :=
            AnyEIRStats
              (EIRStats.mk EquipmentCheckStats.zero DatabaseOperationStats.zero
                 CacheStats.zero
                 (<["whitelisted" := 80]>
                    (<["blacklisted" := 15]> (<["greylisted" := 5]> ∅))))]> ∅)).

Definition example_transformer : Transformer.t := NewTransformer "test-host" "EIR".

Definition example_scheduler : ExportScheduler.t :=
  NewExportScheduler 60000000000 example_transformer.

(** A running scheduler whose transformer excludes the three request
    counters, with one HTTP sink and [example_initial] as stored snapshot. *)
Definition example_excluding_transformer : Transformer.t :=
  NewTransformerWithConfig "test-host" "EIR"
    (TransformerConfig.mk []
       [CounterTotalRequests; CounterSuccessfulRequests; CounterFailedRequests]
       1%float).

Definition example_http_exporter : HTTPExporter.t :=
  HTTPExporter.mk "collector" "http://collector.local/metrics" 3 1000000000
    (fun _ => Response 200 EmptyString).

Definition example_excluding_scheduler : ExportScheduler.t :=
  ExportScheduler.mk 60000000000
    [HTTPExporter.as_Exporter example_http_exporter]
    example_excluding_transformer true (Some example_initial).

(** The scheduler after a first cycle that stored [snapshot]. *)
Definition example_scheduler_after (snapshot : ServiceStats.t) : ExportScheduler.t :=
  updatePreviousSnapshot example_scheduler (Some snapshot).

(** The identifiers the counter table lists. *)
Definition known_counter_ids : list Z := map CounterMetadata.ID GetCounterMetadata.

(** A record stamped by transformer [t] at instant [ts]. *)
Definition stamped (t : Transformer.t) (ts : Z) (r : MetricRecord.t) : Prop :=
  MetricRecord.Hostname r = Transformer.hostname t
  /\ MetricRecord.SystemName r = Transformer.systemName t
  /\ MetricRecord.Timestamp r = ts.



(** What one sink contributes to the effects of a cycle: its own I/O, then
    the line the scheduler logs for it. *)
Definition sink_trace (ctx : Context.t) (records : list MetricRecord.t)
    (exporter : Exporter.t) : list event :=
  match Exporter.Export exporter ctx records with
  | Returns (err, io) =>
      io ++ [match err with
             | Some _ => Log LevelError "Failed to export metrics"
             | None => Log LevelDebug "Successfully exported metrics"
             end]
  | _ => []
  end.

(** A sink whose [Export] returns, with or without an error. *)
Definition sink_returns (ctx : Context.t) (exporter : Exporter.t) : Prop :=
  forall records, exists r, Exporter.Export exporter ctx records = Returns r.

(** The ticks of a run in which the collector hands back the given
    snapshots, one per tick. *)
Definition ticks_of (snapshots : list ServiceStats.t) : list signal :=
  map (fun snapshot => Tick (CollectedServiceStatsPtr (Some snapshot))) snapshots.

(** Two sinks for the examples: an HTTP endpoint that always answers 500,
    and a file whose writes succeed. *)
Definition example_failing_http : HTTPExporter.t :=
  HTTPExporter.mk "broken" "http://collector.local/metrics" 2 1000000000
    (fun _ => Response 500 "internal error").

Definition example_file_exporter : FileExporter.t :=
  FileExporter.mk "file" "/var/log/metrics.jsonl" (fun _ => None) None.

(** A scheduler as [NewExportScheduler] leaves it, with the two example
    sinks registered and its stop channel open. *)
Definition example_lifecycle : Lifecycle.t :=
  Lifecycle.mk
    (AddExporter
       (AddExporter example_scheduler (HTTPExporter.as_Exporter example_failing_http))
       (FileExporter.as_Exporter example_file_exporter))
    false.


(** Reading the effects of an exporter: the number of HTTP requests sent
    and of delays slept, the batches handed to the database and the records
    handed to the file writer, in order. *)
Definition http_posts (io : list event) : nat :=
  length (List.filter (fun ev => match ev with HTTPPost _ _ => true | _ => false end) io).

Definition sleeps (io : list event) : nat :=
  length (List.filter (fun ev => match ev with Sleep _ => true | _ => false end) io).

Definition db_batches (io : list event) : list (list MetricRecord.t) :=
  flat_map (fun ev => match ev with DBExec _ batch => [batch] | _ => [] end) io.




(** A context that is never cancelled while the exporter looks at it. *)
Definition never_done (ctx : Context.t) : Prop :=
  forall k, Context.done_before ctx k = false /\ Context.done_in_delay ctx k = false.

(** An endpoint that is unreachable for the first two requests and then
    answers 204. *)
Definition example_flaky_http : HTTPExporter.t :=
  HTTPExporter.mk "flaky" "http://collector.local/metrics" 5 1000000000
    (fun k => if k <? 3 then TransportFailed "connection refused"
              else Response 204 EmptyString).

(** A PostgreSQL exporter with batches of two records whose database
    accepts every statement, and one whose database rejects them all. *)
Definition example_postgres : PostgresExporter.t :=
  PostgresExporter.mk "pg" "metrics" 2 3 (fun _ _ => None) None.

Definition example_failing_postgres : PostgresExporter.t :=
  PostgresExporter.mk "pg" "metrics" 2 3 (fun _ _ => Some "connection lost") None.

Definition example_records : list MetricRecord.t :=
  [createRecord example_transformer CounterTotalRequests 100%float EmptyString 1000;
   createRecord example_transformer CounterSuccessfulRequests 90%float EmptyString 1000;
   createRecord example_transformer CounterFailedRequests 10%float EmptyString 1000].

(** A configuration that leaves the table name and the retry limit to the
    defaults, and a database that answers the ping but refuses the table
    statement. *)
Definition example_postgres_config : PostgresExporterConfig.t :=
  PostgresExporterConfig.mk "pg" "postgres://collector.local/metrics" EmptyString 2 0.

Definition example_postgres_server : PostgresServer.t :=
  PostgresServer.mk None None (Some "permission denied") (fun _ => None)
    (fun _ _ => None) None.



(** * Properties *)

(** ** Saturating subtraction *)

Lemma wrap64_small (n : Z) : is_uint64 n -> wrap64 n = n.
Proof. unfold is_uint64, wrap64. intros Hn. apply Z.mod_small. exact Hn. Qed.

Lemma safeSub64_ge (a b : Z) :
  is_uint64 a -> is_uint64 b -> b <= a -> safeSub64 a b = a - b.
Proof.
  unfold safeSub64, is_uint64. intros Ha Hb Hle.
  destruct (Z.geb_spec a b) as [_ | Hlt]; [| lia].
  apply wrap64_small. unfold is_uint64. lia.
Qed.

Lemma safeSub64_lt (a b : Z) : a < b -> safeSub64 a b = 0.
Proof.
  unfold safeSub64. intros Hlt.
  destruct (Z.geb_spec a b) as [Hge | _]; [lia | reflexivity].
Qed.

Lemma safeSub64_zero_r (a : Z) : is_uint64 a -> safeSub64 a 0 = a.
Proof.
  intros Ha. rewrite safeSub64_ge; [lia | exact Ha | | ].
  - unfold is_uint64, uint64_modulus. lia.
  - unfold is_uint64 in Ha. lia.
Qed.

(** C1.  For uint64 counter values [prev] and [curr], the delta
    [safeSub64 curr prev] is [curr - prev] when [curr >= prev] and 0 when
    [curr < prev]; it is a uint64 between 0 and [curr], so it is never
    negative and never the wrapped-around difference. *)
Theorem safeSub64_saturating (prev curr : Z) :
  is_uint64 prev -> is_uint64 curr ->
  (curr >= prev -> safeSub64 curr prev = curr - prev)
  /\ (curr < prev -> safeSub64 curr prev = 0)
  /\ is_uint64 (safeSub64 curr prev)
  /\ safeSub64 curr prev <= curr.
Proof.
  intros Hp Hc.
  assert (Hcases : curr >= prev \/ curr < prev) by lia.
  split; [| split].
  - intros Hge. apply safeSub64_ge; [assumption | assumption | lia].
  - apply safeSub64_lt.
  - destruct Hcases as [Hge | Hlt].
    + rewrite safeSub64_ge by (assumption || lia).
      unfold is_uint64 in *. lia.
    + rewrite safeSub64_lt by assumption.
      unfold is_uint64 in *. lia.
Qed.

Lemma safeSub64_saturating_witness :
  safeSub64 150 100 = 50 /\ safeSub64 50 100 = 0.
Proof.
  split.
  - destruct (safeSub64_saturating 100 150) as [Hge _].
    + unfold is_uint64, uint64_modulus. lia.
    + unfold is_uint64, uint64_modulus. lia.
    + rewrite Hge; [reflexivity | lia].
  - destruct (safeSub64_saturating 100 50) as (_ & Hlt & _).
    + unfold is_uint64, uint64_modulus. lia.
    + unfold is_uint64, uint64_modulus. lia.
    + apply Hlt. lia.
Defined.

(** ** The include and exclude lists *)

Lemma id_in_list_elem_of (ids : list Z) (counterID : Z) :
  id_in_list ids counterID = true <-> counterID ∈ ids.
Proof.
  induction ids as [| id rest IH]; simpl.
  - split; [discriminate | intros Hin; inversion Hin].
  - rewrite elem_of_cons. destruct (Z.eqb_spec id counterID) as [-> | Hne].
    + split; [intros _; left; reflexivity | reflexivity].
    + rewrite IH. split; [intros Hin; right; exact Hin |].
      intros [Heq | Hin]; [congruence | exact Hin].
Qed.

Lemma length_zero_nil {A : Type} (l : list A) :
  (Z.of_nat (length l) =? 0) = true <-> l = [].
Proof.
  destruct l as [| x l]; simpl.
  - split; reflexivity.
  - split; discriminate.
Qed.

(** A turn of the loop appends the record exactly when it survives. *)
Lemma filterRecords_step_survives (t : Transformer.t)
    (filtered : list MetricRecord.t) (record : MetricRecord.t) :
  filterRecords_step t filtered record =
    if decide (survives (Transformer.config t) (MetricRecord.CounterID record))
    then filtered ++ [record] else filtered.
Proof.
  unfold filterRecords_step, isExcluded, isIncluded, append.
  set (cfg := Transformer.config t). set (id := MetricRecord.CounterID record).
  destruct (decide (survives cfg id)) as [[Hnex Hincl] | Hno].
  - replace (id_in_list (TransformerConfig.ExcludeCounters cfg) id) with false.
    2:{ symmetry. apply not_true_is_false. rewrite id_in_list_elem_of. exact Hnex. }
    destruct Hincl as [Hnil | Hin].
    + rewrite Hnil. reflexivity.
    + apply id_in_list_elem_of in Hin. rewrite Hin, andb_false_r. reflexivity.
  - destruct (id_in_list (TransformerConfig.ExcludeCounters cfg) id) eqn:Hex;
      [reflexivity |].
    assert (Hnex : id ∉ TransformerConfig.ExcludeCounters cfg).
    { intros Hin. apply id_in_list_elem_of in Hin. congruence. }
    destruct (id_in_list (TransformerConfig.IncludeCounters cfg) id) eqn:Hin.
    + exfalso. apply Hno. split; [exact Hnex | right].
      apply id_in_list_elem_of. exact Hin.
    + destruct (TransformerConfig.IncludeCounters cfg) as [| i incl] eqn:Hincl.
      * exfalso. apply Hno. split; [exact Hnex | left; exact Hincl].
      * reflexivity.
Qed.

Lemma filterRecords_loop (t : Transformer.t) (records filtered : list MetricRecord.t) :
  foldl (filterRecords_step t) filtered records =
    filtered ++ filter (fun r => survives (Transformer.config t) (MetricRecord.CounterID r)) records.
Proof.
  revert filtered. induction records as [| r records IH]; intros filtered; simpl.
  - rewrite app_nil_r. reflexivity.
  - rewrite IH, filterRecords_step_survives, filter_cons.
    destruct (decide _); [rewrite <- app_assoc |]; reflexivity.
Qed.

Lemma filter_all_survive (cfg : TransformerConfig.t) (records : list MetricRecord.t) :
  TransformerConfig.IncludeCounters cfg = [] ->
  TransformerConfig.ExcludeCounters cfg = [] ->
  filter (fun r => survives cfg (MetricRecord.CounterID r)) records = records.
Proof.
  intros Hin Hex. induction records as [| r records IH]; [reflexivity |].
  rewrite filter_cons, IH. destruct (decide _) as [_ | Hno]; [reflexivity |].
  exfalso. apply Hno. unfold survives. rewrite Hin, Hex.
  split; [apply not_elem_of_nil | left; reflexivity].
Qed.

Lemma filterRecords_filter (t : Transformer.t) (records : list MetricRecord.t) :
  filterRecords t records =
    filter (fun r => survives (Transformer.config t) (MetricRecord.CounterID r)) records.
Proof.
  unfold filterRecords.
  destruct (Z.of_nat (length (TransformerConfig.IncludeCounters (Transformer.config t))) =? 0) eqn:Hin;
    [destruct (Z.of_nat (length (TransformerConfig.ExcludeCounters (Transformer.config t))) =? 0) eqn:Hex |];
    simpl.
  - apply length_zero_nil in Hin. apply length_zero_nil in Hex.
    symmetry. apply filter_all_survive; assumption.
  - apply (filterRecords_loop t records []).
  - apply (filterRecords_loop t records []).
Qed.

(** C7.  [filterRecords] keeps, in order, exactly the records whose
    identifier is not on the exclude list and is on the include list when
    that list is not empty.  An identifier on both lists is dropped, and
    with both lists empty the batch comes back unchanged. *)
Theorem filterRecords_include_exclude (t : Transformer.t) (records : list MetricRecord.t) :
  let cfg := Transformer.config t in
  filterRecords t records =
    filter (fun r => survives cfg (MetricRecord.CounterID r)) records
  /\ (forall r, r ∈ filterRecords t records <->
        r ∈ records
        /\ (MetricRecord.CounterID r ∉ TransformerConfig.ExcludeCounters cfg)
        /\ (TransformerConfig.IncludeCounters cfg = []
            \/ MetricRecord.CounterID r ∈ TransformerConfig.IncludeCounters cfg))
  /\ (forall r, MetricRecord.CounterID r ∈ TransformerConfig.ExcludeCounters cfg ->
        MetricRecord.CounterID r ∈ TransformerConfig.IncludeCounters cfg ->
        r ∉ filterRecords t records)
  /\ (TransformerConfig.IncludeCounters cfg = [] ->
      TransformerConfig.ExcludeCounters cfg = [] ->
      filterRecords t records = records).
Proof.
  intros cfg. pose proof (filterRecords_filter t records) as Heq. fold cfg in Heq.
  assert (Hmem : forall r, r ∈ filterRecords t records <->
            r ∈ records /\ survives cfg (MetricRecord.CounterID r)).
  { intros r. rewrite Heq, list_elem_of_filter. tauto. }
  split; [exact Heq | split; [| split]].
  - intros r. rewrite Hmem. unfold survives. tauto.
  - intros r Hex _ Hin. apply Hmem in Hin as [_ [Hnot _]]. contradiction.
  - intros Hin Hex. rewrite Heq. apply filter_all_survive; assumption.
Qed.

Lemma filterRecords_include_exclude_witness :
  let t := NewTransformerWithConfig "test-host" "EIR"
             (TransformerConfig.mk [CounterTotalRequests; CounterFailedRequests]
                [CounterFailedRequests] 1%float) in
  let total := createRecord t CounterTotalRequests 100%float EmptyString 1000 in
  let failed := createRecord t CounterFailedRequests 10%float EmptyString 1000 in
  (failed ∉ filterRecords t [total; failed])
  /\ filterRecords example_transformer [total; failed] = [total; failed].
Proof.
  intros t total failed. split.
  - destruct (filterRecords_include_exclude t [total; failed]) as (_ & _ & Hboth & _).
    apply Hboth; simpl; repeat constructor.
  - destruct (filterRecords_include_exclude example_transformer [total; failed])
      as (_ & _ & _ & Hempty).
    apply Hempty; reflexivity.
Defined.

(** ** The first cycle *)

(** C4.  With no previous snapshot stored, the delta engine returns the
    current snapshot itself: the same pointer, nothing subtracted, and one
    debug line logged. *)
Theorem first_cycle_delta_is_current (s : ExportScheduler.t)
    (current : ptr ServiceStats.t) :
  ExportScheduler.prevSnapshot s = nil ->
  calculateDeltaStats s current =
    Returns (current, [Log LevelDebug "No previous snapshot, exporting current stats"]).
Proof.
  intros Hprev. unfold calculateDeltaStats. rewrite Hprev. reflexivity.
Qed.

Lemma first_cycle_delta_is_current_witness :
  calculateDeltaStats example_scheduler (Some example_initial) =
    Returns (Some example_initial,
             [Log LevelDebug "No previous snapshot, exporting current stats"]).
Proof.
  apply (first_cycle_delta_is_current example_scheduler (Some example_initial)).
  reflexivity.
Defined.

(** ** Collector failures *)


(** ** Empty batches *)

(** C9.  [Export] of each of the three exporters, called with an empty
    batch, returns the nil error and performs no I/O at all, whatever the
    exporter's configuration, transport and context; the same holds through
    the [Exporter] interface. *)
Theorem export_empty_batch_is_noop :
  (forall (e : HTTPExporter.t) (ctx : Context.t),
     HTTPExporter.Export e ctx [] = Returns (None, [])
     /\ Exporter.Export (HTTPExporter.as_Exporter e) ctx [] = Returns (None, []))
  /\ (forall (e : PostgresExporter.t) (ctx : Context.t),
        PostgresExporter.Export e ctx [] = Returns (None, [])
        /\ Exporter.Export (PostgresExporter.as_Exporter e) ctx [] = Returns (None, []))
  /\ (forall (e : FileExporter.t) (ctx : Context.t),
        FileExporter.Export e ctx [] = Returns (None, [])
        /\ Exporter.Export (FileExporter.as_Exporter e) ctx [] = Returns (None, [])).
Proof. repeat split. Qed.

(** ** What the transformer builds *)

Lemma append_if {b : bool} (records : list MetricRecord.t) (r : MetricRecord.t) :
  (if b then append records r else records) = records ++ emit b r.
Proof. destruct b; simpl; [reflexivity | rewrite app_nil_r; reflexivity]. Qed.

Lemma records_of_app (counterID : Z) (l1 l2 : list MetricRecord.t) :
  records_of counterID (l1 ++ l2) = records_of counterID l1 ++ records_of counterID l2.
Proof. unfold records_of. apply List.filter_app. Qed.

Lemma records_of_emit (counterID : Z) (b : bool) (r : MetricRecord.t) :
  records_of counterID (emit b r) =
    if MetricRecord.CounterID r =? counterID then emit b r else [].
Proof.
  unfold records_of, emit. destruct b; simpl; [| destruct (_ =? _); reflexivity].
  destruct (_ =? _); reflexivity.
Qed.

Lemma records_of_append (counterID : Z) (records : list MetricRecord.t) (r : MetricRecord.t) :
  records_of counterID (append records r) =
    records_of counterID records ++
      (if MetricRecord.CounterID r =? counterID then [r] else []).
Proof.
  unfold append. rewrite records_of_app. reflexivity.
Qed.

Lemma general_records_eq (t : Transformer.t) (stats : ServiceStats.t) :
  let ts := ServiceStats.Timestamp stats in
  let req := ServiceStats.Requests stats in
  let conn := ServiceStats.Connections stats in
  let perf := ServiceStats.Performance stats in
  general_records t stats =
    [createRecord t CounterTotalRequests (float64_of_uint64 (RequestStats.Total req)) EmptyString ts;
     createRecord t CounterSuccessfulRequests (float64_of_uint64 (RequestStats.Success req)) EmptyString ts;
     createRecord t CounterFailedRequests (float64_of_uint64 (RequestStats.Failed req)) EmptyString ts]
    ++ emit (0 <? RequestStats.Pending req)
         (createRecord t CounterPendingRequests (float64_of_uint64 (RequestStats.Pending req)) EmptyString ts)
    ++ emit (0 <? ConnectionStats.Active conn)
         (createRecord t CounterActiveConnections (float64_of_uint64 (ConnectionStats.Active conn)) EmptyString ts)
    ++ emit (0 <? ConnectionStats.Total conn)
         (createRecord t CounterTotalConnections (float64_of_uint64 (ConnectionStats.Total conn)) EmptyString ts)
    ++ emit (0 <? ConnectionStats.Failed conn)
         (createRecord t CounterFailedConnections (float64_of_uint64 (ConnectionStats.Failed conn)) EmptyString ts)
    ++ emit (float_gt0 (PerformanceStats.RequestsPerSecond perf))
         (createRecord t CounterRequestsPerSecond (PerformanceStats.RequestsPerSecond perf) EmptyString ts)
    ++ emit (float_gt0 (PerformanceStats.AvgLatencyMs perf))
         (createRecord t CounterAvgLatencyMs (PerformanceStats.AvgLatencyMs perf) EmptyString ts)
    ++ emit (float_gt0 (PerformanceStats.MinLatencyMs perf))
         (createRecord t CounterMinLatencyMs (PerformanceStats.MinLatencyMs perf) EmptyString ts)
    ++ emit (float_gt0 (PerformanceStats.MaxLatencyMs perf))
         (createRecord t CounterMaxLatencyMs (PerformanceStats.MaxLatencyMs perf) EmptyString ts)
    ++ emit (float_gt0 (PerformanceStats.P50LatencyMs perf))
         (createRecord t CounterP50LatencyMs (PerformanceStats.P50LatencyMs perf) EmptyString ts)
    ++ emit (float_gt0 (PerformanceStats.P95LatencyMs perf))
         (createRecord t CounterP95LatencyMs (PerformanceStats.P95LatencyMs perf) EmptyString ts)
    ++ emit (float_gt0 (PerformanceStats.P99LatencyMs perf))
         (createRecord t CounterP99LatencyMs (PerformanceStats.P99LatencyMs perf) EmptyString ts).
Proof.
  intros ts req conn perf. unfold general_records. cbv zeta.
  fold ts req conn perf. rewrite !append_if. unfold append. simpl.
  rewrite <- !app_assoc. reflexivity.
Qed.

Lemma append_status (t : Transformer.t) (ts : Z) (m : gmap string Z)
    (status : string) (counterID : Z) (records : list MetricRecord.t) :
  match status_count m status with
  | Some count =>
      append records (createRecord t counterID (float64_of_uint64 count) EmptyString ts)
  | None => records
  end = records ++ status_records t ts m status counterID.
Proof.
  unfold status_records. destruct (status_count m status); simpl;
    [reflexivity | rewrite app_nil_r; reflexivity].
Qed.

Lemma records_of_status (id : Z) (t : Transformer.t) (ts : Z) (m : gmap string Z)
    (status : string) (counterID : Z) :
  records_of id (status_records t ts m status counterID) =
    if counterID =? id then status_records t ts m status counterID else [].
Proof.
  unfold status_records, records_of.
  destruct (status_count m status); simpl; destruct (_ =? _); reflexivity.
Qed.

Lemma resultCode_loop_records_of (t : Transformer.t) (ts : Z) (ifName : string)
    (resultCodeCounter id : Z) (entries : list (Z * Z)) (records : list MetricRecord.t) :
  resultCodeCounter <> id ->
  records_of id (foldl (resultCode_step t ts ifName resultCodeCounter) records entries)
    = records_of id records.
Proof.
  intros Hne. revert records.
  induction entries as [| [code count] entries IH]; intros records; simpl;
    [reflexivity |].
  rewrite IH. destruct (0 <? count); [| reflexivity].
  rewrite records_of_append. simpl.
  destruct (Z.eqb_spec resultCodeCounter id); [contradiction |].
  apply app_nil_r.
Qed.

Lemma interface_step_records_of (t : Transformer.t) (ts : Z) (id : Z)
    (records : list MetricRecord.t) (entry : string * InterfaceCheckStats.t) :
  is_interface_counter id = false ->
  records_of id (interface_step t ts records entry) = records_of id records.
Proof.
  intros Hid. destruct entry as [ifName ifStats]. unfold interface_step.
  destruct (interface_counters ifName) as [[[[tc sc] fc] rc] |] eqn:Hsw;
    [| reflexivity].
  assert (Hne : tc <> id /\ sc <> id /\ fc <> id /\ rc <> id).
  { unfold interface_counters in Hsw.
    repeat split; intros ->;
      destruct (String.eqb ifName "diameter");
      [| destruct (String.eqb ifName "http") | | destruct (String.eqb ifName "http")
       | | destruct (String.eqb ifName "http") | | destruct (String.eqb ifName "http")];
      try discriminate; inversion Hsw; subst; discriminate. }
  destruct Hne as (Htc & Hsc & Hfc & Hrc).
  rewrite resultCode_loop_records_of by exact Hrc.
  rewrite !append_if, !records_of_app, !records_of_emit. simpl.
  destruct (Z.eqb_spec tc id); [contradiction |].
  destruct (Z.eqb_spec sc id); [contradiction |].
  destruct (Z.eqb_spec fc id); [contradiction |].
  rewrite !app_nil_r. reflexivity.
Qed.

Lemma interface_loop_records_of (t : Transformer.t) (ts : Z) (id : Z)
    (entries : list (string * InterfaceCheckStats.t)) (records : list MetricRecord.t) :
  is_interface_counter id = false ->
  records_of id (foldl (interface_step t ts) records entries) = records_of id records.
Proof.
  intros Hid. revert records.
  induction entries as [| entry entries IH]; intros records; simpl; [reflexivity |].
  rewrite IH. apply interface_step_records_of. exact Hid.
Qed.

Lemma transformEIRStats_eq (t : Transformer.t) (e : EIRStats.t) (ts : Z) :
  let cache := EIRStats.CacheStats e in
  let db := EIRStats.DatabaseOps e in
  let status := EIRStats.ByEquipmentStatus e in
  transformEIRStats t (Some e) ts =
    Returns
      (foldl (interface_step t ts) []
         (map_to_list (EquipmentCheckStats.ByInterface (EIRStats.EquipmentChecks e)))
       ++ emit (0 <? CacheStats.Hits cache)
            (createRecord t CounterCacheHits (float64_of_uint64 (CacheStats.Hits cache)) EmptyString ts)
       ++ emit (0 <? CacheStats.Misses cache)
            (createRecord t CounterCacheMisses (float64_of_uint64 (CacheStats.Misses cache)) EmptyString ts)
       ++ emit (float_gt0 (CacheStats.HitRate cache))
            (createRecord t CounterCacheHitRate (CacheStats.HitRate cache) EmptyString ts)
       ++ emit (0 <? CacheStats.Size cache)
            (createRecord t CounterCacheSize (float64_of_uint64 (CacheStats.Size cache)) EmptyString ts)
       ++ emit (0 <? DatabaseOperationStats.Queries db)
            (createRecord t CounterDBQueries (float64_of_uint64 (DatabaseOperationStats.Queries db)) EmptyString ts)
       ++ emit (0 <? DatabaseOperationStats.Inserts db)
            (createRecord t CounterDBInserts (float64_of_uint64 (DatabaseOperationStats.Inserts db)) EmptyString ts)
       ++ emit (0 <? DatabaseOperationStats.Updates db)
            (createRecord t CounterDBUpdates (float64_of_uint64 (DatabaseOperationStats.Updates db)) EmptyString ts)
       ++ emit (0 <? DatabaseOperationStats.Deletes db)
            (createRecord t CounterDBDeletes (float64_of_uint64 (DatabaseOperationStats.Deletes db)) EmptyString ts)
       ++ status_records t ts status "whitelisted" CounterWhitelisted
       ++ status_records t ts status "blacklisted" CounterBlacklisted
       ++ status_records t ts status "greylisted" CounterGreylisted).
Proof.
  intros cache db status. unfold transformEIRStats. simpl deref.
  change (Returns ?x ≫= ?k) with (k x). cbv beta zeta.
  fold cache db status. rewrite !append_status, !append_if.
  rewrite <- !app_assoc. reflexivity.
Qed.

Lemma Transform_returns (t : Transformer.t) (stats : ServiceStats.t) :
  eir_pointer_ok stats ->
  Transform t (Some stats) =
    Returns (filterRecords t (general_records t stats ++ eir_records t stats)).
Proof.
  unfold eir_pointer_ok, Transform, eir_records, eir_of. intros Hok.
  simpl deref. change (Returns ?x ≫= ?k) with (k x). cbv beta zeta.
  destruct (assert_EIRStatsPtr (ServiceStats.CustomMetrics stats !! "eir"))
    as [[e |] |].
  - rewrite transformEIRStats_eq. reflexivity.
  - contradiction Hok. reflexivity.
  - rewrite app_nil_r. reflexivity.
Qed.

Lemma records_of_filterRecords (t : Transformer.t) (id : Z) (records : list MetricRecord.t) :
  survives (Transformer.config t) id ->
  records_of id (filterRecords t records) = records_of id records.
Proof.
  intros Hid. rewrite filterRecords_filter.
  induction records as [| r records IH]; [reflexivity |].
  rewrite filter_cons. unfold records_of in *. simpl.
  destruct (decide _) as [Hs | Hno]; simpl; rewrite IH; [reflexivity |].
  destruct (Z.eqb_spec (MetricRecord.CounterID r) id) as [Heq | _]; [| reflexivity].
  rewrite Heq in Hno. contradiction.
Qed.

Lemma general_records_no_eir (t : Transformer.t) (stats : ServiceStats.t) :
  Forall (fun r => is_eir_counter (MetricRecord.CounterID r) = false)
    (general_records t stats).
Proof.
  rewrite general_records_eq. cbv zeta.
  repeat (apply Forall_app; split);
    try (unfold emit; match goal with |- context [if ?b then _ else _] => destruct b end);
    repeat constructor.
Qed.

Lemma eir_records_of_other (t : Transformer.t) (stats : ServiceStats.t) (id : Z) :
  is_eir_counter id = false ->
  records_of id (eir_records t stats) = [].
Proof.
  intros Hid. unfold eir_records. destruct (eir_of stats) as [e |]; [| reflexivity].
  rewrite transformEIRStats_eq. cbv zeta.
  assert (Hif : is_interface_counter id = false).
  { unfold is_eir_counter in Hid. apply orb_false_iff in Hid. tauto. }
  rewrite !records_of_app, interface_loop_records_of by exact Hif.
  rewrite !records_of_emit, !records_of_status. unfold createRecord.
  cbn [MetricRecord.CounterID records_of List.filter].
  repeat match goal with
  | |- context [?c =? id] =>
      destruct (Z.eqb_spec c id) as [Heq | _];
      [subst id; vm_compute in Hid; discriminate Hid |]
  end.
  reflexivity.
Qed.

(** Decides the comparisons between counter identifiers that are left once
    the batch is split into its pieces. *)
Ltac decide_counter_ids :=
  unfold createRecord; cbn [MetricRecord.CounterID records_of List.filter];
  repeat match goal with
  | |- context [Z.eqb ?a ?b] =>
      let v := eval vm_compute in (Z.eqb a b) in
      progress change (Z.eqb a b) with v
  end;
  cbn iota; rewrite ?app_nil_r; cbn [app].

Lemma general_records_of_eir_gauge (t : Transformer.t) (stats : ServiceStats.t) (id : Z) :
  is_eir_counter id = true -> records_of id (general_records t stats) = [].
Proof.
  intros Hid. pose proof (general_records_no_eir t stats) as Hall.
  unfold records_of. induction Hall as [| r l Hr _ IH]; [reflexivity |].
  simpl. destruct (Z.eqb_spec (MetricRecord.CounterID r) id) as [Heq | _];
    [congruence | exact IH].
Qed.

(** The records a gauge contributes to the unfiltered batch: one record
    with the value of its field when that value is greater than zero, none
    otherwise. *)
Lemma gauge_records_of (t : Transformer.t) (stats : ServiceStats.t) (id : Z) (r : reading) :
  gauge_reading stats id = Some r ->
  records_of id (general_records t stats ++ eir_records t stats) =
    emit (reading_positive r)
      (createRecord t id (reading_value r) EmptyString (ServiceStats.Timestamp stats)).
Proof.
  unfold gauge_reading. cbv zeta. intros H.
  repeat match type of H with
  | (if ?a =? ?c then _ else _) = _ =>
      destruct (Z.eqb_spec a c) as [-> | _]
  end;
  try discriminate H;
  try (injection H as <-;
       rewrite records_of_app, eir_records_of_other by reflexivity;
       rewrite general_records_eq; cbv zeta;
       rewrite !records_of_app, !records_of_emit;
       decide_counter_ids; reflexivity).
  - destruct (eir_of stats) as [e |] eqn:He; [| discriminate H].
    injection H as <-.
    rewrite records_of_app, general_records_of_eir_gauge by reflexivity.
    unfold eir_records. rewrite He, transformEIRStats_eq. cbv zeta.
    rewrite !records_of_app, interface_loop_records_of by reflexivity.
    rewrite !records_of_emit, !records_of_status.
    decide_counter_ids. reflexivity.
  - destruct (eir_of stats) as [e |] eqn:He; [| discriminate H].
    injection H as <-.
    rewrite records_of_app, general_records_of_eir_gauge by reflexivity.
    unfold eir_records. rewrite He, transformEIRStats_eq. cbv zeta.
    rewrite !records_of_app, interface_loop_records_of by reflexivity.
    rewrite !records_of_emit, !records_of_status.
    decide_counter_ids. reflexivity.
Qed.

(** ** Gauges and counters in the transformer *)

(** C2, counterexample.  Pending requests and the average latency are
    gauges of the counter table; on the all-zero snapshot their value is
    zero and the transformer emits no record for either. *)
Lemma zero_gauge_is_suppressed :
  counter_type CounterPendingRequests = Some "gauge"
  /\ counter_type CounterAvgLatencyMs = Some "gauge"
  /\ gauge_reading ServiceStats.zero CounterPendingRequests = Some (ReadUint64 0)
  /\ gauge_reading ServiceStats.zero CounterAvgLatencyMs = Some (ReadFloat64 0%float)
  /\ exists records,
       Transform example_transformer (Some ServiceStats.zero) = Returns records
       /\ records_of CounterPendingRequests records = []
       /\ records_of CounterAvgLatencyMs records = [].
Proof.
  repeat split. eexists. repeat split; vm_compute; reflexivity.
Qed.

(** The gauges of the counter table. *)
Lemma counter_type_gauge (id : Z) :
  counter_type id = Some "gauge" ->
  In id [CounterPendingRequests; CounterRequestsPerSecond; CounterAvgLatencyMs;
         CounterMinLatencyMs; CounterMaxLatencyMs; CounterP50LatencyMs;
         CounterP95LatencyMs; CounterP99LatencyMs; CounterCacheHitRate;
         CounterCacheSize; CounterActiveConnections].
Proof.
  unfold counter_type, GetCounterMetadata. cbn [List.find CounterMetadata.ID].
  repeat match goal with
  | |- context [?c =? id] =>
      destruct (Z.eqb_spec c id) as [<- | _];
      [intros Hty; first [discriminate Hty | cbn; tauto] |]
  end.
  discriminate.
Qed.

(** C2, amended.  For every snapshot whose "eir" entry is not a nil
    pointer, the transformer returns a batch in which every gauge of the
    counter table that passes the filter has exactly one record, carrying
    the value of its field, when that value is greater than zero; pending
    requests and the latency gauges have no record when their value is not
    greater than zero.  The only gauges without a field to read are the two
    cache gauges of a snapshot that has no EIR block, and they have no
    record. *)
Theorem gauge_emitted_when_positive (t : Transformer.t) (stats : ServiceStats.t) :
  eir_pointer_ok stats ->
  exists records,
    Transform t (Some stats) = Returns records
    /\ forall id : Z,
         counter_type id = Some "gauge" ->
         survives (Transformer.config t) id ->
         match gauge_reading stats id with
         | Some r =>
             (reading_positive r = true ->
                records_of id records =
                  [createRecord t id (reading_value r) EmptyString
                     (ServiceStats.Timestamp stats)])
             /\ (zero_suppressed_gauge id = true ->
                 reading_positive r = false ->
                 records_of id records = [])
         | None =>
             (id = CounterCacheHitRate \/ id = CounterCacheSize)
             /\ eir_of stats = None
             /\ records_of id records = []
         end.
Proof.
  intros Hok. eexists. split; [apply Transform_returns; exact Hok |].
  intros id Hty Hid.
  rewrite records_of_filterRecords by exact Hid.
  destruct (gauge_reading stats id) as [r |] eqn:Hread.
  - rewrite (gauge_records_of t stats id r Hread).
    split; [intros -> | intros _ ->]; reflexivity.
  - assert (Hcache : (id = CounterCacheHitRate \/ id = CounterCacheSize)
                     /\ eir_of stats = None).
    { apply counter_type_gauge in Hty. cbn [In] in Hty.
      unfold gauge_reading in Hread.
      repeat (destruct Hty as [<- | Hty]; [cbn in Hread |]);
        try discriminate Hread; try contradiction Hty;
        (destruct (eir_of stats); [discriminate Hread | tauto]). }
    destruct Hcache as [Hid' Heir]. split; [exact Hid' | split; [exact Heir |]].
    rewrite records_of_app. unfold eir_records. rewrite Heir, app_nil_r.
    apply general_records_of_eir_gauge. destruct Hid' as [-> | ->]; reflexivity.
Qed.

Lemma gauge_emitted_when_positive_witness :
  exists records,
    Transform example_transformer (Some example_initial) = Returns records
    /\ records_of CounterActiveConnections records =
         [createRecord example_transformer CounterActiveConnections 5%float
            EmptyString 1000]
    /\ records_of CounterPendingRequests records = [].
Proof.
  destruct (gauge_emitted_when_positive example_transformer example_initial)
    as (records & Hret & Hgauges).
  - unfold eir_pointer_ok. vm_compute. discriminate.
  - exists records. split; [exact Hret | split].
    + apply (Hgauges CounterActiveConnections); try reflexivity.
      split; [apply not_elem_of_nil | left; reflexivity].
    + apply (Hgauges CounterPendingRequests); try reflexivity.
      split; [apply not_elem_of_nil | left; reflexivity].
Defined.

(** The three request counters have no [> 0] guard: each has exactly one
    record in the unfiltered batch, whatever its value. *)
Lemma request_counters_unguarded (t : Transformer.t) (stats : ServiceStats.t) :
  let req := ServiceStats.Requests stats in
  let ts := ServiceStats.Timestamp stats in
  let records := general_records t stats ++ eir_records t stats in
  records_of CounterTotalRequests records =
    [createRecord t CounterTotalRequests (float64_of_uint64 (RequestStats.Total req)) EmptyString ts]
  /\ records_of CounterSuccessfulRequests records =
       [createRecord t CounterSuccessfulRequests (float64_of_uint64 (RequestStats.Success req)) EmptyString ts]
  /\ records_of CounterFailedRequests records =
       [createRecord t CounterFailedRequests (float64_of_uint64 (RequestStats.Failed req)) EmptyString ts].
Proof.
  cbv zeta. repeat split;
    rewrite records_of_app, eir_records_of_other by reflexivity;
    rewrite general_records_eq; cbv zeta;
    rewrite !records_of_app, !records_of_emit;
    decide_counter_ids; reflexivity.
Qed.

(** C3.  The code at the failing input: with 100 requests of which none
    succeeded, the default transformer emits the successful-requests record
    with value 0 (and emits the three request records whatever their
    value). *)
Theorem zero_request_counter_is_emitted :
  Transform example_transformer (Some example_no_success) =
    Returns
      [createRecord example_transformer CounterTotalRequests 100%float EmptyString 1000;
       createRecord example_transformer CounterSuccessfulRequests 0%float EmptyString 1000;
       createRecord example_transformer CounterFailedRequests 5%float EmptyString 1000]
  /\ counter_type CounterSuccessfulRequests = Some "counter"
  /\ RequestStats.Success (ServiceStats.Requests example_no_success) = 0.
Proof. repeat split. Qed.

(** ** The previous-snapshot slot *)

(** What the cycle does when the batch is not empty: once every sink has
    returned, the slot holds the current snapshot, not the delta. *)
Lemma exportCycle_stores_current (s s' : ExportScheduler.t) (ctx : Context.t)
    (currentStats deltaStats : ptr ServiceStats.t) (logged io : list event)
    (records : list MetricRecord.t) :
  calculateDeltaStats s currentStats = Returns (deltaStats, logged) ->
  Transform (ExportScheduler.transformer s) deltaStats = Returns records ->
  records <> [] ->
  exportCycle s ctx (CollectedServiceStatsPtr currentStats) = Returns (s', io) ->
  ExportScheduler.prevSnapshot s' = currentStats.
Proof.
  intros Hdelta Htransform Hrecords. unfold exportCycle.
  rewrite Hdelta. simpl. rewrite Htransform. simpl.
  destruct records as [| r records]; [contradiction Hrecords; reflexivity |].
  destruct (fanOut ctx _ (r :: records)) as [ios | |];
    simpl; intros Hcycle; try discriminate Hcycle.
  injection Hcycle as <- _. reflexivity.
Qed.

(** C5.  The code at the failing input: the transformer excludes the three
    request counters, the collector hands back a valid snapshot in which
    nothing moved, the batch is empty, and the cycle returns before
    [updatePreviousSnapshot]: the slot still holds the older snapshot, not
    the current one. *)
Theorem empty_batch_leaves_previous_snapshot :
  exportCycle example_excluding_scheduler Context.background
      (CollectedServiceStatsPtr (Some example_idle))
    = Returns (example_excluding_scheduler, [Log LevelDebug "No metrics to export"])
  /\ ExportScheduler.prevSnapshot example_excluding_scheduler = Some example_initial
  /\ Some example_initial <> Some example_idle.
Proof.
  split; [vm_compute; reflexivity | split; [reflexivity | discriminate]].
Qed.

(** ** Breakdown maps in the delta engine *)

Lemma safeSub64_nonneg (a b : Z) : 0 <= safeSub64 a b.
Proof.
  unfold safeSub64, wrap64, uint64_modulus. destruct (a >=? b); [| lia].
  apply Z.mod_pos_bound. lia.
Qed.

(** A loop that stores one entry per key of the map it ranges over. *)
Lemma map_fold_insert_lookup {K : Type} `{Countable K} {A B : Type}
    (g : K -> A -> B) (m : gmap K A) (k : K) :
  map_fold (fun i x (r : gmap K B) => <[i := g i x]> r) ∅ m !! k = g k <$> m !! k.
Proof.
  revert k.
  apply (map_fold_weak_ind
           (fun (r : gmap K B) (m : gmap K A) => forall k, r !! k = g k <$> m !! k)).
  - intros k. rewrite !lookup_empty. reflexivity.
  - intros i x m' r Hfresh IH k. destruct (decide (i = k)) as [-> | Hne].
    + rewrite !lookup_insert_eq. reflexivity.
    + rewrite !lookup_insert_ne by exact Hne. apply IH.
Qed.

(** The loop of [calculateMapDelta64] and [calculateMapDeltaInt64]: a key
    is stored exactly when its saturated difference is positive. *)
Lemma mapDelta_lookup {K : Type} `{Countable K} (current prev : gmap K Z) (k : K) :
  map_fold (mapDelta_step prev) ∅ current !! k =
    match current !! k with
    | Some v =>
        if 0 <? safeSub64 v (go_lookup 0 prev k)
        then Some (safeSub64 v (go_lookup 0 prev k)) else None
    | None => None
    end.
Proof.
  revert k.
  apply (map_fold_weak_ind
           (fun (r : gmap K Z) (m : gmap K Z) => forall k,
              r !! k = match m !! k with
                       | Some v =>
                           if 0 <? safeSub64 v (go_lookup 0 prev k)
                           then Some (safeSub64 v (go_lookup 0 prev k)) else None
                       | None => None
                       end)).
  - intros k. rewrite !lookup_empty. reflexivity.
  - intros i x m r Hfresh IH k. unfold mapDelta_step.
    destruct (decide (i = k)) as [-> | Hne].
    + rewrite lookup_insert_eq.
      destruct (0 <? safeSub64 x (go_lookup 0 prev k)).
      * rewrite lookup_insert_eq. reflexivity.
      * rewrite IH, Hfresh. reflexivity.
    + rewrite (lookup_insert_ne m) by exact Hne.
      destruct (0 <? safeSub64 x (go_lookup 0 prev i)).
      * rewrite lookup_insert_ne by exact Hne. apply IH.
      * apply IH.
Qed.

Lemma mapDelta_count_map_delta {K : Type} `{Countable K} (current prev : gmap K Z) :
  count_map_delta current prev (map_fold (mapDelta_step prev) ∅ current).
Proof.
  assert (Hread : forall k v, current !! k = Some v ->
            go_lookup 0 (map_fold (mapDelta_step prev) ∅ current) k
              = safeSub64 v (go_lookup 0 prev k)).
  { intros k v Hk. unfold go_lookup at 1. rewrite mapDelta_lookup, Hk.
    destruct (Z.ltb_spec 0 (safeSub64 v (go_lookup 0 prev k))) as [_ | Hle];
      [reflexivity |].
    pose proof (safeSub64_nonneg v (go_lookup 0 prev k)). simpl. lia. }
  split; [exact Hread | split].
  - intros k v Hk Hprev Hv. rewrite (Hread k v Hk).
    unfold go_lookup. rewrite Hprev. simpl. apply safeSub64_zero_r. exact Hv.
  - intros k Hk. rewrite mapDelta_lookup, Hk. reflexivity.
Qed.

Lemma sourceDelta_source_map_delta (current prev : gmap string SourceStats.t) :
  source_map_delta current prev (map_fold (sourceDelta_step prev) ∅ current).
Proof.
  set (g := fun (k : string) (c : SourceStats.t) =>
              let p := go_lookup SourceStats.zero prev k in
              SourceStats.mk
                (safeSub64 (SourceStats.Total c) (SourceStats.Total p))
                (safeSub64 (SourceStats.Success c) (SourceStats.Success p))
                (safeSub64 (SourceStats.Failed c) (SourceStats.Failed p))).
  assert (Hlk : forall k,
            map_fold (sourceDelta_step prev) ∅ current !! k = g k <$> current !! k).
  { intros k. exact (map_fold_insert_lookup g current k). }
  split; [| split].
  - intros k c Hk. cbv zeta. rewrite Hlk, Hk. reflexivity.
  - intros k c Hk Hprev Ht Hs Hf. rewrite Hlk, Hk. unfold g, go_lookup.
    rewrite Hprev. simpl. rewrite !safeSub64_zero_r by assumption.
    destruct c; reflexivity.
  - intros k Hk. rewrite Hlk, Hk. reflexivity.
Qed.

Lemma operationDelta_operation_map_delta (current prev : gmap string OperationStats.t) :
  operation_map_delta current prev (map_fold (operationDelta_step prev) ∅ current).
Proof.
  set (g := fun (k : string) (c : OperationStats.t) =>
              let p := go_lookup OperationStats.zero prev k in
              OperationStats.mk
                (safeSub64 (OperationStats.Total c) (OperationStats.Total p))
                (safeSub64 (OperationStats.Success c) (OperationStats.Success p))
                (safeSub64 (OperationStats.Failed c) (OperationStats.Failed p))
                0%float).
  assert (Hlk : forall k,
            map_fold (operationDelta_step prev) ∅ current !! k = g k <$> current !! k).
  { intros k. exact (map_fold_insert_lookup g current k). }
  split; [| split].
  - intros k c Hk. cbv zeta. rewrite Hlk, Hk. reflexivity.
  - intros k c Hk Hprev Ht Hs Hf. rewrite Hlk, Hk. unfold g, go_lookup.
    rewrite Hprev. simpl. rewrite !safeSub64_zero_r by assumption. reflexivity.
  - intros k Hk. rewrite Hlk, Hk. reflexivity.
Qed.

Lemma interfaceDelta_interface_map_delta (current prev : gmap string InterfaceCheckStats.t) :
  interface_map_delta current prev (map_fold (interfaceDelta_step prev) ∅ current).
Proof.
  set (g := fun (k : string) (c : InterfaceCheckStats.t) =>
              let p := go_lookup InterfaceCheckStats.zero prev k in
              InterfaceCheckStats.mk
                (safeSub64 (InterfaceCheckStats.Total c) (InterfaceCheckStats.Total p))
                (safeSub64 (InterfaceCheckStats.Success c) (InterfaceCheckStats.Success p))
                (safeSub64 (InterfaceCheckStats.Failed c) (InterfaceCheckStats.Failed p))
                (calculateMapDeltaInt64 (InterfaceCheckStats.ByResultCode c)
                   (InterfaceCheckStats.ByResultCode p))).
  assert (Hlk : forall k,
            map_fold (interfaceDelta_step prev) ∅ current !! k = g k <$> current !! k).
  { intros k. exact (map_fold_insert_lookup g current k). }
  split.
  - intros k c Hk. cbv zeta. eexists. rewrite Hlk, Hk.
    split; [reflexivity |]. unfold g. cbn [InterfaceCheckStats.Total
      InterfaceCheckStats.Success InterfaceCheckStats.Failed
      InterfaceCheckStats.ByResultCode].
    repeat split; try reflexivity; apply mapDelta_count_map_delta.
  - intros k Hk. rewrite Hlk, Hk. reflexivity.
Qed.

(** C6, counterexample.  The key "check" of the per-operation breakdown is
    in the current snapshot and not in the stored one, yet its delta is not
    its full current value: the average latency of the entry, 2.5, is 0 in
    the delta. *)
Lemma new_operation_key_loses_latency :
  RequestStats.ByOperation (ServiceStats.Requests example_with_operation) !! "check"
    = Some example_operation
  /\ RequestStats.ByOperation (ServiceStats.Requests ServiceStats.zero) !! "check" = None
  /\ exists delta,
       calculateDeltaStats (example_scheduler_after ServiceStats.zero)
           (Some example_with_operation) = Returns (Some delta, [])
       /\ RequestStats.ByOperation (ServiceStats.Requests delta) !! "check"
            = Some (OperationStats.mk 3 2 1 0%float)
       /\ RequestStats.ByOperation (ServiceStats.Requests delta) !! "check"
            <> Some example_operation.
Proof.
  split; [reflexivity | split; [reflexivity |]].
  eexists. split; [vm_compute; reflexivity |]. split; [reflexivity |].
  intros Heq.
  pose proof (f_equal
    (fun o : option OperationStats.t =>
       match o with
       | Some x => float_gt0 (OperationStats.AvgLatencyMs x)
       | None => false
       end) Heq) as Hlat.
  vm_compute in Hlat. discriminate Hlat.
Qed.

(** C6, amended.  With a stored snapshot [prev], the delta engine returns a
    snapshot whose breakdown maps are computed per key of the current maps.
    By source, by operation and per interface, the entry of a current key
    holds the saturated differences of its counters, which are the current
    counters when the key is new; the average latency of a per-operation
    entry is zero in the delta.  By error type, by equipment status and by
    result code, a current key reads as its saturated difference, its full
    current value when the key is new.  A key of the previous map alone is
    in no delta map.  When the stored snapshot has no EIR block the delta
    carries the current EIR block itself. *)
Theorem breakdown_delta_per_current_key (s : ExportScheduler.t)
    (prev current : ServiceStats.t) :
  ExportScheduler.prevSnapshot s = Some prev ->
  eir_pointer_ok current ->
  exists delta,
    calculateDeltaStats s (Some current) = Returns (Some delta, [])
    /\ source_map_delta
         (RequestStats.BySource (ServiceStats.Requests current))
         (RequestStats.BySource (ServiceStats.Requests prev))
         (RequestStats.BySource (ServiceStats.Requests delta))
    /\ operation_map_delta
         (RequestStats.ByOperation (ServiceStats.Requests current))
         (RequestStats.ByOperation (ServiceStats.Requests prev))
         (RequestStats.ByOperation (ServiceStats.Requests delta))
    /\ count_map_delta
         (ErrorStats.ByType (ServiceStats.Errors current))
         (ErrorStats.ByType (ServiceStats.Errors prev))
         (ErrorStats.ByType (ServiceStats.Errors delta))
    /\ (forall ce, eir_of current = Some ce ->
          match eir_of prev with
          | Some pe =>
              exists de, eir_of delta = Some de
                /\ count_map_delta (EIRStats.ByEquipmentStatus ce)
                     (EIRStats.ByEquipmentStatus pe) (EIRStats.ByEquipmentStatus de)
                /\ interface_map_delta
                     (EquipmentCheckStats.ByInterface (EIRStats.EquipmentChecks ce))
                     (EquipmentCheckStats.ByInterface (EIRStats.EquipmentChecks pe))
                     (EquipmentCheckStats.ByInterface (EIRStats.EquipmentChecks de))
          | None => eir_of delta = Some ce
          end).
Proof.
  intros Hprev Hok. unfold calculateDeltaStats. rewrite Hprev.
  unfold deltaAgainst. simpl deref. change (Returns ?x ≫= ?k) with (k x).
  cbv beta zeta. unfold eir_pointer_ok in Hok. unfold eir_of.
  destruct (assert_EIRStatsPtr (ServiceStats.CustomMetrics current !! "eir"))
    as [[ce |] |].
  - destruct (assert_EIRStatsPtr (ServiceStats.CustomMetrics prev !! "eir"))
      as [[pe |] |]; simpl calculateEIRDelta;
      change (Returns ?x ≫= ?k) with (k x); cbv beta;
      (eexists; split; [reflexivity |]);
      cbn [ServiceStats.Requests ServiceStats.Errors ServiceStats.CustomMetrics
           RequestStats.BySource RequestStats.ByOperation ErrorStats.ByType];
      (split; [apply sourceDelta_source_map_delta |]);
      (split; [apply operationDelta_operation_map_delta |]);
      (split; [apply mapDelta_count_map_delta |]);
      intros ce' Hce; injection Hce as <-; rewrite lookup_insert_eq;
      cbn [assert_EIRStatsPtr]; try reflexivity.
    eexists. split; [reflexivity |].
    cbn [EIRStats.ByEquipmentStatus EIRStats.EquipmentChecks
         EquipmentCheckStats.ByInterface].
    split; [apply mapDelta_count_map_delta | apply interfaceDelta_interface_map_delta].
  - contradiction Hok. reflexivity.
  - change (Returns ?x ≫= ?k) with (k x). cbv beta.
    eexists. split; [reflexivity |].
    cbn [ServiceStats.Requests ServiceStats.Errors ServiceStats.CustomMetrics
         RequestStats.BySource RequestStats.ByOperation ErrorStats.ByType].
    split; [apply sourceDelta_source_map_delta |].
    split; [apply operationDelta_operation_map_delta |].
    split; [apply mapDelta_count_map_delta |].
    intros ce Hce. discriminate Hce.
Qed.

Lemma breakdown_delta_per_current_key_witness :
  exists delta,
    calculateDeltaStats (example_scheduler_after example_initial)
        (Some example_updated) = Returns (Some delta, [])
    /\ RequestStats.BySource (ServiceStats.Requests delta) !! "diameter"
         = Some (SourceStats.mk 30 27 3).
Proof.
  destruct (breakdown_delta_per_current_key
              (example_scheduler_after example_initial) example_initial example_updated)
    as (delta & Hret & (Hsource & _) & _).
  - reflexivity.
  - unfold eir_pointer_ok. vm_compute. discriminate.
  - exists delta. split; [exact Hret |].
    exact (Hsource "diameter" (SourceStats.mk 90 82 8) eq_refl).
Defined.

(** ** An "eir" entry that is not a pointer *)

Lemma Forall_filterRecords (P : MetricRecord.t -> Prop) (t : Transformer.t)
    (records : list MetricRecord.t) :
  Forall P records -> Forall P (filterRecords t records).
Proof.
  rewrite filterRecords_filter, !Forall_forall. intros Hall r Hr.
  apply list_elem_of_filter in Hr as [_ Hr]. exact (Hall r Hr).
Qed.

(** Without a [*EIRStats] under "eir" the transformer returns the filtered
    general records, none of which is EIR-specific. *)
Lemma Transform_without_eir (t : Transformer.t) (stats : ServiceStats.t) :
  assert_EIRStatsPtr (ServiceStats.CustomMetrics stats !! "eir") = None ->
  Transform t (Some stats) = Returns (filterRecords t (general_records t stats))
  /\ Forall (fun r => is_eir_counter (MetricRecord.CounterID r) = false)
       (filterRecords t (general_records t stats)).
Proof.
  intros Hnone. split.
  - rewrite Transform_returns by (unfold eir_pointer_ok; rewrite Hnone; discriminate).
    unfold eir_records, eir_of. rewrite Hnone, app_nil_r. reflexivity.
  - apply Forall_filterRecords, general_records_no_eir.
Qed.

(** C10, counterexample.  On the first cycle the delta engine returns the
    current snapshot itself, so the delta snapshot still holds the
    value-typed "eir" entry. *)
Lemma value_typed_eir_kept_on_first_cycle :
  exists v delta logged,
    ServiceStats.CustomMetrics example_prometheus !! "eir" = Some (AnyEIRStats v)
    /\ calculateDeltaStats example_scheduler (Some example_prometheus)
         = Returns (Some delta, logged)
    /\ ServiceStats.CustomMetrics delta !! "eir" = Some (AnyEIRStats v).
Proof.
  eexists. exists example_prometheus. eexists.
  split; [reflexivity | split; reflexivity].
Qed.

(** C10, amended.  When the "eir" entry of the current snapshot is present
    and is not a [*EIRStats], the delta engine returns without a panic.
    With a stored previous snapshot the delta has no "eir" entry; on the
    first cycle the delta is the current snapshot itself.  In both cases
    the transformer, on the delta and on the current snapshot, returns the
    filtered general records only: no EIR-specific record. *)
Theorem non_pointer_eir_is_skipped (s : ExportScheduler.t) (current : ServiceStats.t)
    (v : any) :
  ServiceStats.CustomMetrics current !! "eir" = Some v ->
  (forall p, v <> AnyEIRStatsPtr p) ->
  exists delta logged,
    calculateDeltaStats s (Some current) = Returns (Some delta, logged)
    /\ (ExportScheduler.prevSnapshot s = nil -> delta = current)
    /\ (ExportScheduler.prevSnapshot s <> nil ->
        ServiceStats.CustomMetrics delta !! "eir" = None)
    /\ forall t,
         Transform t (Some delta) = Returns (filterRecords t (general_records t delta))
         /\ Transform t (Some current) = Returns (filterRecords t (general_records t current))
         /\ Forall (fun r => is_eir_counter (MetricRecord.CounterID r) = false)
              (filterRecords t (general_records t delta)).
Proof.
  intros Hentry Hnot.
  assert (Hcur : assert_EIRStatsPtr (ServiceStats.CustomMetrics current !! "eir") = None).
  { rewrite Hentry. destruct v; try reflexivity. contradiction (Hnot p). reflexivity. }
  unfold calculateDeltaStats.
  destruct (ExportScheduler.prevSnapshot s) as [prev |] eqn:Hprev.
  - unfold deltaAgainst. simpl deref. change (Returns ?x ≫= ?k) with (k x).
    cbv beta zeta. rewrite Hcur. change (Returns ?x ≫= ?k) with (k x). cbv beta.
    eexists. eexists. split; [reflexivity |].
    split; [discriminate |]. split; [intros _; apply lookup_empty |].
    intros t.
    split; [apply Transform_without_eir; apply (f_equal assert_EIRStatsPtr (lookup_empty _)) |].
    split; [apply Transform_without_eir; exact Hcur |].
    apply Forall_filterRecords, general_records_no_eir.
  - exists current. eexists. split; [reflexivity |].
    split; [reflexivity |]. split; [intros Hne; contradiction Hne; reflexivity |].
    intros t.
    split; [apply Transform_without_eir; exact Hcur |].
    split; [apply Transform_without_eir; exact Hcur |].
    apply Forall_filterRecords, general_records_no_eir.
Qed.

Lemma non_pointer_eir_is_skipped_witness :
  exists delta logged,
    calculateDeltaStats (example_scheduler_after example_initial)
        (Some example_prometheus) = Returns (Some delta, logged)
    /\ ServiceStats.CustomMetrics delta !! "eir" = None
    /\ Transform example_transformer (Some delta)
         = Returns (filterRecords example_transformer
                      (general_records example_transformer delta)).
Proof.
  destruct (non_pointer_eir_is_skipped (example_scheduler_after example_initial)
              example_prometheus
              (AnyEIRStats
                 (EIRStats.mk EquipmentCheckStats.zero DatabaseOperationStats.zero
                    CacheStats.zero
                    (<["whitelisted" := 80]>
                       (<["blacklisted" := 15]> (<["greylisted" := 5]> ∅))))))
    as (delta & logged & Hret & _ & Hnone & Htransform).
  - reflexivity.
  - intros p. discriminate.
  - exists delta, logged. split; [exact Hret | split].
    + apply Hnone. discriminate.
    + apply (Htransform example_transformer).
Defined.

(** * Further properties of the code *)

(** ** The delta engine, field by field *)

(** The delta snapshot that [deltaAgainst] returns, field by field. *)
Lemma deltaAgainst_fields (prev current : ServiceStats.t) :
  eir_pointer_ok current ->
  exists delta,
    deltaAgainst prev (Some current) = Returns (Some delta)
    /\ ServiceStats.ServiceName delta = ServiceStats.ServiceName current
    /\ ServiceStats.ServiceVersion delta = ServiceStats.ServiceVersion current
    /\ ServiceStats.Uptime delta = ServiceStats.Uptime current
    /\ ServiceStats.Timestamp delta = ServiceStats.Timestamp current
    /\ ServiceStats.Connections delta =
         ConnectionStats.mk
           (safeSub64 (ConnectionStats.Total (ServiceStats.Connections current))
              (ConnectionStats.Total (ServiceStats.Connections prev)))
           (ConnectionStats.Active (ServiceStats.Connections current))
           (safeSub64 (ConnectionStats.Failed (ServiceStats.Connections current))
              (ConnectionStats.Failed (ServiceStats.Connections prev)))
           0
    /\ ServiceStats.Requests delta =
         RequestStats.mk
           (safeSub64 (RequestStats.Total (ServiceStats.Requests current))
              (RequestStats.Total (ServiceStats.Requests prev)))
           (safeSub64 (RequestStats.Success (ServiceStats.Requests current))
              (RequestStats.Success (ServiceStats.Requests prev)))
           (safeSub64 (RequestStats.Failed (ServiceStats.Requests current))
              (RequestStats.Failed (ServiceStats.Requests prev)))
           (RequestStats.Pending (ServiceStats.Requests current))
           0 0
           (map_fold (sourceDelta_step (RequestStats.BySource (ServiceStats.Requests prev))) ∅
              (RequestStats.BySource (ServiceStats.Requests current)))
           (map_fold (operationDelta_step (RequestStats.ByOperation (ServiceStats.Requests prev))) ∅
              (RequestStats.ByOperation (ServiceStats.Requests current)))
    /\ ServiceStats.Performance delta = ServiceStats.Performance current
    /\ ServiceStats.Errors delta =
         ErrorStats.mk
           (safeSub64 (ErrorStats.Total (ServiceStats.Errors current))
              (ErrorStats.Total (ServiceStats.Errors prev)))
           (calculateMapDelta64 (ErrorStats.ByType (ServiceStats.Errors current))
              (ErrorStats.ByType (ServiceStats.Errors prev)))
           (calculateMapDelta64 (ErrorStats.ByInterface (ServiceStats.Errors current))
              (ErrorStats.ByInterface (ServiceStats.Errors prev)))
           nil
    /\ ServiceStats.InterfaceStats delta = ∅
    /\ match eir_of current with
       | Some ce =>
           exists de,
             ServiceStats.CustomMetrics delta = <["eir" := AnyEIRStatsPtr (Some de)]> ∅
             /\ calculateEIRDelta (Some ce)
                  (match eir_of prev with Some pe => Some pe | None => nil end)
                  = Returns (Some de)
       | None => ServiceStats.CustomMetrics delta = ∅
       end.
Proof.
  intros Hok. unfold deltaAgainst. simpl deref.
  change (Returns ?x ≫= ?k) with (k x). cbv beta zeta.
  unfold eir_pointer_ok in Hok. unfold eir_of.
  assert (Hperf : forall p : PerformanceStats.t,
            PerformanceStats.mk (PerformanceStats.RequestsPerSecond p)
              (PerformanceStats.AvgLatencyMs p) (PerformanceStats.MinLatencyMs p)
              (PerformanceStats.MaxLatencyMs p) (PerformanceStats.P50LatencyMs p)
              (PerformanceStats.P95LatencyMs p) (PerformanceStats.P99LatencyMs p) = p).
  { intros p. destruct p. reflexivity. }
  destruct (assert_EIRStatsPtr (ServiceStats.CustomMetrics current !! "eir"))
    as [[ce |] |].
  - destruct (assert_EIRStatsPtr (ServiceStats.CustomMetrics prev !! "eir"))
      as [[pe |] |]; simpl calculateEIRDelta;
      change (Returns ?x ≫= ?k) with (k x); cbv beta;
      (eexists; split; [reflexivity |]);
      cbn [ServiceStats.ServiceName ServiceStats.ServiceVersion ServiceStats.Uptime
           ServiceStats.Timestamp ServiceStats.Connections ServiceStats.Requests
           ServiceStats.Performance ServiceStats.Errors ServiceStats.InterfaceStats
           ServiceStats.CustomMetrics];
      rewrite Hperf; repeat (split; [reflexivity |]);
      eexists; split; reflexivity.
  - contradiction Hok. reflexivity.
  - change (Returns ?x ≫= ?k) with (k x). cbv beta.
    eexists. split; [reflexivity |].
    cbn [ServiceStats.ServiceName ServiceStats.ServiceVersion ServiceStats.Uptime
         ServiceStats.Timestamp ServiceStats.Connections ServiceStats.Requests
         ServiceStats.Performance ServiceStats.Errors ServiceStats.InterfaceStats
         ServiceStats.CustomMetrics].
    rewrite Hperf. repeat (split; [reflexivity |]). reflexivity.
Qed.

Lemma calculateDeltaStats_stored (s : ExportScheduler.t) (prev current delta : ServiceStats.t) :
  ExportScheduler.prevSnapshot s = Some prev ->
  deltaAgainst prev (Some current) = Returns (Some delta) ->
  calculateDeltaStats s (Some current) = Returns (Some delta, []).
Proof.
  intros Hprev Hdelta. unfold calculateDeltaStats. rewrite Hprev, Hdelta. reflexivity.
Qed.

Lemma eir_of_singleton (stats : ServiceStats.t) (de : EIRStats.t) :
  ServiceStats.CustomMetrics stats = <["eir" := AnyEIRStatsPtr (Some de)]> ∅ ->
  eir_of stats = Some de.
Proof. intros Hcm. unfold eir_of. rewrite Hcm, lookup_insert_eq. reflexivity. Qed.

(** X1.  With a stored snapshot, every gauge of the delta snapshot is the
    current value, whatever the stored snapshot holds: active connections,
    pending requests, the whole performance block, and the hit rate and
    size of the cache of the EIR block.  The timestamp and the service
    name are the current ones too. *)
Theorem delta_gauges_pass_through (s : ExportScheduler.t) (prev current : ServiceStats.t) :
  ExportScheduler.prevSnapshot s = Some prev ->
  eir_pointer_ok current ->
  exists delta,
    calculateDeltaStats s (Some current) = Returns (Some delta, [])
    /\ ConnectionStats.Active (ServiceStats.Connections delta)
         = ConnectionStats.Active (ServiceStats.Connections current)
    /\ RequestStats.Pending (ServiceStats.Requests delta)
         = RequestStats.Pending (ServiceStats.Requests current)
    /\ ServiceStats.Performance delta = ServiceStats.Performance current
    /\ ServiceStats.Timestamp delta = ServiceStats.Timestamp current
    /\ ServiceStats.ServiceName delta = ServiceStats.ServiceName current
    /\ forall ce, eir_of current = Some ce ->
         exists de, eir_of delta = Some de
           /\ CacheStats.HitRate (EIRStats.CacheStats de)
                = CacheStats.HitRate (EIRStats.CacheStats ce)
           /\ CacheStats.Size (EIRStats.CacheStats de)
                = CacheStats.Size (EIRStats.CacheStats ce).
Proof.
  intros Hprev Hok.
  destruct (deltaAgainst_fields prev current Hok)
    as (delta & Hret & Hname & _ & _ & Hts & Hconn & Hreq & Hperf & _ & _ & Heir).
  exists delta. split; [exact (calculateDeltaStats_stored s prev current delta Hprev Hret) |].
  rewrite Hconn, Hreq. repeat (split; [first [reflexivity | assumption] |]).
  intros ce Hce. rewrite Hce in Heir. destruct Heir as (de & Hcm & Hde).
  exists de. split; [exact (eir_of_singleton delta de Hcm) |].
  destruct (eir_of prev) as [pe |]; simpl in Hde; injection Hde as <-;
    split; reflexivity.
Qed.

Lemma delta_gauges_pass_through_witness :
  exists delta,
    calculateDeltaStats (example_scheduler_after example_initial) (Some example_updated)
      = Returns (Some delta, [])
    /\ ConnectionStats.Active (ServiceStats.Connections delta) = 8.
Proof.
  destruct (delta_gauges_pass_through (example_scheduler_after example_initial)
              example_initial example_updated)
    as (delta & Hret & Hactive & _).
  - reflexivity.
  - unfold eir_pointer_ok. vm_compute. discriminate.
  - exists delta. split; [exact Hret | exact Hactive].
Defined.

Lemma safeSub64_diag (a : Z) : safeSub64 a a = 0.
Proof.
  unfold safeSub64. destruct (Z.geb_spec a a) as [_ | Hlt]; [| lia].
  rewrite Z.sub_diag. reflexivity.
Qed.

Lemma mapDelta_diag {K : Type} `{Countable K} (m : gmap K Z) :
  map_fold (mapDelta_step m) ∅ m = ∅.
Proof.
  apply map_eq. intros k. rewrite mapDelta_lookup, lookup_empty.
  destruct (m !! k) as [v |] eqn:Hk; [| reflexivity].
  unfold go_lookup. rewrite Hk. simpl. rewrite safeSub64_diag. reflexivity.
Qed.

(** X2.  When the current snapshot is the stored one (nothing happened
    since the last cycle), every scalar counter of the delta is 0, the
    integer-valued error breakdowns of the delta are empty, and every
    per-source entry of the delta is the zero entry. *)
Theorem delta_of_unchanged_snapshot (s : ExportScheduler.t) (current : ServiceStats.t) :
  ExportScheduler.prevSnapshot s = Some current ->
  eir_pointer_ok current ->
  exists delta,
    calculateDeltaStats s (Some current) = Returns (Some delta, [])
    /\ RequestStats.Total (ServiceStats.Requests delta) = 0
    /\ RequestStats.Success (ServiceStats.Requests delta) = 0
    /\ RequestStats.Failed (ServiceStats.Requests delta) = 0
    /\ ConnectionStats.Total (ServiceStats.Connections delta) = 0
    /\ ConnectionStats.Failed (ServiceStats.Connections delta) = 0
    /\ ErrorStats.Total (ServiceStats.Errors delta) = 0
    /\ ErrorStats.ByType (ServiceStats.Errors delta) = ∅
    /\ ErrorStats.ByInterface (ServiceStats.Errors delta) = ∅
    /\ forall k,
         RequestStats.BySource (ServiceStats.Requests delta) !! k =
           (fun _ => SourceStats.zero)
             <$> RequestStats.BySource (ServiceStats.Requests current) !! k.
Proof.
  intros Hprev Hok.
  destruct (deltaAgainst_fields current current Hok)
    as (delta & Hret & _ & _ & _ & _ & Hconn & Hreq & _ & Herr & _).
  exists delta. split; [exact (calculateDeltaStats_stored s current current delta Hprev Hret) |].
  rewrite Hconn, Hreq, Herr.
  cbn [RequestStats.Total RequestStats.Success RequestStats.Failed RequestStats.BySource
       ConnectionStats.Total ConnectionStats.Failed
       ErrorStats.Total ErrorStats.ByType ErrorStats.ByInterface].
  rewrite !safeSub64_diag. unfold calculateMapDelta64. rewrite !mapDelta_diag.
  repeat (split; [reflexivity |]).
  intros k.
  destruct (sourceDelta_source_map_delta
              (RequestStats.BySource (ServiceStats.Requests current))
              (RequestStats.BySource (ServiceStats.Requests current)))
    as (Hkey & _ & Hnone).
  destruct (RequestStats.BySource (ServiceStats.Requests current) !! k) as [c |] eqn:Hk.
  - rewrite (Hkey k c Hk). unfold go_lookup. rewrite Hk. simpl.
    rewrite !safeSub64_diag. reflexivity.
  - rewrite (Hnone k Hk). reflexivity.
Qed.

Lemma delta_of_unchanged_snapshot_witness :
  exists delta,
    calculateDeltaStats (example_scheduler_after example_initial) (Some example_initial)
      = Returns (Some delta, [])
    /\ RequestStats.Total (ServiceStats.Requests delta) = 0
    /\ RequestStats.BySource (ServiceStats.Requests delta) !! "http"
         = Some SourceStats.zero.
Proof.
  destruct (delta_of_unchanged_snapshot (example_scheduler_after example_initial)
              example_initial)
    as (delta & Hret & Htotal & _ & _ & _ & _ & _ & _ & _ & Hsource).
  - reflexivity.
  - unfold eir_pointer_ok. vm_compute. discriminate.
  - exists delta. split; [exact Hret | split; [exact Htotal |]].
    rewrite (Hsource "http"). reflexivity.
Defined.

(** ** Integer-valued breakdowns *)

Lemma mapDelta_entry_iff {K : Type} `{Countable K} (current prev : gmap K Z) (k : K) (d : Z) :
  map_Forall (fun _ v => is_uint64 v) current ->
  map_Forall (fun _ v => is_uint64 v) prev ->
  map_fold (mapDelta_step prev) ∅ current !! k = Some d <->
    exists v, current !! k = Some v
      /\ go_lookup 0 prev k < v
      /\ d = v - go_lookup 0 prev k.
Proof.
  intros Hcur Hprev. rewrite mapDelta_lookup.
  assert (Hp : is_uint64 (go_lookup 0 prev k)).
  { unfold go_lookup. destruct (prev !! k) as [p |] eqn:Hk; simpl.
    - exact (Hprev k p Hk).
    - unfold is_uint64, uint64_modulus. lia. }
  destruct (current !! k) as [v |] eqn:Hk.
  - pose proof (Hcur k v Hk) as Hv.
    destruct (Z.lt_ge_cases (go_lookup 0 prev k) v) as [Hlt | Hge].
    + rewrite safeSub64_ge by (assumption || lia).
      replace (0 <? v - go_lookup 0 prev k) with true by (symmetry; apply Z.ltb_lt; lia).
      split.
      * intros [= <-]. exists v. repeat split; [exact Hlt].
      * intros (v' & [= <-] & _ & ->). reflexivity.
    + assert (Hzero : safeSub64 v (go_lookup 0 prev k) = 0).
      { destruct (Z.eq_dec v (go_lookup 0 prev k)) as [-> | Hne];
          [apply safeSub64_diag | apply safeSub64_lt; lia]. }
      rewrite Hzero. simpl. split; [discriminate |].
      intros (v' & [= <-] & Hlt & _). lia.
  - split; [discriminate | intros (v & Hv & _); discriminate].
Qed.

(** X3.  For maps that hold uint64 values, [calculateMapDelta64] and
    [calculateMapDeltaInt64] store a key exactly when it is in the current
    map with a value greater than the previous one (0 when the previous
    map lacks the key), and store the exact difference: no entry is zero,
    no key comes from the previous map alone, and a counter that stood
    still or was reset leaves no entry. *)
Theorem map_delta_stores_exactly_the_increases :
  (forall (current prev : gmap string Z) (k : string) (d : Z),
     map_Forall (fun _ v => is_uint64 v) current ->
     map_Forall (fun _ v => is_uint64 v) prev ->
     (calculateMapDelta64 current prev !! k = Some d <->
        exists v, current !! k = Some v
          /\ go_lookup 0 prev k < v /\ d = v - go_lookup 0 prev k))
  /\ (forall (current prev : gmap Z Z) (k d : Z),
        map_Forall (fun _ v => is_uint64 v) current ->
        map_Forall (fun _ v => is_uint64 v) prev ->
        (calculateMapDeltaInt64 current prev !! k = Some d <->
           exists v, current !! k = Some v
             /\ go_lookup 0 prev k < v /\ d = v - go_lookup 0 prev k)).
Proof.
  split; intros current prev k d Hcur Hprev;
    [unfold calculateMapDelta64 | unfold calculateMapDeltaInt64];
    apply mapDelta_entry_iff; assumption.
Qed.

Lemma map_delta_stores_exactly_the_increases_witness :
  calculateMapDelta64 (<["a" := 100]> (<["b" := 50]> ∅)) (<["a" := 70]> (<["b" := 50]> ∅))
    !! "a" = Some 30.
Proof.
  destruct map_delta_stores_exactly_the_increases as [Hstring _].
  apply Hstring.
  - apply map_Forall_insert_2; [unfold is_uint64, uint64_modulus; lia |].
    apply map_Forall_insert_2; [unfold is_uint64, uint64_modulus; lia |].
    apply map_Forall_empty.
  - apply map_Forall_insert_2; [unfold is_uint64, uint64_modulus; lia |].
    apply map_Forall_insert_2; [unfold is_uint64, uint64_modulus; lia |].
    apply map_Forall_empty.
  - exists 100. repeat split; vm_compute; reflexivity.
Defined.

(** ** Deltas over several cycles *)

(** X4.  While a counter does not decrease, the deltas of two consecutive
    cycles add up to the delta over both; in every case, reset included,
    the two deltas together are at least the delta over both, so nothing
    that the long interval would report is lost by cutting it in two. *)
Theorem safeSub64_consecutive_deltas (a b c : Z) :
  is_uint64 a -> is_uint64 b -> is_uint64 c ->
  (a <= b <= c -> safeSub64 b a + safeSub64 c b = safeSub64 c a)
  /\ safeSub64 c a <= safeSub64 b a + safeSub64 c b.
Proof.
  intros Ha Hb Hc. split.
  - intros [Hab Hbc]. rewrite !safeSub64_ge by (assumption || lia). lia.
  - destruct (Z.le_gt_cases a b) as [Hab | Hab];
      destruct (Z.le_gt_cases b c) as [Hbc | Hbc];
      destruct (Z.le_gt_cases a c) as [Hac | Hac];
      rewrite ?(safeSub64_ge b a), ?(safeSub64_ge c b), ?(safeSub64_ge c a)
        by (assumption || lia);
      rewrite ?(safeSub64_lt b a), ?(safeSub64_lt c b), ?(safeSub64_lt c a)
        by lia;
      lia.
Qed.

Lemma safeSub64_consecutive_deltas_witness :
  safeSub64 150 100 + safeSub64 175 150 = safeSub64 175 100.
Proof.
  destruct (safeSub64_consecutive_deltas 100 150 175) as [Hadd _].
  - unfold is_uint64, uint64_modulus. lia.
  - unfold is_uint64, uint64_modulus. lia.
  - unfold is_uint64, uint64_modulus. lia.
  - apply Hadd. lia.
Defined.

(** ** Every record of the transformer *)

Lemma Forall_emit (P : MetricRecord.t -> Prop) (b : bool) (r : MetricRecord.t) :
  P r -> Forall P (emit b r).
Proof. intros Hr. destruct b; simpl; repeat constructor. exact Hr. Qed.

Lemma resultCode_loop_Forall (P : MetricRecord.t -> Prop) (t : Transformer.t) (ts : Z)
    (ifName : string) (rc : Z) (entries : list (Z * Z)) (records : list MetricRecord.t) :
  (forall value causeCode, P (createRecord t rc value causeCode ts)) ->
  Forall P records ->
  Forall P (foldl (resultCode_step t ts ifName rc) records entries).
Proof.
  intros Hrc. revert records.
  induction entries as [| [code count] entries IH]; intros records Hall; simpl;
    [exact Hall |].
  apply IH. destruct (0 <? count); [| exact Hall].
  unfold append. apply Forall_app. split; [exact Hall |].
  repeat constructor. apply Hrc.
Qed.

Lemma interface_counters_known (ifName : string) (tc sc fc rc : Z) :
  interface_counters ifName = Some (tc, sc, fc, rc) ->
  is_interface_counter tc = true /\ is_interface_counter sc = true
  /\ is_interface_counter fc = true /\ is_interface_counter rc = true.
Proof.
  unfold interface_counters.
  destruct (String.eqb ifName "diameter");
    [| destruct (String.eqb ifName "http")];
    intros Hsw; try discriminate Hsw;
    injection Hsw as <- <- <- <-; repeat split.
Qed.

Lemma interface_loop_Forall (P : MetricRecord.t -> Prop) (t : Transformer.t) (ts : Z)
    (entries : list (string * InterfaceCheckStats.t)) (records : list MetricRecord.t) :
  (forall id value causeCode,
     is_interface_counter id = true -> P (createRecord t id value causeCode ts)) ->
  Forall P records ->
  Forall P (foldl (interface_step t ts) records entries).
Proof.
  intros Hif. revert records.
  induction entries as [| [ifName ifStats] entries IH]; intros records Hall; simpl;
    [exact Hall |].
  apply IH. unfold interface_step.
  destruct (interface_counters ifName) as [[[[tc sc] fc] rc] |] eqn:Hsw;
    [| exact Hall].
  apply interface_counters_known in Hsw as (Htc & Hsc & Hfc & Hrc).
  apply resultCode_loop_Forall; [intros; apply Hif; exact Hrc |].
  rewrite !append_if. repeat (apply Forall_app; split); try exact Hall;
    apply Forall_emit, Hif; assumption.
Qed.

(** A property of every record built for an identifier of the counter
    table holds of every record of the unfiltered batch. *)
Lemma unfiltered_records_Forall (P : MetricRecord.t -> Prop) (t : Transformer.t)
    (stats : ServiceStats.t) :
  (forall id value causeCode,
     id_in_list known_counter_ids id = true ->
     P (createRecord t id value causeCode (ServiceStats.Timestamp stats))) ->
  Forall P (general_records t stats ++ eir_records t stats).
Proof.
  intros HP.
  assert (Hif : forall id value causeCode,
            is_interface_counter id = true ->
            P (createRecord t id value causeCode (ServiceStats.Timestamp stats))).
  { intros id value causeCode Hid. apply HP.
    unfold is_interface_counter in Hid. cbn [id_in_list] in Hid.
    repeat match type of Hid with
    | (if ?c =? id then _ else _) = true =>
        destruct (Z.eqb_spec c id) as [<- | _]; [reflexivity |]
    end.
    discriminate Hid. }
  apply Forall_app. split.
  - rewrite general_records_eq. cbv zeta.
    repeat (apply Forall_app; split);
      try (apply Forall_emit; apply HP; reflexivity).
    repeat constructor; apply HP; reflexivity.
  - unfold eir_records. destruct (eir_of stats) as [e |]; [| constructor].
    rewrite transformEIRStats_eq. cbv zeta.
    repeat (apply Forall_app; split);
      try (apply Forall_emit; apply HP; reflexivity);
      try (unfold status_records; destruct (status_count _ _);
           repeat constructor; apply HP; reflexivity).
    apply interface_loop_Forall; [exact Hif | constructor].
Qed.

(** X5.  Every record the transformer returns carries the host name and
    the system name of the transformer and the timestamp of the snapshot,
    the per-interface and per-result-code records included. *)
Theorem transform_stamps_every_record (t : Transformer.t) (stats : ServiceStats.t) :
  eir_pointer_ok stats ->
  exists records,
    Transform t (Some stats) = Returns records
    /\ Forall (stamped t (ServiceStats.Timestamp stats)) records.
Proof.
  intros Hok. eexists. split; [apply Transform_returns; exact Hok |].
  apply Forall_filterRecords, unfiltered_records_Forall.
  intros id value causeCode _. repeat split.
Qed.

Lemma transform_stamps_every_record_witness :
  exists records,
    Transform example_transformer (Some example_updated) = Returns records
    /\ Forall (stamped example_transformer 2000) records.
Proof.
  apply (transform_stamps_every_record example_transformer example_updated).
  unfold eir_pointer_ok. vm_compute. discriminate.
Defined.

(** ** Counter names *)

Lemma GetCounterName_loop_missing (metadata : list CounterMetadata.t) (id : Z) :
  id ∉ map CounterMetadata.ID metadata ->
  GetCounterName_loop metadata id = "unknown".
Proof.
  induction metadata as [| m rest IH]; simpl; [reflexivity |].
  intros Hnot. apply not_elem_of_cons in Hnot as [Hne Hrest].
  destruct (Z.eqb_spec (CounterMetadata.ID m) id) as [Heq | _];
    [congruence | exact (IH Hrest)].
Qed.

Lemma GetCounterName_loop_found (metadata : list CounterMetadata.t) (m : CounterMetadata.t) :
  NoDup (map CounterMetadata.ID metadata) ->
  m ∈ metadata ->
  GetCounterName_loop metadata (CounterMetadata.ID m) = CounterMetadata.Name m.
Proof.
  induction metadata as [| m' rest IH]; simpl; intros Hnodup Hin;
    [inversion Hin |].
  apply NoDup_cons in Hnodup as [Hfresh Hnodup].
  apply elem_of_cons in Hin as [-> | Hin].
  - rewrite Z.eqb_refl. reflexivity.
  - destruct (Z.eqb_spec (CounterMetadata.ID m') (CounterMetadata.ID m)) as [Heq | _];
      [| exact (IH Hnodup Hin)].
    exfalso. apply Hfresh. rewrite Heq. apply list_elem_of_fmap.
    exists m. split; [reflexivity | exact Hin].
Qed.

Lemma known_counter_ids_NoDup : NoDup known_counter_ids.
Proof. apply (bool_decide_unpack _). vm_compute. reflexivity. Qed.

(** X6.  [GetCounterName] returns the name the counter table gives to an
    identifier it lists (the table lists no identifier twice and names none
    "unknown"), and "unknown" for every identifier the table does not
    list. *)
Theorem GetCounterName_follows_the_table :
  (forall m, m ∈ GetCounterMetadata ->
     GetCounterName (CounterMetadata.ID m) = CounterMetadata.Name m
     /\ CounterMetadata.Name m <> "unknown")
  /\ (forall id, id ∉ known_counter_ids -> GetCounterName id = "unknown").
Proof.
  split.
  - intros m Hin. split.
    + apply GetCounterName_loop_found; [exact known_counter_ids_NoDup | exact Hin].
    + revert m Hin. apply Forall_forall.
      unfold GetCounterMetadata. repeat constructor; discriminate.
  - intros id Hnot. apply GetCounterName_loop_missing. exact Hnot.
Qed.

Lemma GetCounterName_follows_the_table_witness :
  GetCounterName 9999 = "unknown".
Proof.
  destruct GetCounterName_follows_the_table as [_ Hmissing].
  apply Hmissing. apply (bool_decide_unpack _). vm_compute. reflexivity.
Defined.

(** X7.  Every record the transformer returns has an identifier of the
    counter table, so [GetCounterName] never answers "unknown" for it. *)
Theorem transform_uses_known_counters (t : Transformer.t) (stats : ServiceStats.t) :
  eir_pointer_ok stats ->
  exists records,
    Transform t (Some stats) = Returns records
    /\ Forall (fun r => MetricRecord.CounterID r ∈ known_counter_ids
                        /\ GetCounterName (MetricRecord.CounterID r) <> "unknown")
         records.
Proof.
  intros Hok. eexists. split; [apply Transform_returns; exact Hok |].
  apply Forall_filterRecords, unfiltered_records_Forall.
  intros id value causeCode Hid. cbn [createRecord MetricRecord.CounterID].
  apply id_in_list_elem_of in Hid. split; [exact Hid |].
  unfold known_counter_ids in Hid. apply list_elem_of_fmap in Hid as (m & -> & Hm).
  unfold GetCounterName.
  rewrite (GetCounterName_loop_found GetCounterMetadata m known_counter_ids_NoDup Hm).
  revert m Hm. apply Forall_forall.
  unfold GetCounterMetadata. repeat constructor; discriminate.
Qed.

Lemma transform_uses_known_counters_witness :
  exists records,
    Transform example_transformer (Some example_updated) = Returns records
    /\ Forall (fun r => MetricRecord.CounterID r ∈ known_counter_ids
                        /\ GetCounterName (MetricRecord.CounterID r) <> "unknown")
         records.
Proof.
  apply (transform_uses_known_counters example_transformer example_updated).
  unfold eir_pointer_ok. vm_compute. discriminate.
Defined.

(** ** Per-interface and per-result-code records *)












(** ** The batch without a filter, and the cycles of a run *)

Lemma filterRecords_unfiltered (t : Transformer.t) (records : list MetricRecord.t) :
  TransformerConfig.IncludeCounters (Transformer.config t) = [] ->
  TransformerConfig.ExcludeCounters (Transformer.config t) = [] ->
  filterRecords t records = records.
Proof.
  intros Hin Hex. unfold filterRecords. rewrite Hin, Hex. reflexivity.
Qed.

(** X9.  With neither an include nor an exclude list, the batch the
    transformer returns is never empty: it begins with the records of
    total, successful and failed requests, carrying the three counts
    whatever they are. *)
Theorem unfiltered_batch_starts_with_request_records (t : Transformer.t)
    (stats : ServiceStats.t) :
  TransformerConfig.IncludeCounters (Transformer.config t) = [] ->
  TransformerConfig.ExcludeCounters (Transformer.config t) = [] ->
  eir_pointer_ok stats ->
  exists rest,
    Transform t (Some stats) =
      Returns
        (createRecord t CounterTotalRequests
           (float64_of_uint64 (RequestStats.Total (ServiceStats.Requests stats)))
           EmptyString (ServiceStats.Timestamp stats)
         :: createRecord t CounterSuccessfulRequests
              (float64_of_uint64 (RequestStats.Success (ServiceStats.Requests stats)))
              EmptyString (ServiceStats.Timestamp stats)
         :: createRecord t CounterFailedRequests
              (float64_of_uint64 (RequestStats.Failed (ServiceStats.Requests stats)))
              EmptyString (ServiceStats.Timestamp stats)
         :: rest).
Proof.
  intros Hin Hex Hok. rewrite Transform_returns by exact Hok.
  rewrite filterRecords_unfiltered by assumption.
  rewrite general_records_eq. cbv zeta. eexists. reflexivity.
Qed.

Lemma unfiltered_batch_starts_with_request_records_witness :
  exists rest,
    Transform example_transformer (Some example_no_success) =
      Returns
        (createRecord example_transformer CounterTotalRequests 100%float EmptyString 1000
         :: createRecord example_transformer CounterSuccessfulRequests 0%float EmptyString 1000
         :: createRecord example_transformer CounterFailedRequests 5%float EmptyString 1000
         :: rest).
Proof.
  apply (unfiltered_batch_starts_with_request_records example_transformer
           example_no_success).
  - reflexivity.
  - reflexivity.
  - unfold eir_pointer_ok. vm_compute. discriminate.
Defined.

Lemma fanOut_flat_map (ctx : Context.t) (exporters : list Exporter.t)
    (records : list MetricRecord.t) :
  Forall (sink_returns ctx) exporters ->
  fanOut ctx exporters records = Returns (flat_map (sink_trace ctx records) exporters).
Proof.
  induction exporters as [| exporter rest IH]; intros Hall; [reflexivity |].
  apply Forall_cons in Hall as [Hret Hrest]. cbn [fanOut flat_map].
  rewrite (IH Hrest). unfold exportToExporter, sink_trace.
  destruct (Hret records) as [[err io] Hexport]. rewrite Hexport.
  destruct err; reflexivity.
Qed.

(** X10.  When the [Export] of every registered sink returns, the fan-out
    returns, and its effects are the I/O of each sink in turn followed by
    the line logged for that sink: every sink is called with the batch,
    whatever the sinks before it answered, an error included. *)
Theorem fanOut_calls_every_sink (ctx : Context.t) (exporters : list Exporter.t)
    (records : list MetricRecord.t) :
  Forall (sink_returns ctx) exporters ->
  fanOut ctx exporters records = Returns (flat_map (sink_trace ctx records) exporters)
  /\ forall exporter err io,
       exporter ∈ exporters ->
       Exporter.Export exporter ctx records = Returns (err, io) ->
       exists before after,
         flat_map (sink_trace ctx records) exporters = before ++ io ++ after.
Proof.
  intros Hall. split; [exact (fanOut_flat_map ctx exporters records Hall) |].
  intros exporter err io Hin Hexport.
  apply list_elem_of_split in Hin as (l1 & l2 & ->).
  exists (flat_map (sink_trace ctx records) l1).
  exists ([match err with
           | Some _ => Log LevelError "Failed to export metrics"
           | None => Log LevelDebug "Successfully exported metrics"
           end] ++ flat_map (sink_trace ctx records) l2).
  rewrite flat_map_app. cbn [flat_map]. unfold sink_trace at 2. rewrite Hexport.
  rewrite <- app_assoc. reflexivity.
Qed.

Lemma HTTPExporter_returns (e : HTTPExporter.t) (ctx : Context.t) :
  sink_returns ctx (HTTPExporter.as_Exporter e).
Proof.
  intros records. cbn [HTTPExporter.as_Exporter Exporter.Export].
  unfold HTTPExporter.Export.
  destruct (Z.of_nat (length records) =? 0); [eexists; reflexivity |].
  destruct (negb (forallb marshal_ok records)); eexists; reflexivity.
Qed.

Lemma FileExporter_returns (e : FileExporter.t) (ctx : Context.t) :
  sink_returns ctx (FileExporter.as_Exporter e).
Proof.
  intros records. cbn [FileExporter.as_Exporter Exporter.Export].
  unfold FileExporter.Export.
  destruct (Z.of_nat (length records) =? 0); [eexists; reflexivity |].
  destruct (Context.done_before ctx 1); eexists; reflexivity.
Qed.

Lemma fanOut_calls_every_sink_witness :
  let record := createRecord example_transformer CounterTotalRequests 100%float
                  EmptyString 1000 in
  exists io,
    fanOut Context.background
      [HTTPExporter.as_Exporter example_failing_http;
       FileExporter.as_Exporter example_file_exporter] [record] = Returns io
    /\ FileWrite "/var/log/metrics.jsonl" record ∈ io.
Proof.
  intros record.
  destruct (fanOut_calls_every_sink Context.background
              [HTTPExporter.as_Exporter example_failing_http;
               FileExporter.as_Exporter example_file_exporter] [record])
    as [Hret _].
  - repeat constructor; [apply HTTPExporter_returns | apply FileExporter_returns].
  - eexists. split; [exact Hret |].
    apply list_elem_of_In. vm_compute. tauto.
Defined.

Lemma calculateDeltaStats_eir_ok (s : ExportScheduler.t) (current : ServiceStats.t) :
  eir_pointer_ok current ->
  exists delta logged,
    calculateDeltaStats s (Some current) = Returns (Some delta, logged)
    /\ eir_pointer_ok delta.
Proof.
  intros Hok. unfold calculateDeltaStats.
  destruct (ExportScheduler.prevSnapshot s) as [prev |].
  - destruct (deltaAgainst_fields prev current Hok)
      as (delta & Hret & _ & _ & _ & _ & _ & _ & _ & _ & _ & Heir).
    exists delta, []. rewrite Hret. split; [reflexivity |].
    unfold eir_pointer_ok. destruct (eir_of current) as [ce |].
    + destruct Heir as (de & -> & _). rewrite lookup_insert_eq. discriminate.
    + rewrite Heir, lookup_empty. discriminate.
  - eexists. eexists. split; [reflexivity | exact Hok].
Qed.

(** A cycle of a scheduler whose transformer has no filter, on a valid
    snapshot: the batch is not empty, so the slot is replaced. *)
Lemma exportCycle_unfiltered (s : ExportScheduler.t) (ctx : Context.t)
    (current : ServiceStats.t) :
  TransformerConfig.IncludeCounters (Transformer.config (ExportScheduler.transformer s)) = [] ->
  TransformerConfig.ExcludeCounters (Transformer.config (ExportScheduler.transformer s)) = [] ->
  eir_pointer_ok current ->
  Forall (sink_returns ctx) (ExportScheduler.exporters s) ->
  exists io,
    exportCycle s ctx (CollectedServiceStatsPtr (Some current))
      = Returns (updatePreviousSnapshot s (Some current), io).
Proof.
  intros Hin Hex Hok Hsinks. unfold exportCycle.
  destruct (calculateDeltaStats_eir_ok s current Hok) as (delta & logged & -> & Hdok).
  simpl. rewrite Transform_returns by exact Hdok.
  rewrite filterRecords_unfiltered by assumption.
  rewrite general_records_eq. cbv zeta. simpl.
  match goal with
  | |- context [fanOut ctx ?es ?rs] => rewrite (fanOut_flat_map ctx es rs Hsinks)
  end.
  simpl. eexists. reflexivity.
Qed.

(** X11.  A scheduler whose transformer has no filter and whose sinks all
    return serves any non-empty sequence of ticks with valid snapshots to
    the end, and afterwards stores the snapshot of the last tick; its
    transformer, its sinks and its running flag are as before. *)
Theorem run_stores_the_last_snapshot (s : ExportScheduler.t) (ctx : Context.t)
    (snapshots : list ServiceStats.t) (last : ServiceStats.t) :
  TransformerConfig.IncludeCounters (Transformer.config (ExportScheduler.transformer s)) = [] ->
  TransformerConfig.ExcludeCounters (Transformer.config (ExportScheduler.transformer s)) = [] ->
  Forall eir_pointer_ok (snapshots ++ [last]) ->
  Forall (sink_returns ctx) (ExportScheduler.exporters s) ->
  exists io,
    run_loop s ctx (ticks_of (snapshots ++ [last]))
      = Returns (updatePreviousSnapshot s (Some last), io).
Proof.
  intros Hin Hex Hok Hsinks. revert s Hin Hex Hsinks.
  induction snapshots as [| snapshot snapshots IH]; intros s Hin Hex Hsinks.
  - apply Forall_cons in Hok as [Hlast _].
    destruct (exportCycle_unfiltered s ctx last Hin Hex Hlast Hsinks) as [io Hcycle].
    exists (io ++ []). cbn [app ticks_of map run_loop]. rewrite Hcycle. reflexivity.
  - apply Forall_cons in Hok as [Hfirst Hrest].
    destruct (exportCycle_unfiltered s ctx snapshot Hin Hex Hfirst Hsinks) as [io Hcycle].
    destruct (IH Hrest (updatePreviousSnapshot s (Some snapshot)) Hin Hex Hsinks)
      as [ios Hloop].
    exists (io ++ ios). change (ticks_of ((snapshot :: snapshots) ++ [last]))
      with (Tick (CollectedServiceStatsPtr (Some snapshot))
            :: ticks_of (snapshots ++ [last])).
    cbn [run_loop]. rewrite Hcycle. simpl. rewrite Hloop. reflexivity.
Qed.

Lemma run_stores_the_last_snapshot_witness :
  exists io,
    run_loop example_scheduler Context.background
        (ticks_of [example_initial; example_updated])
      = Returns (updatePreviousSnapshot example_scheduler (Some example_updated), io).
Proof.
  apply (run_stores_the_last_snapshot example_scheduler Context.background
           [example_initial] example_updated).
  - reflexivity.
  - reflexivity.
  - repeat constructor; unfold eir_pointer_ok; vm_compute; discriminate.
  - constructor.
Defined.

(** X12.  The loop of [run] serves the ticks that come before the first
    stop or cancellation signal and returns at that signal: whatever
    follows it, ticks included, has no effect. *)
Theorem run_loop_ends_at_the_first_stop (s : ExportScheduler.t) (ctx : Context.t)
    (ticks : list collected) (rest : list signal) :
  run_loop s ctx (map Tick ticks ++ StopChan :: rest)
    = run_loop s ctx (map Tick ticks ++ [StopChan])
  /\ run_loop s ctx (map Tick ticks ++ CtxDone :: rest)
       = run_loop s ctx (map Tick ticks ++ [CtxDone]).
Proof.
  revert s. induction ticks as [| tick ticks IH]; intros s; [split; reflexivity |].
  cbn [map app run_loop].
  destruct (exportCycle s ctx tick) as [[s' io] | |]; [| split; reflexivity ..].
  simpl. destruct (IH s') as [-> ->]. split; reflexivity.
Qed.

(** ** Starting and stopping *)



(** X14.  A scheduler that was started, stopped and started again panics
    when it is stopped again: its stop channel is already closed, and
    [Stop] closes it once more before it reaches the sinks. *)
Theorem stop_after_restart_panics (l stopped : Lifecycle.t) (io : list event) :
  ExportScheduler.running (Lifecycle.scheduler l) = true ->
  Stop l = Returns (stopped, io) ->
  (Start stopped).2 = true /\ Stop (Start stopped).1 = Panics.
Proof.
  unfold Stop, Start. intros Hrun. rewrite Hrun. cbn [negb].
  destruct (Lifecycle.stopChanClosed l); [discriminate |].
  intros [= <- _]. split; reflexivity.
Qed.

Lemma stop_after_restart_panics_witness :
  exists stopped io,
    Stop (Start example_lifecycle).1 = Returns (stopped, io)
    /\ Stop (Start stopped).1 = Panics.
Proof.
  eexists. eexists. split; [reflexivity |].
  eapply (stop_after_restart_panics (Start example_lifecycle).1).
  - reflexivity.
  - reflexivity.
Defined.

(** ** [CompareStats] and [ValidateStats] *)

Lemma CompareStats_fields (before after : ServiceStats.t) :
  exists diff,
    CompareStats (Some before) (Some after) = Returns (Some diff)
    /\ RequestStats.Total (ServiceStats.Requests diff)
         = wrap64 (RequestStats.Total (ServiceStats.Requests after)
                   - RequestStats.Total (ServiceStats.Requests before))
    /\ RequestStats.Success (ServiceStats.Requests diff)
         = wrap64 (RequestStats.Success (ServiceStats.Requests after)
                   - RequestStats.Success (ServiceStats.Requests before))
    /\ RequestStats.Failed (ServiceStats.Requests diff)
         = wrap64 (RequestStats.Failed (ServiceStats.Requests after)
                   - RequestStats.Failed (ServiceStats.Requests before))
    /\ ConnectionStats.Total (ServiceStats.Connections diff)
         = wrap64 (ConnectionStats.Total (ServiceStats.Connections after)
                   - ConnectionStats.Total (ServiceStats.Connections before))
    /\ ConnectionStats.Failed (ServiceStats.Connections diff)
         = wrap64 (ConnectionStats.Failed (ServiceStats.Connections after)
                   - ConnectionStats.Failed (ServiceStats.Connections before))
    /\ ErrorStats.Total (ServiceStats.Errors diff)
         = wrap64 (ErrorStats.Total (ServiceStats.Errors after)
                   - ErrorStats.Total (ServiceStats.Errors before))
    /\ ConnectionStats.Active (ServiceStats.Connections diff)
         = ConnectionStats.Active (ServiceStats.Connections after)
    /\ RequestStats.Pending (ServiceStats.Requests diff)
         = RequestStats.Pending (ServiceStats.Requests after)
    /\ ServiceStats.Performance diff = ServiceStats.Performance after.
Proof. eexists. repeat split. Qed.



Lemma wrap64_underflow (a b : Z) :
  is_uint64 a -> is_uint64 b -> a < b -> wrap64 (a - b) = a - b + uint64_modulus.
Proof.
  unfold is_uint64, wrap64. intros Ha Hb Hlt.
  rewrite <- (Z.mod_add (a - b) 1 uint64_modulus) by (unfold uint64_modulus; lia).
  apply Z.mod_small. lia.
Qed.

(** X16.  When the total request counter went down between the two
    snapshots (a restart), [CompareStats] does not saturate: its plain
    unsigned subtraction wraps around to [after - before + 2^64], a value
    above the later counter itself, where the delta engine reports 0. *)
Theorem CompareStats_wraps_on_a_reset (before after : ServiceStats.t) :
  is_uint64 (RequestStats.Total (ServiceStats.Requests before)) ->
  is_uint64 (RequestStats.Total (ServiceStats.Requests after)) ->
  RequestStats.Total (ServiceStats.Requests after)
    < RequestStats.Total (ServiceStats.Requests before) ->
  eir_pointer_ok after ->
  exists diff delta,
    CompareStats (Some before) (Some after) = Returns (Some diff)
    /\ deltaAgainst before (Some after) = Returns (Some delta)
    /\ RequestStats.Total (ServiceStats.Requests diff)
         = RequestStats.Total (ServiceStats.Requests after)
           - RequestStats.Total (ServiceStats.Requests before) + 2 ^ 64
    /\ RequestStats.Total (ServiceStats.Requests after)
         < RequestStats.Total (ServiceStats.Requests diff)
    /\ RequestStats.Total (ServiceStats.Requests delta) = 0.
Proof.
  intros Hb Ha Hlt Hok.
  destruct (CompareStats_fields before after) as (diff & Hdiff & Ht & _).
  destruct (deltaAgainst_fields before after Hok)
    as (delta & Hdelta & _ & _ & _ & _ & _ & Hreq & _).
  exists diff, delta. split; [exact Hdiff | split; [exact Hdelta |]].
  rewrite Ht, Hreq. cbn [RequestStats.Total].
  rewrite (wrap64_underflow _ _ Ha Hb Hlt), (safeSub64_lt _ _ Hlt).
  unfold is_uint64, uint64_modulus in *. repeat split; lia.
Qed.

Lemma CompareStats_wraps_on_a_reset_witness :
  exists diff,
    CompareStats (Some example_updated) (Some example_initial) = Returns (Some diff)
    /\ RequestStats.Total (ServiceStats.Requests diff) = 100 - 150 + 2 ^ 64.
Proof.
  destruct (CompareStats_wraps_on_a_reset example_updated example_initial)
    as (diff & delta & Hdiff & _ & Htotal & _).
  - unfold is_uint64, uint64_modulus. simpl. lia.
  - unfold is_uint64, uint64_modulus. simpl. lia.
  - simpl. lia.
  - unfold eir_pointer_ok. vm_compute. discriminate.
  - exists diff. split; [exact Hdiff | exact Htotal].
Defined.

(** X17.  For uint64 values, [ValidateStats] accepts exactly when the
    actual value is within the tolerance of the expected one, on either
    side, and its verdict does not depend on which of the two values is
    called expected. *)
Theorem ValidateStats_accepts_within_tolerance (expected actual tolerance : Z) :
  is_uint64 expected -> is_uint64 actual ->
  ((ValidateStats expected actual tolerance).1 = true
     <-> Z.abs (actual - expected) <= tolerance)
  /\ (ValidateStats expected actual tolerance).1
       = (ValidateStats actual expected tolerance).1.
Proof.
  intros He Ha.
  assert (Hverdict : forall e a, is_uint64 e -> is_uint64 a ->
            (ValidateStats e a tolerance).1 = (Z.abs (a - e) <=? tolerance)).
  { intros e a He' Ha'. unfold ValidateStats. cbv zeta.
    destruct (Z.gtb_spec a e) as [Hgt | Hle];
      rewrite wrap64_small by (unfold is_uint64 in *; lia).
    - replace (Z.abs (a - e)) with (a - e) by lia.
      destruct (a - e <=? tolerance); reflexivity.
    - replace (Z.abs (a - e)) with (e - a) by lia.
      destruct (e - a <=? tolerance); reflexivity. }
  split.
  - rewrite (Hverdict expected actual He Ha). apply Z.leb_le.
  - rewrite (Hverdict expected actual He Ha), (Hverdict actual expected Ha He).
    replace (Z.abs (expected - actual)) with (Z.abs (actual - expected)) by lia.
    reflexivity.
Qed.

Lemma ValidateStats_accepts_within_tolerance_witness :
  (ValidateStats 100 98 5).1 = true.
Proof.
  destruct (ValidateStats_accepts_within_tolerance 100 98 5) as [[_ Haccept] _].
  - unfold is_uint64, uint64_modulus. lia.
  - unfold is_uint64, uint64_modulus. lia.
  - apply Haccept. lia.
Defined.

(** ** The HTTP exporter *)

Lemma http_posts_app (io1 io2 : list event) :
  http_posts (io1 ++ io2) = (http_posts io1 + http_posts io2)%nat.
Proof. unfold http_posts. rewrite List.filter_app, length_app. reflexivity. Qed.




Lemma sendRequest_posts (e : HTTPExporter.t) (attempt : Z) (data : list MetricRecord.t) :
  (http_posts (HTTPExporter.sendRequest e attempt data).2 <= 1)%nat
  /\ sleeps (HTTPExporter.sendRequest e attempt data).2 = 0%nat.
Proof.
  unfold HTTPExporter.sendRequest.
  destruct (HTTPExporter.httpClient e attempt) as [err | err | status body];
    [| | destruct ((status <? 200) || (status >=? 300))];
    cbn; split; lia.
Qed.

Lemma attempts_bounded (e : HTTPExporter.t) (ctx : Context.t) (data : list MetricRecord.t)
    (remaining : nat) (attempt : Z) (lastErr : string) :
  (http_posts (HTTPExporter.attempts e ctx data remaining attempt lastErr).2 <= remaining)%nat.
Proof.
  revert attempt lastErr. induction remaining as [| remaining IH]; intros attempt lastErr.
  - cbn. lia.
  - cbn [HTTPExporter.attempts].
    destruct (Context.done_before ctx attempt); [cbn; lia |].
    pose proof (sendRequest_posts e attempt data) as [Hpost _].
    destruct (HTTPExporter.sendRequest e attempt data) as [[err |] io];
      cbn [snd] in Hpost.
    + specialize (IH (attempt + 1) err).
      destruct (attempt <? HTTPExporter.RetryAttempts e);
        [destruct (Context.done_in_delay ctx attempt) |];
        try (destruct (HTTPExporter.attempts e ctx data remaining (attempt + 1) err)
               as [err' io']);
        cbn [snd] in *; rewrite ?http_posts_app;
        change (http_posts [Log LevelWarn "HTTP export attempt failed"]) with 0%nat;
        try change (http_posts [Sleep (HTTPExporter.RetryDelay e)]) with 0%nat;
        lia.
    + cbn [snd]. rewrite http_posts_app.
      change (http_posts [Log LevelDebug "Exported metrics via HTTP"]) with 0%nat. lia.
Qed.

(** X18.  Whatever the endpoint answers and whenever the context is
    cancelled, [Export] of the HTTP exporter returns, after at most
    [RetryAttempts] requests (none when that number is not positive). *)
Theorem HTTP_export_retries_are_bounded (e : HTTPExporter.t) (ctx : Context.t)
    (records : list MetricRecord.t) :
  exists err io,
    HTTPExporter.Export e ctx records = Returns (err, io)
    /\ (http_posts io <= Z.to_nat (HTTPExporter.RetryAttempts e))%nat.
Proof.
  unfold HTTPExporter.Export.
  destruct (Z.of_nat (length records) =? 0);
    [exists None, []; split; [reflexivity | cbn; lia] |].
  destruct (negb (forallb marshal_ok records));
    [eexists; exists []; split; [reflexivity | cbn; lia] |].
  pose proof (attempts_bounded e ctx records (Z.to_nat (HTTPExporter.RetryAttempts e))
                1 "<nil>") as Hposts.
  destruct (HTTPExporter.attempts e ctx records _ 1 "<nil>") as [err io].
  exists err, io. split; [reflexivity | exact Hposts].
Qed.







Lemma attempts_none_when_done (e : HTTPExporter.t) (ctx : Context.t)
    (data : list MetricRecord.t) (remaining : nat) (attempt : Z) (lastErr : string) :
  Context.done_before ctx attempt = true ->
  http_posts (HTTPExporter.attempts e ctx data remaining attempt lastErr).2 = 0%nat.
Proof.
  intros Hdone. destruct remaining as [| remaining]; [reflexivity |].
  cbn [HTTPExporter.attempts]. rewrite Hdone. reflexivity.
Qed.

Lemma attempts_cancelled_before (e : HTTPExporter.t) (ctx : Context.t)
    (data : list MetricRecord.t) (k : Z) (remaining : nat) (attempt : Z) (lastErr : string) :
  attempt <= k + 1 ->
  Context.done_before ctx (k + 1) = true ->
  (http_posts (HTTPExporter.attempts e ctx data remaining attempt lastErr).2
   <= Z.to_nat (k + 1 - attempt))%nat.
Proof.
  intros Hle Hdone. revert attempt lastErr Hle.
  induction remaining as [| remaining IH]; intros attempt lastErr Hle; [cbn; lia |].
  cbn [HTTPExporter.attempts].
  destruct (Context.done_before ctx attempt) eqn:Hnow; [cbn; lia |].
  assert (Hlt : attempt <= k).
  { destruct (Z.eq_dec attempt (k + 1)) as [-> | Hne]; [congruence | lia]. }
  pose proof (sendRequest_posts e attempt data) as [Hpost _].
  destruct (HTTPExporter.sendRequest e attempt data) as [[err |] io];
    cbn [snd] in Hpost.
  - specialize (IH (attempt + 1) err ltac:(lia)).
    destruct (attempt <? HTTPExporter.RetryAttempts e);
      [destruct (Context.done_in_delay ctx attempt) |];
      try (destruct (HTTPExporter.attempts e ctx data remaining (attempt + 1) err)
             as [err' io']);
      cbn [snd] in *; rewrite ?http_posts_app;
      change (http_posts [Log LevelWarn "HTTP export attempt failed"]) with 0%nat;
      try change (http_posts [Sleep (HTTPExporter.RetryDelay e)]) with 0%nat;
      lia.
  - cbn [snd]. rewrite http_posts_app.
    change (http_posts [Log LevelDebug "Exported metrics via HTTP"]) with 0%nat. lia.
Qed.

Lemma attempts_cancelled_in_delay (e : HTTPExporter.t) (ctx : Context.t)
    (data : list MetricRecord.t) (k : Z) (remaining : nat) (attempt : Z) (lastErr : string) :
  attempt <= k ->
  Context.done_in_delay ctx k = true ->
  Z.of_nat remaining <= Z.max 0 (HTTPExporter.RetryAttempts e - attempt + 1) ->
  (http_posts (HTTPExporter.attempts e ctx data remaining attempt lastErr).2
   <= Z.to_nat (k - attempt + 1))%nat.
Proof.
  intros Hle Hdone. revert attempt lastErr Hle.
  induction remaining as [| remaining IH]; intros attempt lastErr Hle Haligned;
    [cbn; lia |].
  cbn [HTTPExporter.attempts].
  destruct (Context.done_before ctx attempt); [cbn; lia |].
  pose proof (sendRequest_posts e attempt data) as [Hpost _].
  destruct (HTTPExporter.sendRequest e attempt data) as [[err |] io];
    cbn [snd] in Hpost.
  - destruct (Z.ltb_spec attempt (HTTPExporter.RetryAttempts e)) as [Hmore | Hlast].
    + destruct (Context.done_in_delay ctx attempt) eqn:Hdelay.
      * cbn [snd]. rewrite http_posts_app.
        change (http_posts [Log LevelWarn "HTTP export attempt failed"]) with 0%nat. lia.
      * assert (Hlt : attempt + 1 <= k).
        { destruct (Z.eq_dec attempt k) as [-> | Hne]; [congruence | lia]. }
        specialize (IH (attempt + 1) err Hlt ltac:(lia)).
        destruct (HTTPExporter.attempts e ctx data remaining (attempt + 1) err)
          as [err' io'].
        cbn [snd] in *. rewrite !http_posts_app.
        change (http_posts [Log LevelWarn "HTTP export attempt failed"]) with 0%nat.
        change (http_posts [Sleep (HTTPExporter.RetryDelay e)]) with 0%nat. lia.
    + assert (remaining = 0%nat) as -> by lia.
      cbn [HTTPExporter.attempts snd]. rewrite !http_posts_app.
      change (http_posts [Log LevelWarn "HTTP export attempt failed"]) with 0%nat.
      cbn. lia.
  - cbn [snd]. rewrite http_posts_app.
    change (http_posts [Log LevelDebug "Exported metrics via HTTP"]) with 0%nat. lia.
Qed.

(** X21.  Cancellation stops the retries of the HTTP exporter: when the
    context is cancelled before the delay after the [k]-th attempt has
    elapsed, or is found cancelled when attempt [k + 1] would start, no
    more than [k] requests are sent; in particular a context that is
    already cancelled when [Export] is called sends none. *)
Theorem HTTP_cancellation_stops_the_retries (e : HTTPExporter.t) (ctx : Context.t)
    (records : list MetricRecord.t) (k : Z) :
  (0 <= k /\ Context.done_before ctx (k + 1) = true)
  \/ (1 <= k /\ Context.done_in_delay ctx k = true) ->
  exists err io,
    HTTPExporter.Export e ctx records = Returns (err, io)
    /\ (http_posts io <= Z.to_nat k)%nat.
Proof.
  intros Hcancel. unfold HTTPExporter.Export.
  destruct (Z.of_nat (length records) =? 0);
    [exists None, []; split; [reflexivity | cbn; lia] |].
  destruct (negb (forallb marshal_ok records));
    [eexists; exists []; split; [reflexivity | cbn; lia] |].
  assert (Hposts : (http_posts (HTTPExporter.attempts e ctx records
                                  (Z.to_nat (HTTPExporter.RetryAttempts e)) 1 "<nil>").2
                    <= Z.to_nat k)%nat).
  { destruct Hcancel as [[Hk Hdone] | [Hk Hdone]].
    - pose proof (attempts_cancelled_before e ctx records k
                    (Z.to_nat (HTTPExporter.RetryAttempts e)) 1 "<nil>"
                    ltac:(lia) Hdone). lia.
    - pose proof (attempts_cancelled_in_delay e ctx records k
                    (Z.to_nat (HTTPExporter.RetryAttempts e)) 1 "<nil>"
                    Hk Hdone ltac:(lia)). lia. }
  destruct (HTTPExporter.attempts e ctx records _ 1 "<nil>") as [err io].
  exists err, io. split; [reflexivity | exact Hposts].
Qed.

Lemma HTTP_cancellation_stops_the_retries_witness :
  let record := createRecord example_transformer CounterTotalRequests 100%float
                  EmptyString 1000 in
  exists err io,
    HTTPExporter.Export example_flaky_http
        (Context.mk (fun _ => false) (fun k => k =? 1)) [record] = Returns (err, io)
    /\ (http_posts io <= 1)%nat.
Proof.
  intros record.
  apply (HTTP_cancellation_stops_the_retries example_flaky_http
           (Context.mk (fun _ => false) (fun k => k =? 1)) [record] 1).
  right. split; [lia | reflexivity].
Defined.



(** ** The PostgreSQL exporter *)

Lemma db_batches_app (io1 io2 : list event) :
  db_batches (io1 ++ io2) = db_batches io1 ++ db_batches io2.
Proof. unfold db_batches. apply flat_map_app. Qed.

Lemma batches_returns (e : PostgresExporter.t) (ctx : Context.t)
    (records : list MetricRecord.t) (fuel : nat) (i batchNo : Z) :
  0 < PostgresExporter.BatchSize e ->
  0 <= i ->
  Z.of_nat (length records) - i <= Z.of_nat fuel ->
  exists r, PostgresExporter.batches e ctx records fuel i batchNo = Returns r.
Proof.
  intros Hsize. revert i batchNo.
  induction fuel as [| fuel IH]; intros i batchNo Hi Hfuel.
  - cbn [PostgresExporter.batches].
    replace (i <? Z.of_nat (length records)) with false
      by (symmetry; apply Z.ltb_ge; lia).
    eexists; reflexivity.
  - cbn [PostgresExporter.batches].
    destruct (Z.ltb_spec i (Z.of_nat (length records))) as [Hlt | _];
      [| eexists; reflexivity].
    cbv zeta.
    match goal with
    | |- context [if ?hi <? i then _ else _] =>
        replace (hi <? i) with false
          by (symmetry; apply Z.ltb_ge;
              destruct (i + PostgresExporter.BatchSize e >? Z.of_nat (length records));
              lia)
    end.
    destruct (PostgresExporter.insertBatch e ctx batchNo _) as [[err |] io];
      [eexists; reflexivity |].
    destruct (IH (i + PostgresExporter.BatchSize e) (batchNo + 1)) as [[err' io'] ->];
      [lia | lia |].
    eexists. reflexivity.
Qed.

Lemma batches_never_advance (e : PostgresExporter.t) (ctx : Context.t)
    (records : list MetricRecord.t) (fuel : nat) (batchNo : Z) :
  PostgresExporter.BatchSize e = 0 ->
  records <> [] ->
  PostgresExporter.batches e ctx records fuel 0 batchNo = Diverges.
Proof.
  intros Hsize Hrecords. revert batchNo.
  assert (Hlen : (0 <? Z.of_nat (length records)) = true).
  { apply Z.ltb_lt. destruct records; [contradiction Hrecords; reflexivity |].
    cbn [length]. lia. }
  induction fuel as [| fuel IH]; intros batchNo; cbn [PostgresExporter.batches];
    rewrite Hlen; [reflexivity |].
  rewrite Hsize. cbv zeta. change (0 + 0) with 0.
  replace (0 >? Z.of_nat (length records)) with false
    by (symmetry; rewrite Z.gtb_ltb; apply Z.ltb_ge; lia).
  change (0 <? 0) with false. cbv iota.
  unfold PostgresExporter.insertBatch, PostgresExporter.slice.
  change (Z.to_nat (0 - 0)) with 0%nat. cbn [take length Z.of_nat Z.eqb].
  rewrite IH. reflexivity.
Qed.

(** X23.  On a batch that is not empty, [Export] of the PostgreSQL
    exporter returns exactly when the batch size is positive.  With a batch
    size of zero the loop over the batches never advances and the call
    never returns; with a negative batch size the first slice expression
    panics. *)
Theorem Postgres_export_needs_a_positive_batch_size (e : PostgresExporter.t)
    (ctx : Context.t) (records : list MetricRecord.t) :
  records <> [] ->
  (0 < PostgresExporter.BatchSize e ->
     exists r, PostgresExporter.Export e ctx records = Returns r)
  /\ (PostgresExporter.BatchSize e = 0 ->
      PostgresExporter.Export e ctx records = Diverges)
  /\ (PostgresExporter.BatchSize e < 0 ->
      PostgresExporter.Export e ctx records = Panics).
Proof.
  intros Hrecords. unfold PostgresExporter.Export.
  destruct records as [| r records]; [contradiction Hrecords; reflexivity |].
  replace (Z.of_nat (length (r :: records)) =? 0) with false
    by (symmetry; apply Z.eqb_neq; cbn [length]; lia).
  split; [| split].
  - intros Hsize. apply batches_returns; [exact Hsize | lia | lia].
  - intros Hsize. apply batches_never_advance; [exact Hsize | discriminate].
  - intros Hsize. cbn [length PostgresExporter.batches].
    replace (0 <? Z.of_nat (S (length records))) with true
      by (symmetry; apply Z.ltb_lt; lia).
    cbv zeta. rewrite Z.add_0_l.
    replace (PostgresExporter.BatchSize e >? Z.of_nat (S (length records))) with false
      by (symmetry; rewrite Z.gtb_ltb; apply Z.ltb_ge; lia).
    replace (PostgresExporter.BatchSize e <? 0) with true
      by (symmetry; apply Z.ltb_lt; exact Hsize).
    reflexivity.
Qed.

Lemma Postgres_export_needs_a_positive_batch_size_witness :
  exists r, PostgresExporter.Export example_postgres Context.background example_records
            = Returns r.
Proof.
  destruct (Postgres_export_needs_a_positive_batch_size example_postgres
              Context.background example_records) as [Hpositive _].
  - discriminate.
  - apply Hpositive. cbn. lia.
Defined.

Lemma insertBatch_first_try (e : PostgresExporter.t) (ctx : Context.t)
    (batchNo : Z) (batch : list MetricRecord.t) :
  1 <= PostgresExporter.MaxRetry e ->
  PostgresExporter.db e batchNo 1 = None ->
  batch <> [] ->
  PostgresExporter.insertBatch e ctx batchNo batch
  = (None, [DBExec (PostgresExporter.TableName e) batch]).
Proof.
  intros Hretry Hdb Hbatch. unfold PostgresExporter.insertBatch.
  replace (Z.of_nat (length batch) =? 0) with false
    by (symmetry; apply Z.eqb_neq; destruct batch;
        [contradiction Hbatch; reflexivity | cbn [length]; lia]).
  destruct (Z.to_nat (PostgresExporter.MaxRetry e)) as [| remaining] eqn:Hremaining;
    [lia |].
  cbn [PostgresExporter.attempts]. rewrite Hdb. reflexivity.
Qed.

Lemma slice_then_rest (records : list MetricRecord.t) (i size : Z) :
  0 < size -> 0 <= i -> i < Z.of_nat (length records) ->
  let hi := if i + size >? Z.of_nat (length records)
            then Z.of_nat (length records) else i + size in
  PostgresExporter.slice records i hi ++ drop (Z.to_nat (i + size)) records
  = drop (Z.to_nat i) records
  /\ (0 < length (PostgresExporter.slice records i hi))%nat
  /\ Z.of_nat (length (PostgresExporter.slice records i hi)) <= size.
Proof.
  intros Hsize Hi Hlt hi. subst hi. unfold PostgresExporter.slice.
  rewrite Z.gtb_ltb.
  destruct (Z.ltb_spec (Z.of_nat (length records)) (i + size)) as [Hover | Hfits].
  - rewrite (drop_ge records (Z.to_nat (i + size))) by lia.
    rewrite app_nil_r.
    rewrite take_ge by (rewrite length_drop; lia).
    rewrite length_drop. repeat split; lia.
  - replace (Z.to_nat (i + size)) with (Z.to_nat i + Z.to_nat size)%nat by lia.
    replace (Z.to_nat (i + size - i)) with (Z.to_nat size) by (f_equal; lia).
    rewrite <- drop_drop, take_drop.
    rewrite length_take, length_drop. repeat split; lia.
Qed.

Lemma batches_all_accepted (e : PostgresExporter.t) (ctx : Context.t)
    (records : list MetricRecord.t) (fuel : nat) (i batchNo : Z) :
  0 < PostgresExporter.BatchSize e ->
  1 <= PostgresExporter.MaxRetry e ->
  (forall b, PostgresExporter.db e b 1 = None) ->
  0 <= i ->
  Z.of_nat (length records) - i <= Z.of_nat fuel ->
  exists io,
    PostgresExporter.batches e ctx records fuel i batchNo = Returns (None, io)
    /\ concat (db_batches io) = drop (Z.to_nat i) records
    /\ Forall (fun batch => (0 < length batch)%nat
                            /\ Z.of_nat (length batch) <= PostgresExporter.BatchSize e)
         (db_batches io).
Proof.
  intros Hsize Hretry Hdb. revert i batchNo.
  induction fuel as [| fuel IH]; intros i batchNo Hi Hfuel.
  - cbn [PostgresExporter.batches].
    replace (i <? Z.of_nat (length records)) with false
      by (symmetry; apply Z.ltb_ge; lia).
    eexists. split; [reflexivity |]. cbn. split; [| constructor].
    symmetry. apply drop_ge. lia.
  - cbn [PostgresExporter.batches].
    destruct (Z.ltb_spec i (Z.of_nat (length records))) as [Hlt | Hge].
    + cbv zeta.
      destruct (slice_then_rest records i (PostgresExporter.BatchSize e) Hsize Hi Hlt)
        as (Hsplit & Hpos & Hle).
      cbv zeta in Hsplit, Hpos, Hle.
      set (hi := if i + PostgresExporter.BatchSize e >? Z.of_nat (length records)
                 then Z.of_nat (length records)
                 else i + PostgresExporter.BatchSize e) in *.
      replace (hi <? i) with false
        by (symmetry; apply Z.ltb_ge; subst hi;
            destruct (i + PostgresExporter.BatchSize e >? Z.of_nat (length records));
            lia).
      rewrite insertBatch_first_try;
        [| exact Hretry | apply Hdb
         | intros Hnil; rewrite Hnil in Hpos; cbn in Hpos; lia].
      destruct (IH (i + PostgresExporter.BatchSize e) (batchNo + 1))
        as (io' & -> & Hconcat & Hall); [lia | lia |].
      eexists. split; [reflexivity |].
      rewrite db_batches_app. cbn [db_batches flat_map app].
      split.
      * cbn [concat]. rewrite Hconcat. exact Hsplit.
      * constructor; [split; assumption | exact Hall].
    + eexists. split; [reflexivity |]. cbn. split; [| constructor].
      symmetry. apply drop_ge. lia.
Qed.

(** X24.  With a positive batch size and a database that accepts every
    batch at the first attempt, [Export] of the PostgreSQL exporter returns
    nil, and the batches it inserts are the records in their order: each
    batch is non-empty and at most [BatchSize] long, and joined together
    they are the records, so no record is lost or sent twice. *)
Theorem Postgres_export_splits_into_batches (e : PostgresExporter.t)
    (ctx : Context.t) (records : list MetricRecord.t) :
  0 < PostgresExporter.BatchSize e ->
  1 <= PostgresExporter.MaxRetry e ->
  (forall b, PostgresExporter.db e b 1 = None) ->
  exists io,
    PostgresExporter.Export e ctx records = Returns (None, io)
    /\ concat (db_batches io) = records
    /\ Forall (fun batch => (0 < length batch)%nat
                            /\ Z.of_nat (length batch) <= PostgresExporter.BatchSize e)
         (db_batches io).
Proof.
  intros Hsize Hretry Hdb. unfold PostgresExporter.Export.
  destruct (Z.eqb_spec (Z.of_nat (length records)) 0) as [Hempty | _].
  - exists []. destruct records; [| cbn [length] in Hempty; lia].
    split; [reflexivity |]. split; [reflexivity | constructor].
  - destruct (batches_all_accepted e ctx records (length records) 0 0 Hsize Hretry Hdb)
      as (io & Hrun & Hconcat & Hall); [lia | lia |].
    exists io. split; [exact Hrun |]. split; [exact Hconcat | exact Hall].
Qed.

Lemma Postgres_export_splits_into_batches_witness :
  exists io,
    PostgresExporter.Export example_postgres Context.background example_records
    = Returns (None, io)
    /\ concat (db_batches io) = example_records
    /\ Forall (fun batch => (0 < length batch)%nat
                            /\ Z.of_nat (length batch)
                               <= PostgresExporter.BatchSize example_postgres)
         (db_batches io).
Proof.
  apply (Postgres_export_splits_into_batches example_postgres Context.background
           example_records).
  - cbn. lia.
  - cbn. lia.
  - intros b. reflexivity.
Defined.

Lemma attempts_all_rejected (e : PostgresExporter.t) (ctx : Context.t)
    (batchNo : Z) (batch : list MetricRecord.t) :
  (forall a, PostgresExporter.db e batchNo a <> None) ->
  never_done ctx ->
  forall (remaining : nat) (attempt : Z) (lastErr : string),
  exists msg io,
    PostgresExporter.attempts e ctx batchNo batch remaining attempt lastErr
    = (Some msg, io)
    /\ db_batches io = repeat batch remaining.
Proof.
  intros Hdb Hctx.
  induction remaining as [| remaining IH]; intros attempt lastErr.
  - cbn [PostgresExporter.attempts]. eexists. eexists. split; reflexivity.
  - cbn [PostgresExporter.attempts].
    destruct (PostgresExporter.db e batchNo attempt) as [err |] eqn:Herr;
      [| contradiction (Hdb attempt)].
    destruct (IH (attempt + 1) err) as (msg & io & Hrest & Hbatches).
    rewrite Hrest. cbv zeta.
    destruct (attempt <? PostgresExporter.MaxRetry e).
    + rewrite (proj2 (Hctx attempt)).
      eexists. eexists. split; [reflexivity |].
      rewrite !db_batches_app, Hbatches. reflexivity.
    + eexists. eexists. split; [reflexivity |].
      rewrite db_batches_app, Hbatches. reflexivity.
Qed.

Lemma first_slice (records : list MetricRecord.t) (size : Z) :
  0 < size ->
  PostgresExporter.slice records 0
    (if 0 + size >? Z.of_nat (length records) then Z.of_nat (length records)
     else 0 + size)
  = take (Z.to_nat size) records.
Proof.
  intros Hsize. unfold PostgresExporter.slice.
  change (Z.to_nat 0) with 0%nat. rewrite drop_0, Z.gtb_ltb, Z.add_0_l.
  destruct (Z.ltb_spec (Z.of_nat (length records)) size) as [Hover | Hfits].
  - rewrite !take_ge by lia. reflexivity.
  - f_equal. lia.
Qed.

(** X25.  When the database rejects every attempt at the first batch and
    the context is never cancelled, [Export] of the PostgreSQL exporter
    returns an error after sending that batch [MaxRetry] times, and it
    sends nothing else: no later batch is tried. *)
Theorem Postgres_export_stops_at_the_first_failed_batch (e : PostgresExporter.t)
    (ctx : Context.t) (records : list MetricRecord.t) :
  0 < PostgresExporter.BatchSize e ->
  records <> [] ->
  never_done ctx ->
  (forall a, PostgresExporter.db e 0 a <> None) ->
  exists msg io,
    PostgresExporter.Export e ctx records = Returns (Some msg, io)
    /\ db_batches io
       = repeat (take (Z.to_nat (PostgresExporter.BatchSize e)) records)
           (Z.to_nat (PostgresExporter.MaxRetry e)).
Proof.
  intros Hsize Hrecords Hctx Hdb. unfold PostgresExporter.Export.
  destruct records as [| r records]; [contradiction Hrecords; reflexivity |].
  replace (Z.of_nat (length (r :: records)) =? 0) with false
    by (symmetry; apply Z.eqb_neq; cbn [length]; lia).
  change (length (r :: records)) with (S (length records)) at 1.
  cbn [PostgresExporter.batches].
  replace (0 <? Z.of_nat (length (r :: records))) with true
    by (symmetry; apply Z.ltb_lt; cbn [length]; lia).
  cbv zeta. rewrite (first_slice (r :: records) _ Hsize).
  match goal with
  | |- context [if ?hi <? 0 then _ else _] =>
      replace (hi <? 0) with false
        by (symmetry; apply Z.ltb_ge;
            destruct (0 + PostgresExporter.BatchSize e >? Z.of_nat (length (r :: records)));
            lia)
  end.
  unfold PostgresExporter.insertBatch.
  replace (Z.of_nat (length (take (Z.to_nat (PostgresExporter.BatchSize e)) (r :: records)))
           =? 0) with false
    by (symmetry; apply Z.eqb_neq; rewrite length_take; cbn [length]; lia).
  destruct (attempts_all_rejected e ctx 0
              (take (Z.to_nat (PostgresExporter.BatchSize e)) (r :: records)) Hdb Hctx
              (Z.to_nat (PostgresExporter.MaxRetry e)) 1 "<nil>")
    as (msg & io & -> & Hbatches).
  eexists. eexists. split; [reflexivity | exact Hbatches].
Qed.

Lemma Postgres_export_stops_at_the_first_failed_batch_witness :
  exists msg io,
    PostgresExporter.Export example_failing_postgres Context.background example_records
    = Returns (Some msg, io)
    /\ db_batches io
       = repeat (take (Z.to_nat (PostgresExporter.BatchSize example_failing_postgres))
                   example_records)
           (Z.to_nat (PostgresExporter.MaxRetry example_failing_postgres)).
Proof.
  apply (Postgres_export_stops_at_the_first_failed_batch example_failing_postgres
           Context.background example_records).
  - cbn. lia.
  - discriminate.
  - intros k. split; reflexivity.
  - intros a. discriminate.
Defined.

(** X26.  With a retry limit below one the retry loop of [insertBatch]
    is never entered: a non-empty export fails although no statement was
    sent to the database, whatever the database would have answered. *)
Theorem Postgres_export_without_attempts_fails (e : PostgresExporter.t)
    (ctx : Context.t) (records : list MetricRecord.t) :
  0 < PostgresExporter.BatchSize e ->
  PostgresExporter.MaxRetry e < 1 ->
  records <> [] ->
  exists msg, PostgresExporter.Export e ctx records = Returns (Some msg, []).
Proof.
  intros Hsize Hretry Hrecords. unfold PostgresExporter.Export.
  destruct records as [| r records]; [contradiction Hrecords; reflexivity |].
  replace (Z.of_nat (length (r :: records)) =? 0) with false
    by (symmetry; apply Z.eqb_neq; cbn [length]; lia).
  change (length (r :: records)) with (S (length records)) at 1.
  cbn [PostgresExporter.batches].
  replace (0 <? Z.of_nat (length (r :: records))) with true
    by (symmetry; apply Z.ltb_lt; cbn [length]; lia).
  cbv zeta. rewrite (first_slice (r :: records) _ Hsize).
  match goal with
  | |- context [if ?hi <? 0 then _ else _] =>
      replace (hi <? 0) with false
        by (symmetry; apply Z.ltb_ge;
            destruct (0 + PostgresExporter.BatchSize e >? Z.of_nat (length (r :: records)));
            lia)
  end.
  unfold PostgresExporter.insertBatch.
  replace (Z.of_nat (length (take (Z.to_nat (PostgresExporter.BatchSize e)) (r :: records)))
           =? 0) with false
    by (symmetry; apply Z.eqb_neq; rewrite length_take; cbn [length]; lia).
  replace (Z.to_nat (PostgresExporter.MaxRetry e)) with 0%nat by lia.
  cbn [PostgresExporter.attempts]. eexists. reflexivity.
Qed.

Lemma Postgres_export_without_attempts_fails_witness :
  exists msg,
    PostgresExporter.Export
      (PostgresExporter.mk "pg" "metrics" 2 (-1) (fun _ _ => None) None)
      Context.background example_records
    = Returns (Some msg, []).
Proof.
  apply Postgres_export_without_attempts_fails.
  - cbn. lia.
  - cbn. lia.
  - discriminate.
Defined.

Lemma Export_negative_batch_size (e : PostgresExporter.t) (ctx : Context.t)
    (records : list MetricRecord.t) :
  PostgresExporter.BatchSize e < 0 ->
  records <> [] ->
  PostgresExporter.Export e ctx records = Panics.
Proof.
  intros Hsize Hrecords. unfold PostgresExporter.Export.
  destruct records as [| r records]; [contradiction Hrecords; reflexivity |].
  replace (Z.of_nat (length (r :: records)) =? 0) with false
    by (symmetry; apply Z.eqb_neq; cbn [length]; lia).
  cbn [length PostgresExporter.batches].
  replace (0 <? Z.of_nat (S (length records))) with true
    by (symmetry; apply Z.ltb_lt; lia).
  cbv zeta. rewrite Z.add_0_l.
  replace (PostgresExporter.BatchSize e >? Z.of_nat (S (length records))) with false
    by (symmetry; rewrite Z.gtb_ltb; apply Z.ltb_ge; lia).
  replace (PostgresExporter.BatchSize e <? 0) with true
    by (symmetry; apply Z.ltb_lt; exact Hsize).
  reflexivity.
Qed.

Ltac not_in_setup_log :=
  let H := fresh "Hin" in
  intros H;
  repeat (apply elem_of_cons in H as [H | H]; [discriminate H |]);
  inversion H.

Ltac in_setup_log :=
  repeat first [apply list_elem_of_here | apply list_elem_of_further].

Lemma configured_exporter (config : PostgresExporterConfig.t) (server : PostgresServer.t)
    (x : PostgresExporter.t) :
  x = PostgresExporter.mk (PostgresExporterConfig.Name config)
        (if String.eqb (PostgresExporterConfig.TableName config) EmptyString
         then "metrics" else PostgresExporterConfig.TableName config)
        (if PostgresExporterConfig.BatchSize config =? 0 then 1000
         else PostgresExporterConfig.BatchSize config)
        (if PostgresExporterConfig.MaxRetry config =? 0 then 3
         else PostgresExporterConfig.MaxRetry config)
        (PostgresServer.db server) (PostgresServer.db_close server) ->
  PostgresExporter.TableName x <> EmptyString
  /\ PostgresExporter.BatchSize x <> 0
  /\ PostgresExporter.MaxRetry x <> 0
  /\ (PostgresExporterConfig.BatchSize config < 0 ->
      forall ctx records, records <> [] ->
      PostgresExporter.Export x ctx records = Panics).
Proof.
  intros ->.
  cbn [PostgresExporter.TableName PostgresExporter.BatchSize PostgresExporter.MaxRetry].
  split; [| split; [| split]].
  - destruct (String.eqb_spec (PostgresExporterConfig.TableName config) EmptyString);
      [discriminate | assumption].
  - destruct (Z.eqb_spec (PostgresExporterConfig.BatchSize config) 0);
      [discriminate | assumption].
  - destruct (Z.eqb_spec (PostgresExporterConfig.MaxRetry config) 0);
      [discriminate | assumption].
  - intros Hsize ctx records Hrecords.
    apply Export_negative_batch_size; [| exact Hrecords].
    cbn [PostgresExporter.BatchSize].
    destruct (Z.eqb_spec (PostgresExporterConfig.BatchSize config) 0); lia.
Qed.

(** X27.  [NewPostgresExporter] returns an exporter exactly when the
    connection string is not empty and the database opens and answers the
    ping, and otherwise an error; the connection is closed exactly when the
    ping failed.  A failure of the table statement does not stop the
    construction, but then no index statement is sent.  The exporter it
    returns has a table name, a batch size and a retry limit that are not
    zero; a negative batch size is kept as it is, and every non-empty
    export of that exporter then panics. *)
Theorem NewPostgresExporter_outcomes (config : PostgresExporterConfig.t)
    (server : PostgresServer.t) :
  let '(e, err, io) := NewPostgresExporter config server in
  (e <> nil <-> PostgresExporterConfig.ConnectionString config <> EmptyString
                /\ PostgresServer.open server = None
                /\ PostgresServer.ping server = None)
  /\ (e = nil <-> err <> None)
  /\ (CloseDB ∈ io <-> PostgresExporterConfig.ConnectionString config <> EmptyString
                       /\ PostgresServer.open server = None
                       /\ PostgresServer.ping server <> None)
  /\ (PostgresServer.create_table server <> None ->
      forall index table, CreateIndex index table ∉ io)
  /\ (forall x, e = Some x ->
      PostgresExporter.TableName x <> EmptyString
      /\ PostgresExporter.BatchSize x <> 0
      /\ PostgresExporter.MaxRetry x <> 0
      /\ (PostgresExporterConfig.BatchSize config < 0 ->
          forall ctx records, records <> [] ->
          PostgresExporter.Export x ctx records = Panics)).
Proof.
  unfold NewPostgresExporter, nil.
  destruct (String.eqb_spec (PostgresExporterConfig.ConnectionString config) EmptyString)
    as [Hconn | Hconn].
  { split; [| split; [| split; [| split]]].
    - split; [intros H; contradiction H; reflexivity | intros (H & _); contradiction].
    - split; [discriminate | reflexivity].
    - split; [not_in_setup_log | intros (H & _); contradiction].
    - intros _ index table. not_in_setup_log.
    - discriminate. }
  cbv zeta.
  destruct (PostgresServer.open server) as [openErr |] eqn:Hopen.
  { split; [| split; [| split; [| split]]].
    - split; [intros H; contradiction H; reflexivity | intros (_ & H & _); discriminate H].
    - split; [discriminate | reflexivity].
    - split; [not_in_setup_log | intros (_ & H & _); discriminate H].
    - intros _ index table. not_in_setup_log.
    - discriminate. }
  destruct (PostgresServer.ping server) as [pingErr |] eqn:Hping.
  { split; [| split; [| split; [| split]]].
    - split; [intros H; contradiction H; reflexivity | intros (_ & _ & H); discriminate H].
    - split; [discriminate | reflexivity].
    - split; [intros _; repeat split; [assumption | discriminate] |].
      intros _. cbn [app]. in_setup_log.
    - intros _ index table. not_in_setup_log.
    - discriminate. }
  unfold ensureTable.
  destruct (PostgresServer.create_table server) as [tableErr |] eqn:Htable.
  - split; [| split; [| split; [| split]]].
    + split; [intros _; repeat split; assumption | discriminate].
    + split; [discriminate | intros H; contradiction H; reflexivity].
    + split; [not_in_setup_log | intros (_ & _ & H); contradiction H; reflexivity].
    + intros _ index table. not_in_setup_log.
    + intros x Hx. apply (configured_exporter config server).
      injection Hx as <-. reflexivity.
  - cbn [ensureIndexes].
    split; [| split; [| split; [| split]]].
    + split; [intros _; repeat split; assumption | discriminate].
    + split; [discriminate | intros H; contradiction H; reflexivity].
    + split; [| intros (_ & _ & H); contradiction H; reflexivity].
      destruct (PostgresServer.create_index server 0),
               (PostgresServer.create_index server (0 + 1)),
               (PostgresServer.create_index server (0 + 1 + 1));
        not_in_setup_log.
    + intros H. contradiction H. reflexivity.
    + intros x Hx. apply (configured_exporter config server).
      injection Hx as <-. reflexivity.
Qed.

Lemma NewPostgresExporter_outcomes_witness :
  exists x io,
    NewPostgresExporter example_postgres_config example_postgres_server
    = (Some x, None, io)
    /\ PostgresExporter.TableName x <> EmptyString
    /\ (forall index table, CreateIndex index table ∉ io).
Proof.
  generalize (NewPostgresExporter_outcomes example_postgres_config example_postgres_server).
  destruct (NewPostgresExporter example_postgres_config example_postgres_server)
    as [[e err] io] eqn:Hnew.
  vm_compute in Hnew. injection Hnew as <- <- <-.
  intros (_ & _ & _ & Hindexes & Hfields).
  eexists. eexists. split; [reflexivity |]. split.
  - apply (Hfields _ eq_refl).
  - apply Hindexes. discriminate.
Defined.

(** ** The file exporter *)





